(** * Scheduling core of the maintenance planner (or-tools service)

    A shallow embedding of the Python sources under [or-tools/src]:
    the CP-SAT constraint builder, the objective builder, the solver
    driver, the scheduling service, the event model and service, and the
    schedule models, followed by the properties proved about them.

    Conventions of the embedding.
    - Python [float] values (hours, weights) are exact rationals [Q];
      [int(x)] on a float is truncation toward zero.
    - A [datetime] is an integer count of microseconds, a [timedelta] the
      difference of two of them; [datetime.now()] is an input.  All
      datetimes are taken to be naive, so that any two of them can be
      compared and subtracted.
    - A [dict] is an association list that keeps insertion order; a [set]
      is a [gset].
    - An exception is a value of [Exn]; code that can raise returns
      [Exn + A], and code that also mutates an object returns the object. *)

From Stdlib Require Import ZArith QArith Qabs Qround String DecimalString Lqa Lia.
From stdpp Require Import gmap strings list.

(** ** Python primitives *)

Module Py.

(** [int(x)] for a float [x]: truncation toward zero. *)
Definition int_of_float (x : Q) : Z := Z.quot (Qnum x) (Z.pos (Qden x)).

(** [str(n)] and [f"{n}"] for an integer [n]. *)
Definition str_of_int (n : Z) : string := NilZero.string_of_int (Z.to_int n).

(** Truth value of an optional float: [None] and [0.0] are falsy. *)
Definition truthy_float (x : option Q) : bool :=
  match x with
  | Some v => negb (Qeq_bool v (0 # 1))
  | None => false
  end.

(** Microseconds in a second, a minute and an hour. *)
Definition us_per_second : Z := 1000000.
Definition us_per_minute : Z := 60 * us_per_second.
Definition us_per_hour : Z := 3600 * us_per_second.

(** [td.total_seconds()] for a [timedelta] of [td] microseconds. *)
Definition total_seconds (td : Z) : Q := Qmake td 1000000.

(** [timedelta(minutes=m)]. *)
Definition timedelta_minutes (m : Z) : Z := (m * us_per_minute)%Z.

Section Dict.
Context {V : Type}.

(** [d.get(k)]. *)
Fixpoint dict_get (d : list (string * V)) (k : string) : option V :=
  match d with
  | [] => None
  | (k', v) :: d' => if decide (k' = k) then Some v else dict_get d' k
  end.

(** [d[k] = v]: an existing key keeps its position. *)
Fixpoint dict_set (d : list (string * V)) (k : string) (v : V) : list (string * V) :=
  match d with
  | [] => [(k, v)]
  | (k', v') :: d' =>
      if decide (k' = k) then (k', v) :: d' else (k', v') :: dict_set d' k v
  end.

(** [k in d]. *)
Definition dict_mem (d : list (string * V)) (k : string) : bool :=
  match dict_get d k with Some _ => true | None => false end.


End Dict.

(** [x in l] for a list of strings. *)
Definition str_in (x : string) (l : list string) : bool := bool_decide (x ∈ l).

End Py.

Abbreviation dict V := (list (string * V)) (only parsing).

(** ** Exceptions ([core/exceptions.py]) *)

Inductive Exn : Type :=
| ValidationError (message : string)
| ResourceConflictError (message : string) (conflicting_resources : list string)
| ConstraintViolationError (message : string) (violated_constraints : list string)
| ConfigurationError (message : string)
| SolverError (message : string)
| EventProcessingError (message : string) (event_type event_id : option string)
| ValueError (message : string)
| KeyError (key : string)
| AttributeError (message : string).

(** [str(e)]. *)
Definition exn_message (e : Exn) : string :=
  match e with
  | ValidationError m => m
  | ResourceConflictError m _ => m
  | ConstraintViolationError m _ => m
  | ConfigurationError m => m
  | SolverError m => m
  | EventProcessingError m _ _ => m
  | ValueError m => m
  | KeyError k => k
  | AttributeError m => m
  end.


(** [e.error_code], fixed by each subclass constructor. *)
Definition exn_error_code (e : Exn) : string :=
  match e with
  | ValidationError _ => "VALIDATION_ERROR"
  | ResourceConflictError _ _ => "RESOURCE_CONFLICT"
  | ConstraintViolationError _ _ => "CONSTRAINT_VIOLATION"
  | ConfigurationError _ => "CONFIGURATION_ERROR"
  | SolverError _ => "SOLVER_ERROR"
  | EventProcessingError _ _ _ => "EVENT_PROCESSING_ERROR"
  | ValueError _ => "VALUEERROR"
  | KeyError _ => "KEYERROR"
  | AttributeError _ => "ATTRIBUTEERROR"
  end.


(** ** Domain models ([models/job.py], [models/resource.py],
    [models/preparation.py]) *)

Record ResourceRequirement : Type := {
  req_resource_id : string;
  req_quantity : Z;
  req_is_critical : bool
}.

Record Job : Type := {
  job_id : string;
  work_card_id : string;
  job_engine_id : string;
  job_name : string;
  base_duration_hours : Q;
  required_resources : list ResourceRequirement;
  required_qualifications : list string;
  predecessor_jobs : list string;
  job_earliest_start : option Z;
  job_latest_finish : option Z;
  fixed_start : option Z;
  fixed_duration : option Q
}.

(** [Job.has_resource_requirement]. *)
Definition has_resource_requirement (j : Job) (resource_id : string) : bool :=
  existsb (fun req => bool_decide (req_resource_id req = resource_id))
          (required_resources j).

(** [Job.get_resource_quantity]. *)
Definition get_resource_quantity (j : Job) (resource_id : string) : Z :=
  match filter (fun req => req_resource_id req = resource_id)
               (required_resources j) with
  | req :: _ => req_quantity req
  | [] => 0%Z
  end.

(** Fields of the base class [Resource] that the scheduler reads. *)
Record ResourceBase : Type := {
  resource_id : string;
  resource_name : string;
  total_quantity : Z;
  hourly_cost : option Q
}.

(** The class hierarchy: a plain [Resource], a [HumanResource] or a
    [PhysicalResource]; [isinstance] is a match on the constructor. *)
Inductive Resource : Type :=
| PlainResource (base : ResourceBase)
| HumanResource (base : ResourceBase) (employee_id : string)
                (qualifications : list string)
| PhysicalResource (base : ResourceBase) (is_exclusive : bool)
                   (exclusive_group : option string).

Definition resource_base (r : Resource) : ResourceBase :=
  match r with
  | PlainResource b => b
  | HumanResource b _ _ => b
  | PhysicalResource b _ _ => b
  end.

Definition is_human (r : Resource) : bool :=
  match r with HumanResource _ _ _ => true | _ => false end.

(** [isinstance(r, PhysicalResource) and r.is_exclusive]. *)
Definition is_exclusive_physical (r : Resource) : bool :=
  match r with PhysicalResource _ ex _ => ex | _ => false end.

(** [HumanResource.has_qualification]; only called on human resources. *)
Definition has_qualification (r : Resource) (qualification : string) : bool :=
  match r with
  | HumanResource _ _ quals => Py.str_in qualification quals
  | _ => false
  end.

(** One entry of [PreparationTask.required_assets]: a dictionary of which
    only the key ["asset_id"] is read. *)
Record AssetRequirement : Type := { asset_id : option string }.

Record PreparationTask : Type := {
  prep_id : string;
  prep_engine_id : string;
  work_package_id : string;
  prep_name : string;
  is_gate : bool;
  dependencies : list string;
  prep_earliest_start : option Z;
  prep_latest_finish : option Z;
  duration_hours : Q;
  required_assets : list AssetRequirement
}.

(** The constraint configuration dictionary: the two keys that are read. *)
Record ConstraintConfig : Type := {
  time_horizon_hours : option Z;
  plan_start_time : option Z
}.

(** ** The CP-SAT model object ([ortools.sat.python.cp_model.CpModel])

    The library is outside the repository; the model records, in order,
    the variables, intervals and constraints that the builder asks for. *)

Module CpModel.

Record IntVar : Type := {
  var_index : nat;
  var_lb : Z;
  var_ub : Z;
  var_name : string
}.

Inductive LinearExpr : Type :=
| LVar (v : IntVar)
| LConst (c : Z)
| LAdd (a b : LinearExpr)
| LSub (a b : LinearExpr)
| LScale (k : Z) (e : LinearExpr).

Record IntervalVar : Type := {
  itv_start : IntVar;
  itv_size : IntVar;
  itv_end : IntVar;
  itv_presence : option IntVar;
  itv_name : string
}.

Inductive Constraint : Type :=
| CLe (a b : LinearExpr)
| CGe (a b : LinearExpr)
| CEq (a b : LinearExpr)
| CNoOverlap (intervals : list IntervalVar).

Record t : Type := {
  variables : list IntVar;
  intervals : list IntervalVar;
  constraints : list Constraint
}.

Definition empty : t := {| variables := []; intervals := []; constraints := [] |}.

Definition NewIntVar (lb ub : Z) (name : string) (m : t) : IntVar * t :=
  let v := {| var_index := length (variables m); var_lb := lb; var_ub := ub;
              var_name := name |} in
  (v, {| variables := variables m ++ [v]; intervals := intervals m;
         constraints := constraints m |}).

Definition NewConstant (c : Z) (m : t) : IntVar * t :=
  NewIntVar c c EmptyString m.

Definition NewBoolVar (name : string) (m : t) : IntVar * t :=
  NewIntVar 0 1 name m.

Definition NewIntervalVar (start size end_ : IntVar) (name : string) (m : t)
  : IntervalVar * t :=
  let i := {| itv_start := start; itv_size := size; itv_end := end_;
              itv_presence := None; itv_name := name |} in
  (i, {| variables := variables m; intervals := intervals m ++ [i];
         constraints := constraints m |}).

Definition NewOptionalIntervalVar (start size end_ presence : IntVar)
  (name : string) (m : t) : IntervalVar * t :=
  let i := {| itv_start := start; itv_size := size; itv_end := end_;
              itv_presence := Some presence; itv_name := name |} in
  (i, {| variables := variables m; intervals := intervals m ++ [i];
         constraints := constraints m |}).

Definition Add (c : Constraint) (m : t) : Constraint * t :=
  (c, {| variables := variables m; intervals := intervals m;
         constraints := constraints m ++ [c] |}).

Definition AddNoOverlap (ivs : list IntervalVar) (m : t) : Constraint * t :=
  Add (CNoOverlap ivs) m.

(** [sum(xs)] over expressions: Python starts from the integer 0. *)
Definition sum_exprs (xs : list LinearExpr) : LinearExpr :=
  fold_left LAdd xs (LConst 0).

(** Value of an expression under a valuation of the variables. *)
Fixpoint eval (rho : nat -> Z) (e : LinearExpr) : Z :=
  match e with
  | LVar v => rho (var_index v)
  | LConst c => c
  | LAdd a b => eval rho a + eval rho b
  | LSub a b => eval rho a - eval rho b
  | LScale k a => k * eval rho a
  end.

(** *** What a solution of the model is

    A valuation [rho] of the variables solves the model when every value
    lies in its domain, every interval that is present has
    [start + size = end], and every constraint holds. *)

Definition in_domain (rho : nat -> Z) (v : IntVar) : bool :=
  (var_lb v <=? rho (var_index v))%Z && (rho (var_index v) <=? var_ub v)%Z.

Definition present (rho : nat -> Z) (i : IntervalVar) : bool :=
  match itv_presence i with
  | None => true
  | Some p => negb (rho (var_index p) =? 0)%Z
  end.

Definition interval_consistent (rho : nat -> Z) (i : IntervalVar) : bool :=
  negb (present rho i)
  || (rho (var_index (itv_start i)) + rho (var_index (itv_size i))
      =? rho (var_index (itv_end i)))%Z.

Definition disjoint (rho : nat -> Z) (i j : IntervalVar) : bool :=
  (rho (var_index (itv_end i)) <=? rho (var_index (itv_start j)))%Z
  || (rho (var_index (itv_end j)) <=? rho (var_index (itv_start i)))%Z.

Fixpoint no_overlap (rho : nat -> Z) (ivs : list IntervalVar) : bool :=
  match ivs with
  | [] => true
  | i :: rest =>
      forallb (fun j => negb (present rho i && present rho j) || disjoint rho i j)
              rest
      && no_overlap rho rest
  end.

Definition holds (rho : nat -> Z) (c : Constraint) : bool :=
  match c with
  | CLe a b => (eval rho a <=? eval rho b)%Z
  | CGe a b => (eval rho b <=? eval rho a)%Z
  | CEq a b => (eval rho a =? eval rho b)%Z
  | CNoOverlap ivs => no_overlap rho ivs
  end.

Definition solves (rho : nat -> Z) (m : t) : bool :=
  forallb (in_domain rho) (variables m)
  && forallb (interval_consistent rho) (intervals m)
  && forallb (holds rho) (constraints m).

(** The valuation that gives every variable the value chosen for its name. *)
Definition valuation_by_name (f : string -> Z) (m : t) : nat -> Z :=
  fun i =>
    match variables m !! i with
    | Some v => f (var_name v)
    | None => 0%Z
    end.

End CpModel.

(** ** Raising code: the exception monad *)

Definition bindE {A B : Type} (x : Exn + A) (f : A -> Exn + B) : Exn + B :=
  match x with
  | inl e => inl e
  | inr a => f a
  end.

Notation "x <- c ;; k" := (bindE c (fun x => k))
  (at level 100, c at next level, right associativity).

(** A [for] loop whose body can raise: the first exception ends it. *)
Fixpoint foldE {A B : Type} (f : B -> A -> Exn + B) (l : list A) (b : B)
  : Exn + B :=
  match l with
  | [] => inr b
  | x :: l' => b' <- f b x ;; foldE f l' b'
  end.

(** ** Constraint builder ([solvers/constraint_builder.py]) *)

Module ConstraintBuilder.
Import CpModel.

(** Entries of the [variables] dictionary. *)
Inductive Handle : Type :=
| HVar (v : IntVar)
| HInterval (i : IntervalVar).

(** The attributes of a [CPSATConstraintBuilder] instance. *)
Record t : Type := {
  model : CpModel.t;
  constraints : dict Constraint;
  variables : dict Handle;
  task_intervals : dict IntervalVar;
  task_starts : dict IntVar;
  task_ends : dict IntVar;
  task_durations : dict IntVar;
  resource_assignments : dict (dict IntVar)
}.

(** [CPSATConstraintBuilder(model)]. *)
Definition init (m : CpModel.t) : t :=
  {| model := m; constraints := []; variables := []; task_intervals := [];
     task_starts := []; task_ends := []; task_durations := [];
     resource_assignments := [] |}.

Definition set_model (m : CpModel.t) (b : t) : t :=
  {| model := m; constraints := constraints b; variables := variables b;
     task_intervals := task_intervals b; task_starts := task_starts b;
     task_ends := task_ends b; task_durations := task_durations b;
     resource_assignments := resource_assignments b |}.

(** [add_constraint]. *)
Definition add_constraint (name : string) (c : Constraint) (b : t) : t :=
  {| model := model b; constraints := Py.dict_set (constraints b) name c;
     variables := variables b;
     task_intervals := task_intervals b; task_starts := task_starts b;
     task_ends := task_ends b; task_durations := task_durations b;
     resource_assignments := resource_assignments b |}.

(** [add_variable]. *)
Definition add_variable (name : string) (h : Handle) (b : t) : t :=
  {| model := model b; constraints := constraints b;
     variables := Py.dict_set (variables b) name h;
     task_intervals := task_intervals b; task_starts := task_starts b;
     task_ends := task_ends b; task_durations := task_durations b;
     resource_assignments := resource_assignments b |}.

(** The four assignments [self.task_starts[task_id] = start_var] ...
    [self.task_intervals[task_id] = interval_var]. *)
Definition store_task (task_id : string) (start_var end_var duration_var : IntVar)
  (interval_var : IntervalVar) (b : t) : t :=
  {| model := model b; constraints := constraints b; variables := variables b;
     task_intervals := Py.dict_set (task_intervals b) task_id interval_var;
     task_starts := Py.dict_set (task_starts b) task_id start_var;
     task_ends := Py.dict_set (task_ends b) task_id end_var;
     task_durations := Py.dict_set (task_durations b) task_id duration_var;
     resource_assignments := resource_assignments b |}.

Definition set_resource_assignments (ra : dict (dict IntVar)) (b : t) : t :=
  {| model := model b; constraints := constraints b; variables := variables b;
     task_intervals := task_intervals b; task_starts := task_starts b;
     task_ends := task_ends b; task_durations := task_durations b;
     resource_assignments := ra |}.

(** [self.model.Add(c)] followed by [self.add_constraint(name, _)]. *)
Definition add_named (name : string) (c : Constraint) (b : t) : t :=
  let '(h, m) := Add c (model b) in
  add_constraint name h (set_model m b).

(** The duration variable of a job, lines 186-193 of
    [_create_task_variables]. *)
Definition job_duration_var (job : Job) (m : CpModel.t) : IntVar * CpModel.t :=
  if Py.truthy_float (fixed_duration job) then
    let duration :=
      Py.int_of_float (Qmult (default (0 # 1) (fixed_duration job)) (60 # 1)) in
    NewConstant duration m
  else
    let min_duration :=
      Py.int_of_float
        (Qmult (Qmult (base_duration_hours job) (60 # 1)) (8 # 10)) in
    let max_duration :=
      Py.int_of_float
        (Qmult (Qmult (base_duration_hours job) (60 # 1)) (15 # 10)) in
    NewIntVar min_duration max_duration ("duration_" ++ job_id job) m.

(** Start, end and interval variables and the bookkeeping shared by the
    two loops of [_create_task_variables]. *)
Definition create_task (time_horizon : Z) (task_id : string)
  (duration_var : IntVar) (m1 : CpModel.t) (b : t) : t :=
  let '(start_var, m2) :=
    NewIntVar 0 (time_horizon * 60) ("start_" ++ task_id) m1 in
  let '(end_var, m3) :=
    NewIntVar 0 (time_horizon * 60) ("end_" ++ task_id) m2 in
  let '(interval_var, m4) :=
    NewIntervalVar start_var duration_var end_var ("interval_" ++ task_id) m3 in
  let b1 := store_task task_id start_var end_var duration_var interval_var
                       (set_model m4 b) in
  add_variable ("interval_" ++ task_id) (HInterval interval_var)
    (add_variable ("duration_" ++ task_id) (HVar duration_var)
      (add_variable ("end_" ++ task_id) (HVar end_var)
        (add_variable ("start_" ++ task_id) (HVar start_var) b1))).

Definition create_job_variables (time_horizon : Z) (b : t) (job : Job) : t :=
  let '(duration_var, m1) := job_duration_var job (model b) in
  create_task time_horizon (job_id job) duration_var m1 b.

Definition create_prep_variables (time_horizon : Z) (b : t)
  (task : PreparationTask) : t :=
  let duration := Py.int_of_float (Qmult (duration_hours task) (60 # 1)) in
  let '(duration_var, m1) := NewConstant duration (model b) in
  create_task time_horizon (prep_id task) duration_var m1 b.

Definition _create_task_variables (jobs : list Job)
  (preparation_tasks : list PreparationTask) (config : ConstraintConfig)
  (b : t) : t :=
  let time_horizon := default 168%Z (time_horizon_hours config) in
  let b1 := fold_left (create_job_variables time_horizon) jobs b in
  fold_left (create_prep_variables time_horizon) preparation_tasks b1.

(** One precedence edge [pred -> succ]. *)
Definition add_precedence (succ : string) (b : t) (pred : string) : t :=
  match Py.dict_get (task_ends b) pred, Py.dict_get (task_starts b) succ with
  | Some e, Some s =>
      add_named ("precedence_" ++ pred ++ "_" ++ succ)
                (CLe (LVar e) (LVar s)) b
  | _, _ => b
  end.

Definition _build_precedence_constraints (jobs : list Job)
  (preparation_tasks : list PreparationTask) (b : t) : t :=
  let b1 :=
    fold_left (fun b job =>
                 fold_left (add_precedence (job_id job)) (predecessor_jobs job) b)
              jobs b in
  fold_left (fun b task =>
               fold_left (add_precedence (prep_id task)) (dependencies task) b)
            preparation_tasks b1.

(** [d[k]] for a key that may be missing. *)
Definition index {V : Type} (d : dict V) (k : string) : Exn + V :=
  match Py.dict_get d k with
  | Some v => inr v
  | None => inl (KeyError k)
  end.

(** The three statements repeated in [_build_resource_constraints]:
    append to [requiring_tasks], create the assignment variable, store it
    under [resource_assignments[resource_id][task_id]].  The inner
    dictionary exists: it was assigned at the top of the loop body. *)
Definition assign_task (rid : string) (acc : list string * t)
  (task_id : string) : list string * t :=
  let '(requiring_tasks, b) := acc in
  let '(assign_var, m) :=
    NewBoolVar ("assign_" ++ rid ++ "_" ++ task_id) (model b) in
  let inner := default [] (Py.dict_get (resource_assignments b) rid) in
  (requiring_tasks ++ [task_id],
   set_resource_assignments
     (Py.dict_set (resource_assignments b) rid
                  (Py.dict_set inner task_id assign_var))
     (set_model m b)).

Definition _build_exclusive_resource_constraint (rid : string)
  (requiring_tasks : list string) (b : t) : Exn + t :=
  if bool_decide (length requiring_tasks <= 1)%nat then inr b
  else
    r <- foldE
           (fun (acc : list IntervalVar * t) task_id =>
              let '(ivs, b) := acc in
              match Py.dict_get (resource_assignments b) rid with
              | Some inner =>
                  match Py.dict_get inner task_id,
                        Py.dict_get (task_intervals b) task_id with
                  | Some assign_var, Some _ =>
                      s <- index (task_starts b) task_id ;;
                      d <- index (task_durations b) task_id ;;
                      e <- index (task_ends b) task_id ;;
                      let '(optional_interval, m) :=
                        NewOptionalIntervalVar s d e assign_var
                          ("optional_" ++ rid ++ "_" ++ task_id) (model b) in
                      inr (ivs ++ [optional_interval], set_model m b)
                  | _, _ => inr acc
                  end
              | None => inr acc
              end)
           requiring_tasks ([], b) ;;
    let '(ivs, b1) := r in
    match ivs with
    | [] => inr b1
    | _ :: _ =>
        let '(h, m) := AddNoOverlap ivs (model b1) in
        inr (add_constraint ("no_overlap_" ++ rid) h (set_model m b1))
    end.

(** [_build_cumulative_resource_constraint]: the branch for a quantity
    above one is the source's [pass]. *)
Definition _build_cumulative_resource_constraint (resource : Resource)
  (requiring_tasks : list string) (b : t) : Exn + t :=
  if bool_decide (total_quantity (resource_base resource) <= 1)%Z then
    _build_exclusive_resource_constraint
      (resource_id (resource_base resource)) requiring_tasks b
  else inr b.

Definition build_one_resource (jobs : list Job)
  (preparation_tasks : list PreparationTask) (b : t) (resource : Resource)
  : Exn + t :=
  let rid := resource_id (resource_base resource) in
  let b0 :=
    set_resource_assignments (Py.dict_set (resource_assignments b) rid []) b in
  let acc1 :=
    if is_human resource then
      fold_left (fun acc job => assign_task rid acc (job_id job)) jobs ([], b0)
    else
      fold_left (fun acc job =>
                   if has_resource_requirement job rid
                   then assign_task rid acc (job_id job) else acc)
                jobs ([], b0) in
  let acc2 :=
    fold_left (fun acc task =>
                 fold_left (fun acc asset_req =>
                              if bool_decide (asset_id asset_req = Some rid)
                              then assign_task rid acc (prep_id task) else acc)
                           (required_assets task) acc)
              preparation_tasks acc1 in
  let '(requiring_tasks, b2) := acc2 in
  if is_exclusive_physical resource then
    _build_exclusive_resource_constraint rid requiring_tasks b2
  else
    _build_cumulative_resource_constraint resource requiring_tasks b2.

Definition _build_resource_constraints (jobs : list Job)
  (preparation_tasks : list PreparationTask) (resources : list Resource)
  (b : t) : Exn + t :=
  foldE (build_one_resource jobs preparation_tasks) resources b.

(** [_datetime_to_minutes]; [now] is the value of [datetime.now()], used
    when the configuration has no [plan_start_time]. *)
Definition _datetime_to_minutes (now : Z) (config : ConstraintConfig) (dt : Z)
  : Z :=
  let plan_start := default now (plan_start_time config) in
  Py.int_of_float (Qdiv (Py.total_seconds (dt - plan_start)) (60 # 1)).

Definition window_start_ge (now : Z) (config : ConstraintConfig)
  (task_id : string) (earliest : option Z) (b : t) : t :=
  match earliest, Py.dict_get (task_starts b) task_id with
  | Some dt, Some s =>
      add_named ("earliest_start_" ++ task_id)
        (CGe (LVar s) (LConst (_datetime_to_minutes now config dt))) b
  | _, _ => b
  end.

Definition window_end_le (now : Z) (config : ConstraintConfig)
  (task_id : string) (latest : option Z) (b : t) : t :=
  match latest, Py.dict_get (task_ends b) task_id with
  | Some dt, Some e =>
      add_named ("latest_finish_" ++ task_id)
        (CLe (LVar e) (LConst (_datetime_to_minutes now config dt))) b
  | _, _ => b
  end.

Definition window_start_eq (now : Z) (config : ConstraintConfig)
  (task_id : string) (fixed : option Z) (b : t) : t :=
  match fixed, Py.dict_get (task_starts b) task_id with
  | Some dt, Some s =>
      add_named ("fixed_start_" ++ task_id)
        (CEq (LVar s) (LConst (_datetime_to_minutes now config dt))) b
  | _, _ => b
  end.

Definition _build_time_window_constraints (now : Z) (jobs : list Job)
  (preparation_tasks : list PreparationTask) (config : ConstraintConfig)
  (b : t) : t :=
  let b1 :=
    fold_left (fun b job =>
                 window_start_eq now config (job_id job) (fixed_start job)
                   (window_end_le now config (job_id job) (job_latest_finish job)
                     (window_start_ge now config (job_id job)
                        (job_earliest_start job) b)))
              jobs b in
  fold_left (fun b task =>
               window_end_le now config (prep_id task) (prep_latest_finish task)
                 (window_start_ge now config (prep_id task)
                    (prep_earliest_start task) b))
            preparation_tasks b1.

(** The assignment variables [resource_assignments[hr.resource_id][job_id]]
    of the human resources accepted by [keep]. *)
Definition assignment_vars (keep : Resource -> bool)
  (human_resources : list Resource) (jid : string) (b : t) : list IntVar :=
  omap (fun hr =>
          if keep hr then
            match Py.dict_get (resource_assignments b)
                              (resource_id (resource_base hr)) with
            | Some inner => Py.dict_get inner jid
            | None => None
            end
          else None)
       human_resources.

(** The message of the exception raised for an uncovered qualification. *)
Definition no_personnel_message (qualification jid : string) : string :=
  "No personnel found with qualification '" ++ qualification
    ++ "' for job " ++ jid.

Definition _build_collaborative_qualification_constraint (job : Job)
  (human_resources : list Resource) (jid : string) (b : t) : Exn + t :=
  foldE (fun b qualification =>
           let qualified_for_skill :=
             assignment_vars (fun hr => has_qualification hr qualification)
                             human_resources jid b in
           match qualified_for_skill with
           | [] =>
               inl (ConstraintViolationError
                      (no_personnel_message qualification jid) [])
           | _ :: _ =>
               inr (add_named ("qualification_" ++ jid ++ "_" ++ qualification)
                      (CGe (sum_exprs (map LVar qualified_for_skill)) (LConst 1))
                      b)
           end)
        (required_qualifications job) b.

Definition _build_qualification_constraints (jobs : list Job)
  (resources : list Resource) (b : t) : Exn + t :=
  let human_resources := filter (fun r => is_human r = true) resources in
  foldE (fun b job =>
           match required_qualifications job with
           | [] => inr b
           | _ :: _ =>
               _build_collaborative_qualification_constraint
                 job human_resources (job_id job) b
           end)
        jobs b.

(** [_build_gate_constraints] groups the gate tasks by work package and
    then adds nothing to the model. *)
Definition _build_gate_constraints (preparation_tasks : list PreparationTask)
  (b : t) : t := b.

Definition _build_task_execution_constraints (jobs : list Job)
  (resources : list Resource) (b : t) : t :=
  let human_resources := filter (fun r => is_human r = true) resources in
  fold_left (fun b job =>
               let jid := job_id job in
               if Py.dict_mem (task_starts b) jid then
                 match assignment_vars (fun _ => true) human_resources jid b with
                 | [] => b
                 | v :: vs =>
                     add_named ("task_execution_" ++ jid)
                       (CGe (sum_exprs (map LVar (v :: vs))) (LConst 1)) b
                 end
               else b)
            jobs b.

(** [build_constraints]; the returned dictionary is a view of the
    builder's attributes, so the builder itself is returned. *)
Definition build_constraints (now : Z) (jobs : list Job)
  (resources : list Resource) (preparation_tasks : list PreparationTask)
  (constraint_config : ConstraintConfig) (b : t) : Exn + t :=
  let b1 := _create_task_variables jobs preparation_tasks constraint_config b in
  let b2 := _build_precedence_constraints jobs preparation_tasks b1 in
  b3 <- _build_resource_constraints jobs preparation_tasks resources b2 ;;
  let b4 :=
    _build_time_window_constraints now jobs preparation_tasks
                                   constraint_config b3 in
  b5 <- _build_qualification_constraints jobs resources b4 ;;
  let b6 := _build_gate_constraints preparation_tasks b5 in
  inr (_build_task_execution_constraints jobs resources b6).

End ConstraintBuilder.

(** ** Objective builder ([solvers/objective_builder.py]) *)

Module ObjectiveBuilder.
Import CpModel.

Inductive PriorityTemplate : Type := BALANCED | PROTECT_SLA | COST_MIN.

Record ObjectiveWeight : Type := {
  makespan : Q;
  cost : Q;
  utilization : Q;
  waiting : Q;
  switches : Q;
  delays : Q;
  preference : Q
}.

(** [ObjectiveWeight()] with the default arguments of [__init__]. *)
Definition default_weights : ObjectiveWeight :=
  {| makespan := 1 # 1; cost := 1 # 10; utilization := 1 # 10;
     waiting := 2 # 10; switches := 1 # 10; delays := 5 # 10;
     preference := 5 # 100 |}.

(** [ObjectiveWeight.from_template]; [None] stands for a value that is
    none of the three templates. *)
Definition from_template (template : option PriorityTemplate) : ObjectiveWeight :=
  match template with
  | Some BALANCED =>
      {| makespan := 1 # 1; cost := 3 # 10; utilization := 2 # 10;
         waiting := 4 # 10; switches := 2 # 10; delays := 6 # 10;
         preference := 1 # 10 |}
  | Some PROTECT_SLA =>
      {| makespan := 2 # 1; cost := 1 # 10; utilization := 1 # 10;
         waiting := 2 # 10; switches := 1 # 10; delays := 1 # 1;
         preference := 5 # 100 |}
  | Some COST_MIN =>
      {| makespan := 5 # 10; cost := 1 # 1; utilization := 3 # 10;
         waiting := 1 # 10; switches := 5 # 10; delays := 3 # 10;
         preference := 1 # 10 |}
  | None => default_weights
  end.

(** [w > 0] on floats. *)
Definition positive (w : Q) : bool := negb (Qle_bool w (0 # 1)).

(** [_build_makespan_objective]: a fresh variable bounded below by every
    task end, or [None] when there is no task. *)
Definition _build_makespan_objective (task_ends : dict IntVar)
  (time_horizon_hours : option Z) (m : CpModel.t)
  : option LinearExpr * CpModel.t :=
  match task_ends with
  | [] => (None, m)
  | _ :: _ =>
      let max_end_time := Z.max (default 168%Z time_horizon_hours * 60) 1440 in
      let '(makespan_var, m1) := NewIntVar 0 max_end_time "makespan" m in
      let m2 :=
        fold_left (fun m kv => snd (Add (CGe (LVar makespan_var) (LVar (snd kv))) m))
                  task_ends m1 in
      (Some (LVar makespan_var), m2)
  end.

(** The weighted objective, lines 254-258 of [build_objective]. *)
Definition weighted_sum (objective_terms : list (LinearExpr * Q)) : LinearExpr :=
  sum_exprs
    (map (fun term => LScale (Py.int_of_float (Qmult (snd term) (1000 # 1)))
                             (fst term))
         objective_terms).

Section BuildObjective.

(** The builders of the cost, waiting, switches and delays terms.  Each
    reads the tasks and resources, may add variables and constraints to
    the model, and returns an expression or [None]; [build_objective] uses
    nothing else of them. *)
Variable _build_cost_objective : CpModel.t -> option LinearExpr * CpModel.t.
Variable _build_waiting_objective : CpModel.t -> option LinearExpr * CpModel.t.
Variable _build_switches_objective : CpModel.t -> option LinearExpr * CpModel.t.
Variable _build_delays_objective : CpModel.t -> option LinearExpr * CpModel.t.

(** One block [if self.weights.x > 0: ... add_objective_term(expr, x)]. *)
Definition add_term (weight : Q)
  (builder : CpModel.t -> option LinearExpr * CpModel.t)
  (acc : list (LinearExpr * Q) * CpModel.t) : list (LinearExpr * Q) * CpModel.t :=
  let '(objective_terms, m) := acc in
  if positive weight then
    match builder m with
    | (Some expr, m') => (objective_terms ++ [(expr, weight)], m')
    | (None, m') => (objective_terms, m')
    end
  else acc.

(** The list [self.objective_terms] after the five blocks. *)
Definition collect_terms (weights : ObjectiveWeight) (task_ends : dict IntVar)
  (time_horizon_hours : option Z) (m : CpModel.t)
  : list (LinearExpr * Q) * CpModel.t :=
  add_term (delays weights) _build_delays_objective
    (add_term (switches weights) _build_switches_objective
      (add_term (waiting weights) _build_waiting_objective
        (add_term (cost weights) _build_cost_objective
          (add_term (makespan weights)
             (_build_makespan_objective task_ends time_horizon_hours)
             ([], m))))).

Definition build_objective (weights : ObjectiveWeight) (task_ends : dict IntVar)
  (time_horizon_hours : option Z) (m : CpModel.t)
  : (Exn + LinearExpr) * CpModel.t :=
  let '(objective_terms, m') :=
    collect_terms weights task_ends time_horizon_hours m in
  match objective_terms with
  | [] => (inl (ConfigurationError "No valid objective terms found"), m')
  | _ :: _ => (inr (weighted_sum objective_terms), m')
  end.

End BuildObjective.

End ObjectiveBuilder.

(** ** Solver driver ([solvers/cpsat_solver.py]) *)

Module CPSATSolver.
Import CpModel.

(** Status codes returned by [CpSolver.Solve]. *)
Inductive CpStatus : Type :=
| CP_UNKNOWN | CP_MODEL_INVALID | CP_FEASIBLE | CP_INFEASIBLE | CP_OPTIMAL.

Inductive SolverStatus : Type :=
| OPTIMAL | FEASIBLE | INFEASIBLE | UNBOUNDED | ABNORMAL | MODEL_INVALID | UNKNOWN.

Definition _convert_status (cp_status : CpStatus) : SolverStatus :=
  match cp_status with
  | CP_OPTIMAL => OPTIMAL
  | CP_FEASIBLE => FEASIBLE
  | CP_INFEASIBLE => INFEASIBLE
  | CP_MODEL_INVALID => MODEL_INVALID
  | CP_UNKNOWN => UNKNOWN
  end.

Record SolverResult : Type := {
  status : SolverStatus;
  objective_value : option Z;
  solution : option (dict Z);
  error_message : option string
}.

(** The attributes of a [CPSATSolver].  [constraint_builder] holds the CP
    model; [solve_calls] counts the calls of [self.solver.Solve]. *)
Record t : Type := {
  _is_initialized : bool;
  constraint_builder : ConstraintBuilder.t;
  jobs : list Job;
  resources : list Resource;
  preparation_tasks : list PreparationTask;
  constraints_config : ConstraintConfig;
  priority_template : option ObjectiveBuilder.PriorityTemplate;
  custom_weights : dict Q;
  objective : option LinearExpr;
  last_result : option SolverResult;
  solve_calls : nat
}.

Definition set_builder (b : ConstraintBuilder.t) (s : t) : t :=
  {| _is_initialized := _is_initialized s; constraint_builder := b;
     jobs := jobs s; resources := resources s;
     preparation_tasks := preparation_tasks s;
     constraints_config := constraints_config s;
     priority_template := priority_template s;
     custom_weights := custom_weights s; objective := objective s;
     last_result := last_result s; solve_calls := solve_calls s |}.

Definition set_objective_expr (e : LinearExpr) (s : t) : t :=
  {| _is_initialized := _is_initialized s;
     constraint_builder := constraint_builder s;
     jobs := jobs s; resources := resources s;
     preparation_tasks := preparation_tasks s;
     constraints_config := constraints_config s;
     priority_template := priority_template s;
     custom_weights := custom_weights s; objective := Some e;
     last_result := last_result s; solve_calls := solve_calls s |}.

Definition set_last_result (r : SolverResult) (s : t) : t :=
  {| _is_initialized := _is_initialized s;
     constraint_builder := constraint_builder s;
     jobs := jobs s; resources := resources s;
     preparation_tasks := preparation_tasks s;
     constraints_config := constraints_config s;
     priority_template := priority_template s;
     custom_weights := custom_weights s; objective := objective s;
     last_result := Some r; solve_calls := solve_calls s |}.

Definition count_solve_call (s : t) : t :=
  {| _is_initialized := _is_initialized s;
     constraint_builder := constraint_builder s;
     jobs := jobs s; resources := resources s;
     preparation_tasks := preparation_tasks s;
     constraints_config := constraints_config s;
     priority_template := priority_template s;
     custom_weights := custom_weights s; objective := objective s;
     last_result := last_result s; solve_calls := S (solve_calls s) |}.

(** [validate_input]: the list of error messages. *)
Definition validate_input (s : t) : list string :=
  let all_task_ids :=
    map job_id (jobs s) ++ map prep_id (preparation_tasks s) in
  (if _is_initialized s then [] else ["Solver not initialized"])
  ++ (match jobs s, preparation_tasks s with
      | [], [] => ["No jobs or preparation tasks provided"]
      | _, _ => []
      end)
  ++ (match resources s with [] => ["No resources provided"] | _ => [] end)
  ++ flat_map (fun job =>
                 flat_map (fun pred_id =>
                             if Py.str_in pred_id all_task_ids then []
                             else [("Job " ++ job_id job
                                    ++ " depends on unknown task "
                                    ++ pred_id)%string])
                          (predecessor_jobs job))
              (jobs s)
  ++ flat_map (fun task =>
                 flat_map (fun dep_id =>
                             if Py.str_in dep_id all_task_ids then []
                             else [("Preparation task " ++ prep_id task
                                    ++ " depends on unknown task "
                                    ++ dep_id)%string])
                          (dependencies task))
              (preparation_tasks s).

(** ["; ".join(errors)]. *)
Fixpoint join_semicolon (errors : list string) : string :=
  match errors with
  | [] => EmptyString
  | [e] => e
  | e :: rest => (e ++ "; " ++ join_semicolon rest)%string
  end.

(** The loop [setattr(weights, attr, value)] over the custom weights. *)
Definition apply_custom_weight (w : ObjectiveBuilder.ObjectiveWeight)
  (kv : string * Q) : ObjectiveBuilder.ObjectiveWeight :=
  let '(attr, value) := kv in
  let pick name old := if decide (attr = name) then value else old in
  {| ObjectiveBuilder.makespan := pick "makespan" (ObjectiveBuilder.makespan w);
     ObjectiveBuilder.cost := pick "cost" (ObjectiveBuilder.cost w);
     ObjectiveBuilder.utilization :=
       pick "utilization" (ObjectiveBuilder.utilization w);
     ObjectiveBuilder.waiting := pick "waiting" (ObjectiveBuilder.waiting w);
     ObjectiveBuilder.switches := pick "switches" (ObjectiveBuilder.switches w);
     ObjectiveBuilder.delays := pick "delays" (ObjectiveBuilder.delays w);
     ObjectiveBuilder.preference :=
       pick "preference" (ObjectiveBuilder.preference w) |}.

Section Solve.

(** [datetime.now()]. *)
Variable now : Z.

(** The CP-SAT search: a status and a value for every variable. *)
Variable cp_solver_Solve : CpModel.t -> option LinearExpr -> CpStatus * (nat -> Z).

(** The term builders of the objective, applied to the solver's data. *)
Variable _build_cost_objective _build_waiting_objective
         _build_switches_objective _build_delays_objective :
  t -> CpModel.t -> option LinearExpr * CpModel.t.

Definition _build_constraints (s : t) : Exn + t :=
  b <- ConstraintBuilder.build_constraints now (jobs s) (resources s)
         (preparation_tasks s) (constraints_config s) (constraint_builder s) ;;
  inr (set_builder b s).

Definition _build_objective (s : t) : Exn + t :=
  let weights :=
    fold_left apply_custom_weight (custom_weights s)
              (ObjectiveBuilder.from_template (priority_template s)) in
  let b := constraint_builder s in
  let '(r, m) :=
    ObjectiveBuilder.build_objective
      (_build_cost_objective s) (_build_waiting_objective s)
      (_build_switches_objective s) (_build_delays_objective s)
      weights (ConstraintBuilder.task_ends b)
      (time_horizon_hours (constraints_config s)) (ConstraintBuilder.model b) in
  objective_expr <- r ;;
  inr (set_objective_expr objective_expr
         (set_builder (ConstraintBuilder.set_model m b) s)).

Definition _extract_solution (value : nat -> Z) (s : t) : dict Z :=
  let b := constraint_builder s in
  let put prefix (d : dict Z) (kv : string * IntVar) :=
    Py.dict_set d (prefix ++ fst kv) (value (var_index (snd kv))) in
  let d1 := fold_left (put "start_") (ConstraintBuilder.task_starts b) [] in
  let d2 := fold_left (put "end_") (ConstraintBuilder.task_ends b) d1 in
  fold_left (fun d (ra : string * dict IntVar) =>
               fold_left (put ("assign_" ++ fst ra ++ "_")%string) (snd ra) d)
            (ConstraintBuilder.resource_assignments b) d2.

(** The body of the [try] block of [solve]. *)
Definition solve_body (s : t) : (Exn + SolverResult) * t :=
  match validate_input s with
  | e :: es =>
      (inl (SolverError ("Input validation failed: "
                         ++ join_semicolon (e :: es))), s)
  | [] =>
      match _build_constraints s with
      | inl e => (inl e, s)
      | inr s1 =>
          match _build_objective s1 with
          | inl e => (inl e, s1)
          | inr s2 =>
              let s3 := count_solve_call s2 in
              let '(cp_status, value) :=
                cp_solver_Solve
                  (ConstraintBuilder.model (constraint_builder s3))
                  (objective s3) in
              let successful :=
                match cp_status with
                | CP_OPTIMAL | CP_FEASIBLE => true
                | _ => false
                end in
              let result :=
                {| status := _convert_status cp_status;
                   objective_value :=
                     if successful
                     then option_map (eval value) (objective s3) else None;
                   solution :=
                     if successful then Some (_extract_solution value s3)
                     else None;
                   error_message := None |} in
              (inr result, set_last_result result s3)
          end
      end
  end.

(** [solve]: any exception of the body is recorded and re-raised as a
    [SolverError]. *)
Definition solve (s : t) : (Exn + SolverResult) * t :=
  if negb (_is_initialized s) then (inl (SolverError "Solver not initialized"), s)
  else
    match solve_body s with
    | (inr r, s') => (inr r, s')
    | (inl e, s') =>
        let error_msg := ("Solve failed: " ++ exn_message e)%string in
        (inl (SolverError error_msg),
         set_last_result {| status := ABNORMAL; objective_value := None;
                            solution := None;
                            error_message := Some error_msg |} s')
    end.

End Solve.

End CPSATSolver.

(** ** Schedule models ([models/schedule.py]) *)

Module ScheduleModel.

Inductive IntervalType : Type := JOB | PREPARATION | MAINTENANCE | BUFFER.

Record TaskInterval : Type := {
  task_id : string;
  task_type : IntervalType;
  start_time : Z;
  end_time : Z;
  duration_hours : Q;
  task_name : option string;
  interval_work_package_id : option string;
  interval_engine_id : option string;
  assigned_resources : list string;
  assigned_personnel : list string;
  is_fixed : bool
}.

(** The hours between the two ends, as [validate_duration_matches_interval]
    computes them. *)
Definition calculated_hours (start_time end_time : Z) : Q :=
  Qdiv (Py.total_seconds (end_time - start_time)) (3600 # 1).

(** [TaskInterval(...)]: the constructor runs the validators of the model
    and raises when one of them rejects the fields. *)
Definition TaskInterval_new (iv : TaskInterval) : Exn + TaskInterval :=
  if (end_time iv <=? start_time iv)%Z then
    inl (ValueError "End time must be after start time")
  else if Qle_bool (duration_hours iv) (0 # 1) then
    inl (ValueError "ensure this value is greater than 0")
  else if negb (Qle_bool
                  (Qabs (Qminus (calculated_hours (start_time iv) (end_time iv))
                                (duration_hours iv)))
                  (1 # 100)) then
    inl (ValueError "Duration does not match interval")
  else inr iv.

Record Schedule : Type := {
  plan_id : string;
  task_intervals : list TaskInterval
}.

End ScheduleModel.

(** ** Scheduling service ([services/scheduling_service.py]) *)

Module SchedulingService.


(** [dependencies.get(node, [])]. *)
Definition neighbors (dependencies : dict (list string)) (node : string)
  : list string :=
  default [] (Py.dict_get dependencies node).



(** The dictionary [dependencies] built by the first two loops. *)
Definition build_dependencies (jobs : list Job)
  (preparation_tasks : list PreparationTask) : dict (list string) :=
  let d1 :=
    fold_left (fun d job => Py.dict_set d (job_id job) (predecessor_jobs job))
              jobs [] in
  fold_left (fun d task => Py.dict_set d (prep_id task) (dependencies task))
            preparation_tasks d1.












Section CreateSchedule.

(** [_create_solver] followed by [_execute_scheduling]: the schedule and
    its makespan in hours, or the exception of the solver. *)
Variable _execute_scheduling :
  list Job -> list Resource -> list PreparationTask ->
  Exn + (ScheduleModel.Schedule * Q).


End CreateSchedule.

End SchedulingService.

(** ** Solution parser ([solvers/solution_parser.py]) *)

Module SolutionParser.
Import CpModel ScheduleModel.

(** The three lookups guarded by [task_id in task_starts and ...]. *)
Definition task_vars (task_starts task_ends task_durations : dict IntVar)
  (tid : string) : option (IntVar * IntVar * IntVar) :=
  match Py.dict_get task_starts tid, Py.dict_get task_ends tid,
        Py.dict_get task_durations tid with
  | Some s, Some e, Some d => Some (s, e, d)
  | _, _, _ => None
  end.

(** The interval built from the solver values of one task. *)
Definition parsed_interval (value : nat -> Z) (plan_start_time : Z)
  (tid : string) (type : IntervalType) (name work_package engine : option string)
  (fixed : bool) (vars : IntVar * IntVar * IntVar) : Exn + TaskInterval :=
  let '(s, e, d) := vars in
  let start_minutes := value (var_index s) in
  let end_minutes := value (var_index e) in
  let duration_minutes := value (var_index d) in
  TaskInterval_new
    {| task_id := tid; task_type := type;
       start_time := plan_start_time + Py.timedelta_minutes start_minutes;
       end_time := plan_start_time + Py.timedelta_minutes end_minutes;
       duration_hours := Qdiv (inject_Z duration_minutes) (60 # 1);
       task_name := name; interval_work_package_id := work_package;
       interval_engine_id := engine;
       assigned_resources := []; assigned_personnel := [];
       is_fixed := fixed |}.

(** [_parse_task_intervals]; [value] is [cp_solver.Value]. *)
Definition _parse_task_intervals (value : nat -> Z) (jobs : list Job)
  (preparation_tasks : list PreparationTask)
  (task_starts task_ends task_durations : dict IntVar) (plan_start_time : Z)
  : Exn + list TaskInterval :=
  ivs <- foldE (fun ivs job =>
                  match task_vars task_starts task_ends task_durations
                                  (job_id job) with
                  | Some vars =>
                      iv <- parsed_interval value plan_start_time (job_id job)
                              JOB (Some (job_name job)) (Some (work_card_id job))
                              (Some (job_engine_id job))
                              (bool_decide (is_Some (fixed_start job))) vars ;;
                      inr (ivs ++ [iv])
                  | None => inr ivs
                  end)
               jobs [] ;;
  foldE (fun ivs task =>
           match task_vars task_starts task_ends task_durations
                           (prep_id task) with
           | Some vars =>
               iv <- parsed_interval value plan_start_time (prep_id task)
                       PREPARATION (Some (prep_name task))
                       (Some (work_package_id task))
                       (Some (prep_engine_id task)) false vars ;;
               inr (ivs ++ [iv])
           | None => inr ivs
           end)
        preparation_tasks ivs.

End SolutionParser.

(** ** Event models ([models/event.py], [core/constants.py]) *)

Module EventModel.

Inductive EventType : Type :=
| ETA_CHANGE | SAP_UPDATE | WEATHER | THIRD_PARTY_ACK | RESOURCE_AVAILABLE
| RESOURCE_UNAVAILABLE | TASK_COMPLETE | EMERGENCY.

(** The string value of a member of [EventType]. *)
Definition event_type_value (t : EventType) : string :=
  match t with
  | ETA_CHANGE => "eta_change"
  | SAP_UPDATE => "sap_update"
  | WEATHER => "weather"
  | THIRD_PARTY_ACK => "third_party_ack"
  | RESOURCE_AVAILABLE => "resource_available"
  | RESOURCE_UNAVAILABLE => "resource_unavailable"
  | TASK_COMPLETE => "task_complete"
  | EMERGENCY => "emergency"
  end.

Inductive EventStatus : Type :=
| PENDING | PROCESSING | COMPLETED | FAILED | CANCELLED.

Record EventScope : Type := {
  engines : list string;
  work_packages : list string;
  prep_ids : list string;
  job_ids : list string;
  resource_ids : list string
}.

(** [bool(l)] for a list. *)
Definition nonempty {A : Type} (l : list A) : bool :=
  match l with [] => false | _ :: _ => true end.

(** [EventScope.is_empty]: [not any([...])] over the five lists. *)
Definition is_empty (s : EventScope) : bool :=
  negb (existsb (fun x => x)
          [nonempty (engines s); nonempty (work_packages s);
           nonempty (prep_ids s); nonempty (job_ids s);
           nonempty (resource_ids s)]).

Section Merge.

(** [list(set(l))]: Python fixes neither the order of the result nor that
    two equal sets are listed alike, so the conversion is a parameter, a
    function of the list the set is built from. *)
Variable list_of_set : list string -> list string.

(** [EventScope.merge]. *)
Definition merge (self other : EventScope) : EventScope :=
  {| engines := list_of_set (engines self ++ engines other);
     work_packages := list_of_set (work_packages self ++ work_packages other);
     prep_ids := list_of_set (prep_ids self ++ prep_ids other);
     job_ids := list_of_set (job_ids self ++ job_ids other);
     resource_ids := list_of_set (resource_ids self ++ resource_ids other) |}.

End Merge.

(** A value stored in an event payload. *)
Inductive PayloadValue : Type :=
| PStr (s : string)
| PTime (t : Z)
| PList (l : list string)
| PBool (b : bool).

(** The result dictionary of a processor, one shape per processor. *)
Inductive ProcessingResult : Type :=
| EtaResult (affected_tasks : list string) (delay_hours : Q)
            (requires_replan : bool) (impact_level : string)
| SapResult (instruction_id status_change : string) (requires_replan : bool)
            (impact_level : string)
| WeatherResult (weather_type severity : string)
                (affected_areas affected_resources : list string)
                (requires_replan : bool) (impact_level : string)
                (duration_hours : option Q).

Record Event : Type := {
  event_id : string;
  event_type : EventType;
  title : string;
  effective_time : Z;
  expires_at : option Z;
  status : EventStatus;
  scope : EventScope;
  payload : dict PayloadValue;
  processed_at : option Z;
  processing_result : option ProcessingResult;
  error_message : option string
}.

(** The fields of [EventCreate] that [create_event] copies. *)
Record EventCreate : Type := {
  ec_event_type : EventType;
  ec_title : string;
  ec_effective_time : Z;
  ec_expires_at : option Z;
  ec_scope : EventScope;
  ec_payload : dict PayloadValue
}.

(** [Event.is_expired] and [Event.is_effective] at the instant [now]. *)
Definition is_expired (now : Z) (e : Event) : bool :=
  match expires_at e with
  | Some t => (t <? now)%Z
  | None => false
  end.

Definition is_effective (now : Z) (e : Event) : bool :=
  (effective_time e <=? now)%Z.

Definition mark_processing (now : Z) (e : Event) : Event :=
  {| event_id := event_id e; event_type := event_type e; title := title e;
     effective_time := effective_time e; expires_at := expires_at e;
     status := PROCESSING; scope := scope e; payload := payload e;
     processed_at := Some now; processing_result := processing_result e;
     error_message := error_message e |}.

(** [mark_completed(result)]; a processor result is a non-empty dictionary,
    so it is always stored. *)
Definition mark_completed (result : ProcessingResult) (e : Event) : Event :=
  {| event_id := event_id e; event_type := event_type e; title := title e;
     effective_time := effective_time e; expires_at := expires_at e;
     status := COMPLETED; scope := scope e; payload := payload e;
     processed_at := processed_at e; processing_result := Some result;
     error_message := error_message e |}.

Definition mark_failed (msg : string) (e : Event) : Event :=
  {| event_id := event_id e; event_type := event_type e; title := title e;
     effective_time := effective_time e; expires_at := expires_at e;
     status := FAILED; scope := scope e; payload := payload e;
     processed_at := processed_at e; processing_result := processing_result e;
     error_message := Some msg |}.

(** Reading an optional string field of a payload class. *)
Definition opt_str (p : dict PayloadValue) (k : string) : Exn + option string :=
  match Py.dict_get p k with
  | None => inr None
  | Some (PStr s) => inr (Some s)
  | Some _ => inl (ValueError ("str type expected: " ++ k))
  end.

Definition opt_time (p : dict PayloadValue) (k : string) : Exn + option Z :=
  match Py.dict_get p k with
  | None => inr None
  | Some (PTime t) => inr (Some t)
  | Some _ => inl (ValueError ("invalid datetime format: " ++ k))
  end.

(** Reading a required field. *)
Definition req_str (p : dict PayloadValue) (k : string) : Exn + string :=
  v <- opt_str p k ;;
  match v with
  | Some s => inr s
  | None => inl (ValueError ("field required: " ++ k))
  end.

Definition req_time (p : dict PayloadValue) (k : string) : Exn + Z :=
  v <- opt_time p k ;;
  match v with
  | Some t => inr t
  | None => inl (ValueError ("field required: " ++ k))
  end.

Definition list_or_empty (p : dict PayloadValue) (k : string)
  : Exn + list string :=
  match Py.dict_get p k with
  | None => inr []
  | Some (PList l) => inr l
  | Some _ => inl (ValueError ("value is not a valid list: " ++ k))
  end.

Record ETAChangePayload : Type := {
  eta_material_id : option string;
  eta_resource_id : option string;
  old_eta : option Z;
  new_eta : Z
}.

Record SAPUpdatePayload : Type := {
  sap_instruction_id : string;
  sap_old_status : option string;
  sap_new_status : string
}.

Record WeatherEventPayload : Type := {
  weather_type : string;
  severity : string;
  weather_start_time : Z;
  weather_end_time : option Z;
  affected_areas : list string
}.

(** The constructor of [ETAChangePayload] applied to the payload
    dictionary, and its two siblings. *)
Definition parse_eta_payload (p : dict PayloadValue) : Exn + ETAChangePayload :=
  m <- opt_str p "material_id" ;;
  r <- opt_str p "resource_id" ;;
  o <- opt_time p "old_eta" ;;
  n <- req_time p "new_eta" ;;
  _ <- opt_str p "reason" ;;
  inr {| eta_material_id := m; eta_resource_id := r; old_eta := o;
         new_eta := n |}.

Definition parse_sap_payload (p : dict PayloadValue) : Exn + SAPUpdatePayload :=
  i <- req_str p "instruction_id" ;;
  o <- opt_str p "old_status" ;;
  n <- req_str p "new_status" ;;
  _ <- opt_time p "update_time" ;;
  inr {| sap_instruction_id := i; sap_old_status := o; sap_new_status := n |}.

Definition parse_weather_payload (p : dict PayloadValue)
  : Exn + WeatherEventPayload :=
  w <- req_str p "weather_type" ;;
  s <- req_str p "severity" ;;
  st <- req_time p "start_time" ;;
  en <- opt_time p "end_time" ;;
  a <- list_or_empty p "affected_areas" ;;
  inr {| weather_type := w; severity := s; weather_start_time := st;
         weather_end_time := en; affected_areas := a |}.

(** [Event.get_typed_payload]: a failure of the payload class is raised
    again as a [ValueError]. *)
Definition get_typed_payload {A : Type} (class_name : string)
  (payload_class : dict PayloadValue -> Exn + A) (e : Event) : Exn + A :=
  match payload_class (payload e) with
  | inr v => inr v
  | inl err =>
      inl (ValueError ("Invalid payload for " ++ class_name ++ ": "
                       ++ exn_message err))
  end.

End EventModel.

(** ** Event service ([services/event_service.py]) *)

Module EventService.
Import EventModel.

Record EventLog : Type := {
  log_event_id : string;
  level : string;
  message : string;
  details : option ProcessingResult
}.

(** The attribute [event_logs] of the service; the processor table is
    fixed by [_register_processors]. *)
Record t : Type := { event_logs : list EventLog }.

(** [_log_event]; the log id and the timestamp, a fresh identifier and a
    clock reading that nothing reads back, are left out. *)
Definition _log_event (e : Event) (lvl msg : string)
  (det : option ProcessingResult) (svc : t) : t :=
  {| event_logs :=
       event_logs svc ++ [{| log_event_id := event_id e; level := lvl;
                             message := msg; details := det |}] |}.

(** Truth value of an optional string: [None] and the empty string are
    falsy. *)
Definition truthy_str (s : option string) : bool :=
  match s with
  | Some v => negb (bool_decide (v = EmptyString))
  | None => false
  end.

(** [ETAChangeProcessor._analyze_eta_impact].  [TaskInterval] has no
    attribute [metadata], so reading it raises. *)
Definition _analyze_eta_impact (p : ETAChangePayload)
  (schedule : option ScheduleModel.Schedule) : Exn + list string :=
  match schedule with
  | None => inr []
  | Some sch =>
      foldE (fun affected_tasks interval =>
               let affected1 :=
                 if truthy_str (eta_resource_id p)
                    && Py.str_in (default EmptyString (eta_resource_id p))
                                 (ScheduleModel.assigned_resources interval)
                 then affected_tasks ++ [ScheduleModel.task_id interval]
                 else affected_tasks in
               if truthy_str (eta_material_id p) then
                 inl (AttributeError
                        "'TaskInterval' object has no attribute 'metadata'")
               else inr affected1)
            (ScheduleModel.task_intervals sch) []
  end.

(** [x > c] on floats. *)
Definition gt (x c : Q) : bool := negb (Qle_bool x c).

(** The [try] block of [ETAChangeProcessor.process]. *)
Definition eta_process_body (e : Event)
  (schedule : option ScheduleModel.Schedule) : Exn + ProcessingResult :=
  p <- get_typed_payload "ETAChangePayload" parse_eta_payload e ;;
  affected_tasks <- _analyze_eta_impact p schedule ;;
  let delay_hours :=
    match old_eta p with
    | Some o => Qdiv (Py.total_seconds (new_eta p - o)) (3600 # 1)
    | None => 0 # 1
    end in
  inr (EtaResult affected_tasks delay_hours (gt delay_hours (5 # 10))
         (if gt delay_hours (4 # 1) then "high"
          else if gt delay_hours (1 # 1) then "medium" else "low")).

(** The [try] block of [SAPUpdateProcessor.process]. *)
Definition sap_process_body (e : Event) : Exn + ProcessingResult :=
  p <- get_typed_payload "SAPUpdatePayload" parse_sap_payload e ;;
  let new_status := sap_new_status p in
  let '(impact_level, requires_replan) :=
    if Py.str_in new_status ["approved"; "released"] then ("medium", true)
    else if Py.str_in new_status ["rejected"; "cancelled"] then ("high", true)
    else ("low", false) in
  inr (SapResult (sap_instruction_id p)
         (default "None" (sap_old_status p) ++ " -> " ++ new_status)
         requires_replan impact_level).

(** [WeatherEventProcessor._analyze_weather_impact]. *)
Definition _analyze_weather_impact (p : WeatherEventPayload) : list string :=
  if Py.str_in (weather_type p) ["typhoon"; "storm"; "heavy_rain"] then
    (if Py.str_in "outdoor_area" (affected_areas p)
     then ["CRANE-1"; "CRANE-2"] else [])
    ++ (if Py.str_in "crane_zone" (affected_areas p)
        then ["CRANE-3"; "CRANE-4"] else [])
  else [].

(** The [try] block of [WeatherEventProcessor.process]. *)
Definition weather_process_body (e : Event) : Exn + ProcessingResult :=
  p <- get_typed_payload "WeatherEventPayload" parse_weather_payload e ;;
  inr (WeatherResult (weather_type p) (severity p) (affected_areas p)
         (_analyze_weather_impact p)
         (Py.str_in (severity p) ["high"; "critical"]) (severity p)
         (match weather_end_time p with
          | Some en =>
              Some (Qdiv (Py.total_seconds (en - weather_start_time p))
                         (3600 # 1))
          | None => None
          end)).

Record Delay : Type := {
  delay_event_id : string;
  delay_hours : Q;
  reason : string
}.

(** The local variables that [apply_events] accumulates into. *)
Record Accumulator : Type := {
  affected_tasks : gset string;
  delays : list Delay;
  total_delay_hours : Q
}.

Definition empty_accumulator : Accumulator :=
  {| affected_tasks := ∅; delays := []; total_delay_hours := 0 # 1 |}.

Record ScheduleDiff : Type := {
  diff_affected_tasks : list string;
  diff_delays : list Delay;
  diff_resource_reallocation : list string
}.

Record ApplyResult : Type := {
  result_plan_id : string;
  diff : ScheduleDiff;
  new_makespan : string
}.

(** [_validate_event] at the instant [now]. *)
Definition _validate_event (now : Z) (e : Event) : Exn + unit :=
  if is_expired now e then
    inl (ValidationError ("Event " ++ event_id e ++ " has expired"))
  else if negb (is_effective now e) then
    inl (ValidationError ("Event " ++ event_id e ++ " is not yet effective"))
  else if is_empty (scope e) then
    inl (ValidationError ("Event " ++ event_id e ++ " has empty scope"))
  else inr tt.

(** The [except] clause of [process_event]: mark, log, re-raise. *)
Definition fail_event {A : Type} (err : Exn) (e : Event) (svc : t)
  : (Exn + A) * Event * t :=
  let failed := mark_failed (exn_message err) e in
  (inl err, failed,
   _log_event failed "ERROR"
     ("Event processing failed: " ++ exn_message err) None svc).

Section Service.

(** [event.event_type.value] and [f"{event.event_type}"].  The model
    [Event] sets [use_enum_values = True]: pydantic then stores the plain
    string of the enumeration, on which the attribute [value] does not
    exist, and the access raises an [AttributeError]; were the member
    itself stored, the access would give its string.  What the access
    does is therefore a parameter, and nothing proved below depends on
    it. *)
Variable event_type_dot_value : EventType -> Exn + string.
Variable event_type_str : EventType -> string.

(** [EventProcessingError(msg, event_type=event.event_type.value,
    event_id=event.event_id)]: evaluating the arguments may itself
    raise. *)
Definition processing_error (msg : string) (e : Event) : Exn :=
  match event_type_dot_value (event_type e) with
  | inr v => EventProcessingError msg (Some v) (Some (event_id e))
  | inl err => err
  end.

(** The [except] clause shared by the three processors. *)
Definition wrap_processing_error (what : string) (e : Event)
  (r : Exn + ProcessingResult) : Exn + ProcessingResult :=
  match r with
  | inr v => inr v
  | inl err =>
      inl (processing_error
             ("Failed to process " ++ what ++ " event: " ++ exn_message err) e)
  end.

Definition eta_process (e : Event) (schedule : option ScheduleModel.Schedule)
  : Exn + ProcessingResult :=
  wrap_processing_error "ETA change" e (eta_process_body e schedule).

Definition sap_process (e : Event) (schedule : option ScheduleModel.Schedule)
  : Exn + ProcessingResult :=
  wrap_processing_error "SAP update" e (sap_process_body e).

Definition weather_process (e : Event)
  (schedule : option ScheduleModel.Schedule) : Exn + ProcessingResult :=
  wrap_processing_error "weather" e (weather_process_body e).

(** [self.processors.get(event.event_type)]. *)
Definition processors (ty : EventType)
  : option (Event -> option ScheduleModel.Schedule -> Exn + ProcessingResult) :=
  match ty with
  | ETA_CHANGE => Some eta_process
  | SAP_UPDATE => Some sap_process
  | WEATHER => Some weather_process
  | _ => None
  end.

(** [process_event]: the outcome, the event object after the call and the
    service after the call. *)
Definition process_event (now : Z) (e : Event)
  (current_schedule : option ScheduleModel.Schedule) (svc : t)
  : (Exn + ProcessingResult) * Event * t :=
  match _validate_event now e with
  | inl err => fail_event err e svc
  | inr _ =>
      let e1 := mark_processing now e in
      let svc1 := _log_event e1 "INFO" "Event processing started" None svc in
      match processors (event_type e1) with
      | None =>
          fail_event
            (processing_error
               ("No processor found for event type "
                ++ event_type_str (event_type e1)) e1)
            e1 svc1
      | Some processor =>
          match processor e1 current_schedule with
          | inl err => fail_event err e1 svc1
          | inr result =>
              let e2 := mark_completed result e1 in
              (inr result, e2,
               _log_event e2 "INFO" "Event processing completed"
                          (Some result) svc1)
          end
      end
  end.

(** The block of [apply_events] that merges one result into the local
    variables; the entry of [delays] reads [event.event_type.value]. *)
Definition merge_result (e : Event) (r : ProcessingResult) (acc : Accumulator)
  : Exn + Accumulator :=
  match r with
  | EtaResult tasks dh _ _ =>
      new_delays <-
        (if gt dh (0 # 1) then
           v <- event_type_dot_value (event_type e) ;;
           inr (delays acc ++ [{| delay_event_id := event_id e;
                                  delay_hours := dh; reason := v |}])
         else inr (delays acc)) ;;
      inr {| affected_tasks := affected_tasks acc ∪ list_to_set tasks;
             delays := new_delays;
             total_delay_hours := Qplus (total_delay_hours acc) dh |}
  | _ => inr acc
  end.

(** [clock n] is [datetime.now()] while the [n]-th event of a batch is
    handled, [fresh_event_id n] the identifier generated for it. *)
Variable clock : nat -> Z.
Variable fresh_event_id : nat -> string.

(** [create_event] for the [n]-th event of a batch. *)
Definition create_event (n : nat) (event_data : EventCreate) : Event :=
  {| event_id := fresh_event_id n; event_type := ec_event_type event_data;
     title := ec_title event_data;
     effective_time := ec_effective_time event_data;
     expires_at := ec_expires_at event_data; status := PENDING;
     scope := ec_scope event_data; payload := ec_payload event_data;
     processed_at := None; processing_result := None;
     error_message := None |}.

(** The loop of [apply_events] from the [n]-th event on.  An entry of
    [events] is [None] when the [EventCreate] model rejects the
    dictionary.  [created] lists the event objects of the batch in their
    last state; the source holds each one in a local variable only. *)
Fixpoint apply_loop (n : nat) (events : list (option EventCreate))
  (acc : Accumulator) (svc : t) (created : list Event)
  : (Exn + Accumulator) * t * list Event :=
  match events with
  | [] => (inr acc, svc, created)
  | None :: _ =>
      (inl (ValueError "validation error for EventCreate"), svc, created)
  | Some event_data :: rest =>
      let e := create_event n event_data in
      match process_event (clock n) e None svc with
      | (inl err, e', svc') => (inl err, svc', created ++ [e'])
      | (inr result, e', svc') =>
          match merge_result e' result acc with
          | inl err => (inl err, svc', created ++ [e'])
          | inr acc' => apply_loop (S n) rest acc' svc' (created ++ [e'])
          end
      end
  end.

(** [apply_events]: the response or the exception, the service after the
    call, and the event objects of the batch. *)
Definition apply_events (plan : string) (events : list (option EventCreate))
  (svc : t) : (Exn + ApplyResult) * t * list Event :=
  match apply_loop 0 events empty_accumulator svc [] with
  | (inr acc, svc', created) =>
      let new_makespan_hours := Qplus (24 # 1) (total_delay_hours acc) in
      (inr {| result_plan_id := plan;
              diff := {| diff_affected_tasks := elements (affected_tasks acc);
                         diff_delays := delays acc;
                         diff_resource_reallocation := [] |};
              new_makespan :=
                "PT" ++ Py.str_of_int (Py.int_of_float new_makespan_hours)
                     ++ "H" |},
       svc', created)
  | (inl err, svc', created) =>
      (inl (EventProcessingError
              ("Failed to apply events: " ++ exn_message err)
              (Some "batch_processing") None),
       svc', created)
  end.

(** The body of the loop runs to its end for the [n]-th event: the event
    is processed and its result merged. *)
Definition handled (n : nat) (event_data : EventCreate) : bool :=
  match process_event (clock n) (create_event n event_data) None
                      {| event_logs := [] |} with
  | (inr result, e', _) =>
      match merge_result e' result empty_accumulator with
      | inr _ => true
      | inl _ => false
      end
  | (inl _, _, _) => false
  end.

(** [process_event] raises for the [n]-th event. *)
Definition rejected (n : nat) (event_data : EventCreate) : bool :=
  match fst (fst (process_event (clock n) (create_event n event_data) None
                                {| event_logs := [] |})) with
  | inl _ => true
  | inr _ => false
  end.

End Service.

End EventService.

(** ** Schedule queries ([models/schedule.py]) *)

Module ScheduleQueries.
Import ScheduleModel.

(** [TaskInterval.overlaps_with]. *)
Definition overlaps_with (self other : TaskInterval) : bool :=
  negb ((end_time self <=? start_time other)%Z
        || (end_time other <=? start_time self)%Z).

(** The loop of [Schedule.get_task_interval]: the first interval of the
    task, or [None]. *)
Fixpoint first_interval (intervals : list TaskInterval) (tid : string)
  : option TaskInterval :=
  match intervals with
  | [] => None
  | interval :: rest =>
      if bool_decide (task_id interval = tid) then Some interval
      else first_interval rest tid
  end.

Definition get_task_interval (self : Schedule) (tid : string)
  : option TaskInterval :=
  first_interval (task_intervals self) tid.

(** One entry of [ScheduleDiff.delays]. *)
Record TaskDelay : Type := {
  delay_task_id : string;
  delay_hours : Q;
  delay_reason : string
}.

(** [ScheduleDiff]: the fields that [calculate_diff] sets and
    [has_significant_changes] reads. *)
Record ScheduleDiff : Type := {
  affected_tasks : list string;
  delays : list TaskDelay;
  resource_reallocation : list string;
  added_tasks : list string;
  cancelled_tasks : list string;
  makespan_change_hours : Q
}.

(** [ScheduleDiff.has_significant_changes]. *)
Definition has_significant_changes (self : ScheduleDiff) (threshold_hours : Q)
  : bool :=
  negb (Qle_bool (Qabs (makespan_change_hours self)) threshold_hours)
  || (0 <? length (affected_tasks self))%nat
  || (0 <? length (resource_reallocation self))%nat
  || (0 <? length (added_tasks self))%nat
  || (0 <? length (cancelled_tasks self))%nat.

(** The body of the loop of [calculate_diff] for one interval of [self]. *)
Definition compare_interval (other : Schedule)
  (acc : list string * list TaskDelay) (interval : TaskInterval)
  : list string * list TaskDelay :=
  let '(affected_tasks, delays) := acc in
  match get_task_interval other (task_id interval) with
  | Some other_interval =>
      if bool_decide (start_time interval <> start_time other_interval) then
        (affected_tasks ++ [task_id interval],
         if (start_time other_interval <? start_time interval)%Z then
           delays
             ++ [{| delay_task_id := task_id interval;
                    delay_hours :=
                      Qdiv (Py.total_seconds
                              (start_time interval - start_time other_interval))
                           (3600 # 1);
                    delay_reason := "schedule_change" |}]
         else delays)
      else acc
  | None => acc
  end.

Section CalculateDiff.

(** [list(set(l))], in whatever order the set is listed. *)
Variable list_of_set : list string -> list string.

(** [Schedule.calculate_diff]; [self_makespan_hours] and
    [other_makespan_hours] are [metrics.makespan_hours] of the two
    schedules. *)
Definition calculate_diff (self other : Schedule)
  (self_makespan_hours other_makespan_hours : Q) : ScheduleDiff :=
  let '(affected_tasks, delays) :=
    fold_left (compare_interval other) (task_intervals self) ([], []) in
  {| affected_tasks := list_of_set affected_tasks;
     delays := delays;
     resource_reallocation := []; added_tasks := []; cancelled_tasks := [];
     makespan_change_hours :=
       Qminus self_makespan_hours other_makespan_hours |}.

End CalculateDiff.

End ScheduleQueries.

(** ** Resource allocations and schedule metrics
    ([models/schedule.py], [solvers/solution_parser.py]) *)

Module SolutionMetrics.
Import CpModel ScheduleModel.

(** [ResourceAllocation]; the quantity is always 1 and the status always
    [ALLOCATED] where the parser builds one. *)
Record ResourceAllocation : Type := {
  alloc_resource_id : string;
  alloc_resource_name : option string;
  allocated_to : string;
  alloc_start_time : Z;
  alloc_end_time : Z;
  alloc_cost : option Q
}.

(** [ResourceAllocation(...)]: the validator of [end_time] and the bound
    [ge=0] of [cost]. *)
Definition ResourceAllocation_new (a : ResourceAllocation)
  : Exn + ResourceAllocation :=
  if (alloc_end_time a <=? alloc_start_time a)%Z then
    inl (ValueError "End time must be after start time")
  else
    match alloc_cost a with
    | Some c =>
        if Qle_bool (0 # 1) c then inr a
        else inl (ValueError "ensure this value is greater than or equal to 0")
    | None => inr a
    end.

(** [ResourceAllocation.get_duration_hours]. *)
Definition get_duration_hours (self : ResourceAllocation) : Q :=
  Qdiv (Py.total_seconds (alloc_end_time self - alloc_start_time self))
       (3600 # 1).

(** The dictionary [{r.resource_id: r for r in resources}]. *)
Definition resource_by_id (resources : list Resource) : dict Resource :=
  fold_left (fun d r => Py.dict_set d (resource_id (resource_base r)) r)
            resources [].

(** The body of the inner loop of [_parse_resource_allocations]. *)
Definition parse_assignment (value : nat -> Z) (resource : Resource)
  (rid : string) (task_starts task_ends : dict IntVar) (plan_start_time : Z)
  (allocations : list ResourceAllocation) (item : string * IntVar)
  : Exn + list ResourceAllocation :=
  let '(task_id, assign_var) := item in
  if (value (var_index assign_var) =? 0)%Z then inr allocations
  else
    match Py.dict_get task_starts task_id, Py.dict_get task_ends task_id with
    | Some s, Some e =>
        let start_minutes := value (var_index s) in
        let end_minutes := value (var_index e) in
        let cost :=
          if Py.truthy_float (hourly_cost (resource_base resource)) then
            let duration_hours :=
              Qdiv (inject_Z (end_minutes - start_minutes)) (60 # 1) in
            Some (Qmult (default (0 # 1) (hourly_cost (resource_base resource)))
                        duration_hours)
          else None in
        allocation <-
          ResourceAllocation_new
            {| alloc_resource_id := rid;
               alloc_resource_name :=
                 Some (resource_name (resource_base resource));
               allocated_to := task_id;
               alloc_start_time :=
                 plan_start_time + Py.timedelta_minutes start_minutes;
               alloc_end_time :=
                 plan_start_time + Py.timedelta_minutes end_minutes;
               alloc_cost := cost |} ;;
        inr (allocations ++ [allocation])
    | _, _ => inr allocations
    end.

(** [_parse_resource_allocations]; [value] is [cp_solver.Value]. *)
Definition _parse_resource_allocations (value : nat -> Z)
  (resources : list Resource) (resource_assignments : dict (dict IntVar))
  (task_starts task_ends : dict IntVar) (plan_start_time : Z)
  : Exn + list ResourceAllocation :=
  foldE (fun allocations (entry : string * dict IntVar) =>
           let '(rid, assignments) := entry in
           match Py.dict_get (resource_by_id resources) rid with
           | Some resource =>
               foldE (parse_assignment value resource rid task_starts
                                       task_ends plan_start_time)
                     assignments allocations
           | None => inr allocations
           end)
        resource_assignments [].

(** [sum(xs)] over floats. *)
Definition sum_floats (xs : list Q) : Q := fold_left Qplus xs (0 # 1).

(** [max(xs)] and [min(xs)] over a list with first element [x]. *)
Definition max_of (x : Z) (xs : list Z) : Z := fold_left Z.max xs x.
Definition min_of (x : Z) (xs : list Z) : Z := fold_left Z.min xs x.

(** [_calculate_plan_end_time]. *)
Definition _calculate_plan_end_time (task_intervals : list TaskInterval)
  (plan_start_time : Z) : Z :=
  match task_intervals with
  | [] => (plan_start_time + Py.us_per_hour)%Z
  | interval :: rest =>
      let max_end_time := max_of (end_time interval) (map end_time rest) in
      if (max_end_time <=? plan_start_time)%Z
      then (plan_start_time + Py.us_per_hour)%Z
      else max_end_time
  end.

(** [sorted(task_intervals, key=lambda x: x.end_time, reverse=True)]:
    the sort is stable, so intervals that end together keep their order. *)
Fixpoint insert_by_end (x : TaskInterval) (sorted : list TaskInterval)
  : list TaskInterval :=
  match sorted with
  | [] => [x]
  | y :: rest =>
      if (end_time x <? end_time y)%Z then y :: insert_by_end x rest
      else x :: y :: rest
  end.

Definition sorted_by_end_desc (task_intervals : list TaskInterval)
  : list TaskInterval :=
  fold_right insert_by_end [] task_intervals.

(** [_analyze_critical_path]; the jobs and preparation tasks that are
    passed in are not read. *)
Definition _analyze_critical_path (task_intervals : list TaskInterval)
  : list string :=
  match task_intervals with
  | [] => []
  | _ :: _ =>
      let sorted_intervals := sorted_by_end_desc task_intervals in
      let critical_path_length := Nat.min (length sorted_intervals) 5 in
      map task_id (take critical_path_length sorted_intervals)
  end.

(** The grouping loop of [_calculate_resource_utilization]. *)
Definition group_allocations (resource_allocations : list ResourceAllocation)
  : dict (list ResourceAllocation) :=
  fold_left
    (fun (d : dict (list ResourceAllocation)) alloc =>
       Py.dict_set d (alloc_resource_id alloc)
         (default [] (Py.dict_get d (alloc_resource_id alloc)) ++ [alloc]))
    resource_allocations [].

(** [_calculate_resource_utilization]. *)
Definition _calculate_resource_utilization
  (resource_allocations : list ResourceAllocation) (resources : list Resource)
  (plan_start plan_end : Z) : dict Q :=
  let total_plan_hours :=
    Qdiv (Py.total_seconds (plan_end - plan_start)) (3600 # 1) in
  if Qle_bool total_plan_hours (0 # 1) then []
  else
    let allocations_by_resource := group_allocations resource_allocations in
    fold_left
      (fun (utilization : dict Q) resource =>
         let rid := resource_id (resource_base resource) in
         match default [] (Py.dict_get allocations_by_resource rid) with
         | [] => Py.dict_set utilization rid (0 # 1)
         | resource_allocations_list =>
             let total_used_hours :=
               sum_floats (map get_duration_hours resource_allocations_list) in
             let ratio := Qdiv total_used_hours total_plan_hours in
             Py.dict_set utilization rid
               (if Qle_bool ratio (1 # 1) then ratio else 1 # 1)
         end)
      resources [].

(** [ScheduleMetrics]: the fields that [_calculate_metrics] sets. *)
Record ScheduleMetrics : Type := {
  makespan_hours : Q;
  total_duration_hours : Q;
  critical_path_length_hours : Q;
  resource_utilization : dict Q;
  average_utilization : Q;
  total_waiting_time_hours : Q;
  average_waiting_time_hours : Q;
  total_cost : option Q;
  constraint_violations : Z;
  solve_time_seconds : Q;
  solver_status : CPSATSolver.SolverStatus;
  metrics_objective_value : option Q
}.

(** [ScheduleMetrics(...)]: the bounds [ge=0] and [le=1] of the fields. *)
Definition ScheduleMetrics_new (sm : ScheduleMetrics) : Exn + ScheduleMetrics :=
  let ge0 (x : Q) := Qle_bool (0 # 1) x in
  if negb (ge0 (makespan_hours sm) && ge0 (total_duration_hours sm)
           && ge0 (critical_path_length_hours sm)
           && ge0 (average_utilization sm)
           && ge0 (total_waiting_time_hours sm)
           && ge0 (average_waiting_time_hours sm)
           && match total_cost sm with Some c => ge0 c | None => true end
           && (0 <=? constraint_violations sm)%Z
           && ge0 (solve_time_seconds sm)) then
    inl (ValueError "ensure this value is greater than or equal to 0")
  else if negb (Qle_bool (average_utilization sm) (1 # 1)) then
    inl (ValueError "ensure this value is less than or equal to 1")
  else inr sm.

(** [_calculate_metrics]; of [solver_result] it reads the solve time, the
    status, whose lower-case name is the value of the same member, and
    the objective value. *)
Definition _calculate_metrics (solve_time : Q)
  (status : CPSATSolver.SolverStatus) (objective_value : option Q)
  (task_intervals : list TaskInterval)
  (resource_allocations : list ResourceAllocation) (resources : list Resource)
  : Exn + ScheduleMetrics :=
  match task_intervals with
  | [] =>
      ScheduleMetrics_new
        {| makespan_hours := 0 # 1; total_duration_hours := 0 # 1;
           critical_path_length_hours := 0 # 1; resource_utilization := [];
           average_utilization := 0 # 1; total_waiting_time_hours := 0 # 1;
           average_waiting_time_hours := 0 # 1; total_cost := None;
           constraint_violations := 0;
           solve_time_seconds := solve_time; solver_status := status;
           metrics_objective_value := objective_value |}
  | interval :: rest =>
      let max_end_time := max_of (end_time interval) (map end_time rest) in
      let min_start_time :=
        min_of (start_time interval) (map start_time rest) in
      let makespan_hours :=
        Qdiv (Py.total_seconds (max_end_time - min_start_time)) (3600 # 1) in
      let total_duration_hours :=
        sum_floats (map duration_hours task_intervals) in
      let resource_utilization :=
        _calculate_resource_utilization resource_allocations resources
                                        min_start_time max_end_time in
      let average_utilization :=
        match resource_utilization with
        | [] => 0 # 1
        | _ :: _ =>
            Qdiv (sum_floats (map snd resource_utilization))
                 (inject_Z (Z.of_nat (length resource_utilization)))
        end in
      let total_cost :=
        sum_floats (omap alloc_cost resource_allocations) in
      let total_waiting_time_hours := 0 # 1 in
      ScheduleMetrics_new
        {| makespan_hours := makespan_hours;
           total_duration_hours := total_duration_hours;
           critical_path_length_hours := makespan_hours;
           resource_utilization := resource_utilization;
           average_utilization := average_utilization;
           total_waiting_time_hours := total_waiting_time_hours;
           average_waiting_time_hours :=
             Qdiv total_waiting_time_hours
                  (inject_Z (Z.of_nat (length task_intervals)));
           total_cost :=
             if Qle_bool total_cost (0 # 1) then None else Some total_cost;
           constraint_violations := 0;
           solve_time_seconds := solve_time; solver_status := status;
           metrics_objective_value := objective_value |}
  end.

End SolutionMetrics.

(** ** Event log queries ([services/event_service.py]) *)

Module EventLogs.
Import EventModel EventService.


End EventLogs.

(** ** Solver results ([solvers/solver_interface.py]) *)

Module SolverResults.
Import CPSATSolver.

(** [SolverResult.is_successful]. *)
Definition is_successful (self : SolverResult) : bool :=
  match status self with
  | OPTIMAL | FEASIBLE => true
  | _ => false
  end.

End SolverResults.

(** * The wording of the specification, for comparison with the code *)

Module Spec.
Import CpModel.




(** The load on a resource at an instant: the quantities required by the
    tasks that are assigned to it and running. *)
Definition usage_at (rho : nat -> Z) (b : ConstraintBuilder.t)
  (jobs : list Job) (rid : string) (time : Z) : Z :=
  fold_right Z.add 0%Z
    (map (fun job =>
            match Py.dict_get (ConstraintBuilder.resource_assignments b) rid
                    ≫= (fun inner => Py.dict_get inner (job_id job)),
                  Py.dict_get (ConstraintBuilder.task_starts b) (job_id job),
                  Py.dict_get (ConstraintBuilder.task_ends b) (job_id job) with
            | Some a, Some s, Some e =>
                if (rho (var_index a) =? 1)%Z
                   && (rho (var_index s) <=? time)%Z
                   && (time <? rho (var_index e))%Z
                then get_resource_quantity job rid else 0%Z
            | _, _, _ => 0%Z
            end)
         jobs).

End Spec.

(** * Notions used in the statements *)






(** The task dictionaries of two builder states coincide. *)
Definition same_tasks (b b' : ConstraintBuilder.t) : Prop :=
  ConstraintBuilder.task_intervals b' = ConstraintBuilder.task_intervals b
  /\ ConstraintBuilder.task_starts b' = ConstraintBuilder.task_starts b
  /\ ConstraintBuilder.task_durations b' = ConstraintBuilder.task_durations b
  /\ ConstraintBuilder.task_ends b' = ConstraintBuilder.task_ends b.









(** Seconds between the stated duration of an interval and its length. *)
Definition duration_gap_seconds (iv : ScheduleModel.TaskInterval) : Q :=
  Qabs (Qminus
          (Py.total_seconds
             (ScheduleModel.end_time iv - ScheduleModel.start_time iv))
          (Qmult (ScheduleModel.duration_hours iv) (3600 # 1))).

(** The five id collections of a scope, as sets. *)
Definition scope_sets (s : EventModel.EventScope) : list (gset string) :=
  [list_to_set (EventModel.engines s); list_to_set (EventModel.work_packages s);
   list_to_set (EventModel.prep_ids s); list_to_set (EventModel.job_ids s);
   list_to_set (EventModel.resource_ids s)].

(** A service with an empty log. *)
Definition fresh_service : EventService.t := {| EventService.event_logs := [] |}.

(** The ids of the events whose completion the service has logged. *)
Definition completed_ids (svc : EventService.t) : list string :=
  map EventService.log_event_id
      (filter (fun l => EventService.message l = "Event processing completed")
              (EventService.event_logs svc)).





(** The set [all_task_ids] of [validate_input], as a list. *)
Definition known_task_ids (s : CPSATSolver.t) : list string :=
  map job_id (CPSATSolver.jobs s)
  ++ map prep_id (CPSATSolver.preparation_tasks s).

(** The second model has the variables, intervals and constraints of the
    first, in the same order, and possibly more after them. *)
Definition model_extends (m m' : CpModel.t) : Prop :=
  CpModel.variables m `prefix_of` CpModel.variables m'
  /\ CpModel.intervals m `prefix_of` CpModel.intervals m'
  /\ CpModel.constraints m `prefix_of` CpModel.constraints m'.

(** The second builder state has the task dictionaries of the first and
    a model that extends the model of the first. *)
Definition grows (b b' : ConstraintBuilder.t) : Prop :=
  same_tasks b b'
  /\ model_extends (ConstraintBuilder.model b) (ConstraintBuilder.model b').

(** As [grows], with the assignment variables left as they are. *)
Definition adds_constraints (b b' : ConstraintBuilder.t) : Prop :=
  grows b b'
  /\ ConstraintBuilder.resource_assignments b'
     = ConstraintBuilder.resource_assignments b.

(** [succ] lists [pred] among its predecessors or dependencies. *)
Definition depends_on (jobs : list Job)
  (preparation_tasks : list PreparationTask) (succ pred : string) : Prop :=
  (exists job, job ∈ jobs /\ job_id job = succ /\ pred ∈ predecessor_jobs job)
  \/ (exists task, task ∈ preparation_tasks /\ prep_id task = succ
                   /\ pred ∈ dependencies task).

(** The start, duration and end variables stored for a task belong to
    the model, start and end range over the planning horizon of
    [horizon] hours, and the model has an interval over the three. *)
Definition tasks_linked (horizon : Z) (b : ConstraintBuilder.t) : Prop :=
  forall tid s d e,
    Py.dict_get (ConstraintBuilder.task_starts b) tid = Some s ->
    Py.dict_get (ConstraintBuilder.task_durations b) tid = Some d ->
    Py.dict_get (ConstraintBuilder.task_ends b) tid = Some e ->
    s ∈ CpModel.variables (ConstraintBuilder.model b)
    /\ d ∈ CpModel.variables (ConstraintBuilder.model b)
    /\ e ∈ CpModel.variables (ConstraintBuilder.model b)
    /\ CpModel.var_lb s = 0%Z /\ CpModel.var_ub s = (horizon * 60)%Z
    /\ CpModel.var_lb e = 0%Z /\ CpModel.var_ub e = (horizon * 60)%Z
    /\ exists name,
         {| CpModel.itv_start := s; CpModel.itv_size := d;
            CpModel.itv_end := e; CpModel.itv_presence := None;
            CpModel.itv_name := name |}
         ∈ CpModel.intervals (ConstraintBuilder.model b).

(** The assignment variable [resource_assignments[rid][tid]], if any. *)
Definition assignment_var (b : ConstraintBuilder.t) (rid tid : string)
  : option CpModel.IntVar :=
  Py.dict_get (ConstraintBuilder.resource_assignments b) rid
    ≫= (fun inner => Py.dict_get inner tid).


(** The interval lies in the planning window of [horizon] hours that
    starts at [plan_start_time], and lasts a positive time. *)
Definition within_horizon (plan_start_time horizon : Z)
  (iv : ScheduleModel.TaskInterval) : Prop :=
  (plan_start_time <= ScheduleModel.start_time iv
   /\ ScheduleModel.start_time iv < ScheduleModel.end_time iv
   /\ ScheduleModel.end_time iv
      <= plan_start_time + Py.timedelta_minutes (horizon * 60))%Z.

(** The interval starts and ends at the values that the solver gave to
    the start and end variables stored for its task. *)
Definition placed_by (value : nat -> Z) (plan_start_time : Z)
  (b : ConstraintBuilder.t) (iv : ScheduleModel.TaskInterval) : Prop :=
  exists s e,
    Py.dict_get (ConstraintBuilder.task_starts b) (ScheduleModel.task_id iv)
    = Some s
    /\ Py.dict_get (ConstraintBuilder.task_ends b) (ScheduleModel.task_id iv)
       = Some e
    /\ ScheduleModel.start_time iv
       = (plan_start_time + Py.timedelta_minutes (value (CpModel.var_index s)))%Z
    /\ ScheduleModel.end_time iv
       = (plan_start_time + Py.timedelta_minutes (value (CpModel.var_index e)))%Z.

(** The list is ordered by end time, latest first. *)
Fixpoint latest_first (l : list ScheduleModel.TaskInterval) : Prop :=
  match l with
  | [] => True
  | a :: rest =>
      Forall (fun b =>
                (ScheduleModel.end_time b <= ScheduleModel.end_time a)%Z) rest
      /\ latest_first rest
  end.

(** The allocation records an assignment variable of the builder that
    the solver set, over the time of the task it is stored for. *)
Definition allocated_by (value : nat -> Z) (plan_start_time : Z)
  (resources : list Resource) (b : ConstraintBuilder.t)
  (a : SolutionMetrics.ResourceAllocation) : Prop :=
  exists assignments v s e,
    (SolutionMetrics.alloc_resource_id a, assignments)
      ∈ ConstraintBuilder.resource_assignments b
    /\ (SolutionMetrics.allocated_to a, v) ∈ assignments
    /\ value (CpModel.var_index v) <> 0%Z
    /\ SolutionMetrics.alloc_resource_id a
         ∈ map (fun r => resource_id (resource_base r)) resources
    /\ Py.dict_get (ConstraintBuilder.task_starts b)
                   (SolutionMetrics.allocated_to a) = Some s
    /\ Py.dict_get (ConstraintBuilder.task_ends b)
                   (SolutionMetrics.allocated_to a) = Some e
    /\ SolutionMetrics.alloc_start_time a
       = (plan_start_time + Py.timedelta_minutes (value (CpModel.var_index s)))%Z
    /\ SolutionMetrics.alloc_end_time a
       = (plan_start_time + Py.timedelta_minutes (value (CpModel.var_index e)))%Z.





(** The task is planned in both schedules, at different start times. *)
Definition moved (self other : ScheduleModel.Schedule) (tid : string) : Prop :=
  exists interval other_interval,
    interval ∈ ScheduleModel.task_intervals self
    /\ ScheduleModel.task_id interval = tid
    /\ ScheduleQueries.get_task_interval other tid = Some other_interval
    /\ ScheduleModel.start_time interval
       <> ScheduleModel.start_time other_interval.

(** At most one task at a time may hold the resource: it is an exclusive
    physical resource, or its total quantity is at most one. *)
Definition single_use (resource : Resource) : Prop :=
  is_exclusive_physical resource = true
  \/ (total_quantity (resource_base resource) <= 1)%Z.

(** The optional interval that [_build_exclusive_resource_constraint]
    creates for a task. *)
Definition optional_interval (rid tid : string) (s d e a : CpModel.IntVar)
  : CpModel.IntervalVar :=
  {| CpModel.itv_start := s; CpModel.itv_size := d; CpModel.itv_end := e;
     CpModel.itv_presence := Some a;
     CpModel.itv_name := "optional_" ++ rid ++ "_" ++ tid |}.

(** No key occurs twice among the assignment variables, neither for a
    resource nor for a task of a resource. *)
Definition assignments_keyed (b : ConstraintBuilder.t) : Prop :=
  NoDup (map fst (ConstraintBuilder.resource_assignments b))
  /\ forall rid inner,
       (rid, inner) ∈ ConstraintBuilder.resource_assignments b ->
       NoDup (map fst inner).

(** * Sample inputs *)

Module Samples.

Definition job (id : string) (quals preds : list string)
  (reqs : list ResourceRequirement) (fixed : option Q) : Job :=
  {| job_id := id; work_card_id := "WP-001"; job_engine_id := "ENG-001";
     job_name := "Job " ++ id; base_duration_hours := 2 # 1;
     required_resources := reqs; required_qualifications := quals;
     predecessor_jobs := preds; job_earliest_start := None;
     job_latest_finish := None; fixed_start := None;
     fixed_duration := fixed |}.

Definition human (id : string) (quals : list string) : Resource :=
  HumanResource {| resource_id := id; resource_name := id;
                   total_quantity := 1; hourly_cost := None |} id quals.

Definition config : ConstraintConfig :=
  {| time_horizon_hours := None; plan_start_time := Some 0%Z |}.


(** A tool stand of which two exist, three jobs that each need one, and
    three technicians. *)
Definition needs_stand : list ResourceRequirement :=
  [{| req_resource_id := "STAND"; req_quantity := 1; req_is_critical := false |}].

Definition stand : Resource :=
  PhysicalResource {| resource_id := "STAND"; resource_name := "Tool stand";
                      total_quantity := 2; hourly_cost := None |} false None.

Definition stand_jobs : list Job :=
  [job "J1" [] [] needs_stand None; job "J2" [] [] needs_stand None;
   job "J3" [] [] needs_stand None].

Definition stand_resources : list Resource :=
  [stand; human "H1" []; human "H2" []; human "H3" []].

(** All three jobs run from minute 0 to minute 120, each with its own
    technician, and all three hold the stand. *)
Definition stand_schedule (name : string) : Z :=
  if Py.str_in name ["duration_J1"; "duration_J2"; "duration_J3";
                     "end_J1"; "end_J2"; "end_J3"] then 120%Z
  else if Py.str_in name ["assign_STAND_J1"; "assign_STAND_J2";
                          "assign_STAND_J3"; "assign_H1_J1"; "assign_H2_J2";
                          "assign_H3_J3"] then 1%Z
  else 0%Z.

(** Weights with a makespan weight of 0.9999 and nothing else. *)
Definition makespan_only : ObjectiveBuilder.ObjectiveWeight :=
  {| ObjectiveBuilder.makespan := 9999 # 10000;
     ObjectiveBuilder.cost := 0 # 1; ObjectiveBuilder.utilization := 0 # 1;
     ObjectiveBuilder.waiting := 0 # 1; ObjectiveBuilder.switches := 0 # 1;
     ObjectiveBuilder.delays := 0 # 1; ObjectiveBuilder.preference := 0 # 1 |}.

(** A term builder that finds nothing to add. *)
Definition no_term (m : CpModel.t) : option CpModel.LinearExpr * CpModel.t :=
  (None, m).




(** Solver values for one job: it runs from minute 0 to minute 120. *)
Definition var (i : nat) (name : string) : CpModel.IntVar :=
  {| CpModel.var_index := i; CpModel.var_lb := 0; CpModel.var_ub := 10080;
     CpModel.var_name := name |}.

Definition two_hours (i : nat) : Z :=
  match i with
  | O => 0%Z
  | _ => 120%Z
  end.

(** An ETA change that puts a delivery off by two hours, once with a
    scope and once without. *)
Definition eta_slip (scope_jobs : list string) : EventModel.EventCreate :=
  {| EventModel.ec_event_type := EventModel.ETA_CHANGE;
     EventModel.ec_title := "ETA change";
     EventModel.ec_effective_time := 0;
     EventModel.ec_expires_at := None;
     EventModel.ec_scope :=
       {| EventModel.engines := []; EventModel.work_packages := [];
          EventModel.prep_ids := []; EventModel.job_ids := scope_jobs;
          EventModel.resource_ids := [] |};
     EventModel.ec_payload :=
       [("old_eta", EventModel.PTime 0);
        ("new_eta", EventModel.PTime 7200000000)] |}.

(** An ETA change that brings a delivery two hours forward. *)
Definition eta_advance (scope_jobs : list string) : EventModel.EventCreate :=
  {| EventModel.ec_event_type := EventModel.ETA_CHANGE;
     EventModel.ec_title := "ETA change";
     EventModel.ec_effective_time := 0;
     EventModel.ec_expires_at := None;
     EventModel.ec_scope :=
       {| EventModel.engines := []; EventModel.work_packages := [];
          EventModel.prep_ids := []; EventModel.job_ids := scope_jobs;
          EventModel.resource_ids := [] |};
     EventModel.ec_payload :=
       [("old_eta", EventModel.PTime 7200000000);
        ("new_eta", EventModel.PTime 0)] |}.

(** [event.event_type.value] when the event holds the plain string, as
    [use_enum_values] has it, and when it holds the member. *)
Definition dot_value (ty : EventModel.EventType) : Exn + string :=
  inl (AttributeError "'str' object has no attribute 'value'").

Definition member_value (ty : EventModel.EventType) : Exn + string :=
  inr (EventModel.event_type_value ty).

(** [f"{event.event_type}"] on the plain string. *)
Definition format_event_type : EventModel.EventType -> string :=
  EventModel.event_type_value.

Definition clock (n : nat) : Z := 100%Z.

Definition event_id_of (n : nat) : string := "EV-" ++ Py.str_of_int (Z.of_nat n).

(** [list(set(l))] with the order that [gset] lists its elements in. *)
Definition sorted_set (l : list string) : list string :=
  elements (list_to_set l : gset string).

Definition scope_of (ids : list string) : EventModel.EventScope :=
  {| EventModel.engines := ids; EventModel.work_packages := [];
     EventModel.prep_ids := []; EventModel.job_ids := ids;
     EventModel.resource_ids := [] |}.

(** An initialised solver that holds the given jobs and resources. *)
Definition solver (jobs : list Job) (resources : list Resource)
  : CPSATSolver.t :=
  {| CPSATSolver._is_initialized := true;
     CPSATSolver.constraint_builder := ConstraintBuilder.init CpModel.empty;
     CPSATSolver.jobs := jobs; CPSATSolver.resources := resources;
     CPSATSolver.preparation_tasks := [];
     CPSATSolver.constraints_config := config;
     CPSATSolver.priority_template := Some ObjectiveBuilder.BALANCED;
     CPSATSolver.custom_weights := []; CPSATSolver.objective := None;
     CPSATSolver.last_result := None; CPSATSolver.solve_calls := 0 |}.

(** A search that reports an optimal solution with every variable at 0. *)
Definition search_optimal (m : CpModel.t) (objective : option CpModel.LinearExpr)
  : CPSATSolver.CpStatus * (nat -> Z) :=
  (CPSATSolver.CP_OPTIMAL, fun _ => 0%Z).

(** Objective terms of the solver that find nothing to add. *)
Definition no_solver_term (s : CPSATSolver.t) (m : CpModel.t)
  : option CpModel.LinearExpr * CpModel.t :=
  (None, m).

(** A welding job that may start one hour after the plan start and must
    end within ten hours, a second job that waits for it, and one
    welder. *)
Definition plan_jobs : list Job :=
  [{| job_id := "J1"; work_card_id := "WP-001"; job_engine_id := "ENG-001";
      job_name := "Job J1"; base_duration_hours := 2 # 1;
      required_resources := []; required_qualifications := ["welder"];
      predecessor_jobs := []; job_earliest_start := Some 3600000000%Z;
      job_latest_finish := Some 36000000000%Z; fixed_start := None;
      fixed_duration := None |};
   job "J2" [] ["J1"] [] None].

Definition plan_resources : list Resource := [human "H1" ["welder"]].

(** The builder after [build_constraints] on a fresh model. *)
Definition built (jobs : list Job) (resources : list Resource)
  : ConstraintBuilder.t :=
  match ConstraintBuilder.build_constraints 0 jobs resources [] config
          (ConstraintBuilder.init CpModel.empty) with
  | inr b => b
  | inl _ => ConstraintBuilder.init CpModel.empty
  end.

(** J1 runs from minute 60 to 180, J2 from 180 to 300, both done by H1. *)
Definition plan_schedule (name : string) : Z :=
  if Py.str_in name ["duration_J1"; "duration_J2"] then 120%Z
  else if Py.str_in name ["start_J1"] then 60%Z
  else if Py.str_in name ["end_J1"; "start_J2"] then 180%Z
  else if Py.str_in name ["end_J2"] then 300%Z
  else if Py.str_in name ["assign_H1_J1"; "assign_H1_J2"] then 1%Z
  else 0%Z.

Definition plan_values : nat -> Z :=
  CpModel.valuation_by_name plan_schedule
    (ConstraintBuilder.model (built plan_jobs plan_resources)).

(** The model of the plan with the makespan variable, and the values of
    [plan_schedule] with a makespan of 300 minutes. *)
Definition plan_model : CpModel.t :=
  snd (ObjectiveBuilder._build_makespan_objective
         (ConstraintBuilder.task_ends (built plan_jobs plan_resources)) None
         (ConstraintBuilder.model (built plan_jobs plan_resources))).

Definition plan_model_values : nat -> Z :=
  CpModel.valuation_by_name
    (fun name => if Py.str_in name ["makespan"] then 300%Z
                 else plan_schedule name)
    plan_model.



(** A validated interval of two hours and an allocation of H1 over it. *)
Definition two_hour_interval : ScheduleModel.TaskInterval :=
  {| ScheduleModel.task_id := "J1"; ScheduleModel.task_type := ScheduleModel.JOB;
     ScheduleModel.start_time := 0; ScheduleModel.end_time := 7200000000;
     ScheduleModel.duration_hours := 2 # 1;
     ScheduleModel.task_name := None;
     ScheduleModel.interval_work_package_id := None;
     ScheduleModel.interval_engine_id := None;
     ScheduleModel.assigned_resources := [];
     ScheduleModel.assigned_personnel := [];
     ScheduleModel.is_fixed := false |}.

Definition two_hour_allocation : SolutionMetrics.ResourceAllocation :=
  {| SolutionMetrics.alloc_resource_id := "H1";
     SolutionMetrics.alloc_resource_name := Some "H1";
     SolutionMetrics.allocated_to := "J1";
     SolutionMetrics.alloc_start_time := 0;
     SolutionMetrics.alloc_end_time := 7200000000;
     SolutionMetrics.alloc_cost := None |}.

(** The schedule with the given intervals, and the two-hour interval
    planned one hour later. *)
Definition schedule_of (intervals : list ScheduleModel.TaskInterval)
  : ScheduleModel.Schedule :=
  {| ScheduleModel.plan_id := "PLAN-1";
     ScheduleModel.task_intervals := intervals |}.

Definition late_interval : ScheduleModel.TaskInterval :=
  {| ScheduleModel.task_id := "J1"; ScheduleModel.task_type := ScheduleModel.JOB;
     ScheduleModel.start_time := 3600000000;
     ScheduleModel.end_time := 10800000000;
     ScheduleModel.duration_hours := 2 # 1;
     ScheduleModel.task_name := None;
     ScheduleModel.interval_work_package_id := None;
     ScheduleModel.interval_engine_id := None;
     ScheduleModel.assigned_resources := [];
     ScheduleModel.assigned_personnel := [];
     ScheduleModel.is_fixed := false |}.

(** A Boolean variable of the model. *)
Definition flag (i : nat) (name : string) : CpModel.IntVar :=
  {| CpModel.var_index := i; CpModel.var_lb := 0; CpModel.var_ub := 1;
     CpModel.var_name := name |}.

End Samples.

(** * Properties *)

(** ** Truncation of non-negative floats *)

Section Truncation.
Local Open Scope Q_scope.




End Truncation.

(** ** Makespan formatting *)

Section FormatMakespan.
Import SchedulingService.



End FormatMakespan.

(** ** Dictionaries and loops *)

Section DictFacts.
Context {V : Type}.
Implicit Types (d : list (string * V)) (k : string) (v : V).

Lemma dict_get_set_eq d k v : Py.dict_get (Py.dict_set d k v) k = Some v.
Proof.
  induction d as [| [k' v'] d IH]; simpl.
  - destruct (decide (k = k)); congruence.
  - destruct (decide (k' = k)) as [-> | Hne]; simpl.
    + destruct (decide (k = k)); congruence.
    + destruct (decide (k' = k)); [congruence | exact IH].
Qed.

Lemma dict_get_set_ne d k k' v :
  k <> k' -> Py.dict_get (Py.dict_set d k v) k' = Py.dict_get d k'.
Proof.
  intros Hne. induction d as [| [k0 v0] d IH]; simpl.
  - destruct (decide (k = k')); congruence.
  - destruct (decide (k0 = k)) as [-> | H0]; simpl.
    + destruct (decide (k = k')); congruence.
    + destruct (decide (k0 = k')); [reflexivity | exact IH].
Qed.

Lemma dict_get_elem d k v : Py.dict_get d k = Some v -> (k, v) ∈ d.
Proof.
  induction d as [| [k' v'] d IH]; simpl; [discriminate |].
  destruct (decide (k' = k)) as [-> | Hne].
  - intros [= ->]. left.
  - intros H. right. apply IH. exact H.
Qed.

End DictFacts.

Lemma fold_left_inv {A B : Type} (P : B -> Prop) (f : B -> A -> B) l b :
  P b -> (forall b x, P b -> P (f b x)) -> P (fold_left f l b).
Proof.
  intros Hb Hf. revert b Hb. induction l as [| x l IH]; intros b Hb; simpl; auto.
Qed.

Lemma foldE_inv {A B : Type} (P : B -> Prop) (f : B -> A -> Exn + B) l b r :
  P b ->
  (forall b x b', x ∈ l -> P b -> f b x = inr b' -> P b') ->
  foldE f l b = inr r -> P r.
Proof.
  revert b. induction l as [| x l IH]; intros b Hb Hf H; simpl in H.
  - injection H as <-. exact Hb.
  - destruct (f b x) as [e | b'] eqn:E; simpl in H; [discriminate |].
    apply (IH b'); [| | exact H].
    + eapply Hf; [left | exact Hb | exact E].
    + intros b0 y b1 Hy. apply Hf. right. exact Hy.
Qed.


(** ** Task durations *)

Section TaskDurations.
Import CpModel ConstraintBuilder.









End TaskDurations.

(** ** Resource capacity *)

Section ResourceCapacity.
Import CpModel ConstraintBuilder.

Lemma cumulative_adds_nothing (resource : Resource)
  (requiring_tasks : list string) (b : ConstraintBuilder.t) :
  (2 <= total_quantity (resource_base resource))%Z ->
  _build_cumulative_resource_constraint resource requiring_tasks b = inr b.
Proof.
  intros H. unfold _build_cumulative_resource_constraint.
  rewrite bool_decide_eq_false_2 by lia. reflexivity.
Qed.

(** C1 fails on the code: for a tool stand of quantity 2 that is not
    exclusive and three jobs that each need one, the model that
    [build_constraints] emits is solved by a schedule in which all three
    jobs hold the stand at minute 0, a load of 3 on a capacity of 2. *)
Theorem stand_is_overbooked :
  match build_constraints 0 Samples.stand_jobs Samples.stand_resources []
                          Samples.config (init CpModel.empty) with
  | inr b =>
      let rho := valuation_by_name Samples.stand_schedule (model b) in
      solves rho (model b) = true
      /\ Spec.usage_at rho b Samples.stand_jobs "STAND" 0 = 3%Z
      /\ total_quantity (resource_base Samples.stand) = 2%Z
      /\ is_exclusive_physical Samples.stand = false
  | inl _ => False
  end.
Proof. vm_compute. repeat split. Qed.

End ResourceCapacity.

(** ** Objective *)

Section Objective.
Import CpModel ObjectiveBuilder.

Lemma eval_fold_add rho (xs : list LinearExpr) (acc : LinearExpr) :
  eval rho (fold_left LAdd xs acc)
  = (eval rho acc + fold_right (fun x s => eval rho x + s) 0 xs)%Z.
Proof.
  revert acc. induction xs as [| x xs IH]; intros acc; simpl; [lia |].
  rewrite IH. simpl. lia.
Qed.




Section Builders.
Variables cost_builder waiting_builder switches_builder delays_builder :
  CpModel.t -> option LinearExpr * CpModel.t.



End Builders.



(** A weight above zero does not by itself include a term: without tasks
    the makespan builder returns nothing, and with no other term the
    builder raises. *)
Lemma positive_weight_without_expression :
  fst (build_objective Samples.no_term Samples.no_term Samples.no_term
         Samples.no_term Samples.makespan_only [] None CpModel.empty)
  = inl (ConfigurationError "No valid objective terms found").
Proof. reflexivity. Qed.

End Objective.

(** ** Qualification coverage *)

Section Mentions.







End Mentions.

Section Qualification.
Import CpModel ConstraintBuilder.

Lemma same_tasks_refl b : same_tasks b b.
Proof. repeat split. Qed.

Lemma same_tasks_trans b1 b2 b3 :
  same_tasks b1 b2 -> same_tasks b2 b3 -> same_tasks b1 b3.
Proof.
  unfold same_tasks. intros (? & ? & ? & ?) (? & ? & ? & ?).
  repeat split; congruence.
Qed.

















End Qualification.

Section QualificationFailure.
Import CpModel ConstraintBuilder CPSATSolver.

Variable now : Z.
Variable cp_solver_Solve :
  CpModel.t -> option LinearExpr -> CpStatus * (nat -> Z).
Variables cost_builder waiting_builder switches_builder delays_builder :
  CPSATSolver.t -> CpModel.t -> option LinearExpr * CpModel.t.


End QualificationFailure.



(** ** Cycle detection *)

#[local] Set Warnings "-clear-no-such-hyp".

Section CycleDetection.
Import SchedulingService.

Variable deps : list (string * list string).














End CycleDetection.

Section CircularDependencies.
Import SchedulingService.

Lemma dependencies_kept_by_jobs (l : list Job) d k :
  k ∉ map job_id l ->
  Py.dict_get
    (fold_left (fun d job => Py.dict_set d (job_id job) (predecessor_jobs job))
               l d) k
  = Py.dict_get d k.
Proof.
  revert d. induction l as [| j l IH]; intros d Hk; simpl; [reflexivity |].
  simpl in Hk. apply not_elem_of_cons in Hk as [Hne Hk].
  rewrite IH by assumption. apply dict_get_set_ne. congruence.
Qed.

Lemma dependencies_kept_by_preps (l : list PreparationTask) d k :
  k ∉ map prep_id l ->
  Py.dict_get
    (fold_left (fun d task => Py.dict_set d (prep_id task) (dependencies task))
               l d) k
  = Py.dict_get d k.
Proof.
  revert d. induction l as [| j l IH]; intros d Hk; simpl; [reflexivity |].
  simpl in Hk. apply not_elem_of_cons in Hk as [Hne Hk].
  rewrite IH by assumption. apply dict_get_set_ne. congruence.
Qed.

(** With distinct task ids the edges of the dictionary are the
    predecessor links of the input. *)
Lemma dependencies_of_job jobs preparation_tasks job :
  job ∈ jobs ->
  NoDup (map job_id jobs ++ map prep_id preparation_tasks) ->
  neighbors (build_dependencies jobs preparation_tasks) (job_id job)
  = predecessor_jobs job.
Proof.
  intros Hin Hnd. unfold neighbors, build_dependencies.
  apply list_elem_of_split in Hin as (l1 & l2 & ->).
  rewrite map_app in Hnd. simpl in Hnd.
  rewrite <- app_assoc in Hnd. simpl in Hnd.
  apply NoDup_app in Hnd as (_ & _ & Hnd).
  apply NoDup_cons in Hnd as [Hnotin _].
  rewrite not_elem_of_app in Hnotin. destruct Hnotin as [Hl2 Hp].
  rewrite fold_left_app. simpl.
  rewrite dependencies_kept_by_preps by assumption.
  rewrite dependencies_kept_by_jobs by assumption.
  rewrite dict_get_set_eq. reflexivity.
Qed.

Lemma dependencies_of_prep jobs preparation_tasks task :
  task ∈ preparation_tasks ->
  NoDup (map job_id jobs ++ map prep_id preparation_tasks) ->
  neighbors (build_dependencies jobs preparation_tasks) (prep_id task)
  = dependencies task.
Proof.
  intros Hin Hnd. unfold neighbors, build_dependencies.
  apply list_elem_of_split in Hin as (l1 & l2 & ->).
  rewrite map_app in Hnd. simpl in Hnd.
  apply NoDup_app in Hnd as (_ & _ & Hnd).
  apply NoDup_app in Hnd as (_ & _ & Hnd).
  apply NoDup_cons in Hnd as [Hnotin _].
  rewrite fold_left_app. simpl.
  rewrite dependencies_kept_by_preps by assumption.
  rewrite dict_get_set_eq. reflexivity.
Qed.

Variable _execute_scheduling :
  list Job -> list Resource -> list PreparationTask ->
  Exn + (ScheduleModel.Schedule * Q).


End CircularDependencies.


(** ** Duration consistency *)

Section DurationConsistency.
Import CpModel ScheduleModel SolutionParser.

(** An interval that the model accepts ends after it starts, lasts a
    positive time, and its stated duration is within 0.01 hours, that is
    36 seconds, of its length. *)
Lemma TaskInterval_new_inv iv iv' :
  TaskInterval_new iv = inr iv' ->
  iv' = iv /\ (start_time iv < end_time iv)%Z /\ (0 < duration_hours iv)%Q
  /\ (duration_gap_seconds iv <= 36 # 1)%Q.
Proof.
  unfold TaskInterval_new. intros H.
  destruct (Z.leb_spec (end_time iv) (start_time iv)); [discriminate |].
  destruct (Qle_bool (duration_hours iv) 0) eqn:Ed; [discriminate |].
  destruct (Qle_bool _ (1 # 100)) eqn:Eg; simpl in H; [| discriminate].
  injection H as <-. split; [reflexivity |]. split; [assumption |]. split.
  - apply Qnot_le_lt. intros Hle. apply Qle_bool_iff in Hle. congruence.
  - apply Qle_bool_iff in Eg. unfold duration_gap_seconds.
    unfold calculated_hours in Eg.
    apply Qabs_Qle_condition in Eg. apply Qabs_Qle_condition.
    set (s := Py.total_seconds (end_time iv - start_time iv)) in *.
    set (d := duration_hours iv) in *.
    destruct Eg as [E1 E2].
    unfold Qdiv in E1, E2.
    change (/ (3600 # 1))%Q with (1 # 3600)%Q in E1, E2.
    split; lra.
Qed.

Lemma parsed_interval_gap value plan_start tid type name wp eng fixed vars iv :
  parsed_interval value plan_start tid type name wp eng fixed vars = inr iv ->
  (duration_gap_seconds iv <= 36 # 1)%Q.
Proof.
  unfold parsed_interval. destruct vars as [[s e] d]. intros H.
  apply TaskInterval_new_inv in H as (-> & _ & _ & Hg). exact Hg.
Qed.

Ltac interval_step Hacc Hstep :=
  let Ep := fresh "Ep" in
  cbv beta in Hstep;
  match type of Hstep with
  | context [task_vars ?a ?b ?c ?d] =>
      destruct (task_vars a b c d) as [? |];
      [| injection Hstep as <-; exact Hacc]
  end;
  match type of Hstep with
  | context [parsed_interval ?v ?p ?t ?ty ?n ?w ?e ?f ?vs] =>
      destruct (parsed_interval v p t ty n w e f vs) as [? | ?] eqn:Ep;
      simpl in Hstep; [discriminate |]
  end;
  injection Hstep as <-; apply Forall_app; split; [exact Hacc |];
  constructor; [| constructor]; eapply parsed_interval_gap; exact Ep.

(** C7: every interval that [_parse_task_intervals] returns has a stated
    duration within 60 seconds of the time between its start and its
    end (the model's validator allows 36 seconds). *)
Theorem parsed_intervals_duration_consistent (value : nat -> Z)
  (jobs : list Job) (preparation_tasks : list PreparationTask)
  (task_starts task_ends task_durations : list (string * IntVar))
  (plan_start_time : Z) (intervals : list TaskInterval) :
  _parse_task_intervals value jobs preparation_tasks task_starts task_ends
                        task_durations plan_start_time = inr intervals ->
  Forall (fun iv =>
            (Qabs (Py.total_seconds (end_time iv - start_time iv)
                   - duration_hours iv * (3600 # 1)) <= 60 # 1)%Q)
         intervals.
Proof.
  unfold _parse_task_intervals. intros H.
  set (P := Forall (fun iv => (duration_gap_seconds iv <= 36 # 1)%Q)).
  assert (HP : P intervals).
  { destruct (foldE _ jobs []) as [e | ivs] eqn:E1; simpl in H;
      [discriminate |].
    assert (P ivs) as Hivs.
    { eapply (foldE_inv P); [| | exact E1]; [constructor |].
      intros acc job acc' _ Hacc Hstep. interval_step Hacc Hstep. }
    eapply (foldE_inv P); [exact Hivs | | exact H].
    intros acc task acc' _ Hacc Hstep. interval_step Hacc Hstep. }
  unfold P in HP. eapply Forall_impl; [exact HP |].
  intros iv Hiv. simpl in Hiv.
  change (Qabs (Py.total_seconds (end_time iv - start_time iv)
                - duration_hours iv * (3600 # 1)))
    with (duration_gap_seconds iv).
  eapply Qle_trans; [exact Hiv |].
  unfold Qle; simpl; lia.
Qed.

Lemma parsed_intervals_duration_consistent_witness :
  exists iv,
    _parse_task_intervals Samples.two_hours [Samples.job "J1" [] [] [] None] []
      [("J1", Samples.var 0 "start_J1")] [("J1", Samples.var 1 "end_J1")]
      [("J1", Samples.var 2 "duration_J1")] 0
    = inr [iv]
    /\ Forall (fun iv =>
                 (Qabs (Py.total_seconds (end_time iv - start_time iv)
                        - duration_hours iv * (3600 # 1)) <= 60 # 1)%Q)
              [iv].
Proof.
  eexists. split; [vm_compute; reflexivity |].
  eapply (parsed_intervals_duration_consistent Samples.two_hours
            [Samples.job "J1" [] [] [] None] []
            [("J1", Samples.var 0 "start_J1")] [("J1", Samples.var 1 "end_J1")]
            [("J1", Samples.var 2 "duration_J1")] 0).
  vm_compute. reflexivity.
Defined.

End DurationConsistency.

(** ** Event scopes *)

Section ScopeMerge.
Import EventModel.

Variable list_of_set : list string -> list string.
Hypothesis list_of_set_elements :
  forall (l : list string) (x : string), x ∈ list_of_set l <-> x ∈ l.

Lemma list_of_set_as_set (l : list string) :
  list_to_set (list_of_set l) = (list_to_set l : gset string).
Proof.
  apply set_eq. intros x. rewrite !elem_of_list_to_set.
  apply list_of_set_elements.
Qed.

Lemma merge_is_union (a b : EventScope) :
  scope_sets (merge list_of_set a b)
  = zip_with (∪) (scope_sets a) (scope_sets b).
Proof.
  unfold scope_sets, merge. simpl.
  rewrite !list_of_set_as_set, !list_to_set_app_L. reflexivity.
Qed.

(** C9: whatever order [list(set(...))] lists a set in, merging scopes is
    associative on the five id collections read as sets, and a merge is
    their elementwise union. *)
Theorem scope_merge_associative (a b c : EventScope) :
  scope_sets (merge list_of_set a (merge list_of_set b c))
  = scope_sets (merge list_of_set (merge list_of_set a b) c)
  /\ scope_sets (merge list_of_set a b)
     = zip_with (∪) (scope_sets a) (scope_sets b).
Proof.
  split; [| apply merge_is_union].
  rewrite !merge_is_union. unfold scope_sets. simpl.
  rewrite !(assoc_L (∪)). reflexivity.
Qed.

End ScopeMerge.

Lemma scope_merge_associative_witness :
  (forall (l : list string) (x : string), x ∈ Samples.sorted_set l <-> x ∈ l)
  /\ scope_sets
       (EventModel.merge Samples.sorted_set (Samples.scope_of ["J1"; "J2"])
          (EventModel.merge Samples.sorted_set (Samples.scope_of ["J2"; "J3"])
                            (Samples.scope_of ["J1"])))
     = scope_sets
         (EventModel.merge Samples.sorted_set
            (EventModel.merge Samples.sorted_set (Samples.scope_of ["J1"; "J2"])
                              (Samples.scope_of ["J2"; "J3"]))
            (Samples.scope_of ["J1"])).
Proof.
  assert (H : forall (l : list string) (x : string),
             x ∈ Samples.sorted_set l <-> x ∈ l).
  { intros l x. unfold Samples.sorted_set.
    rewrite elem_of_elements, elem_of_list_to_set. reflexivity. }
  split; [exact H |].
  exact (proj1 (scope_merge_associative Samples.sorted_set H
                  (Samples.scope_of ["J1"; "J2"]) (Samples.scope_of ["J2"; "J3"])
                  (Samples.scope_of ["J1"]))).
Defined.

(** ** Event processing *)

Section EventProcessing.
Import EventModel EventService.

Section AnyEnumAccess.
Variable value_of : EventType -> Exn + string.
Variable str_of : EventType -> string.


Lemma process_event_status now e schedule svc :
  let '(r, e', svc') := process_event value_of str_of now e schedule svc in
  event_id e' = event_id e
  /\ match r with
     | inr result =>
         status e' = COMPLETED /\ processing_result e' = Some result
     | inl err =>
         status e' = FAILED /\ error_message e' = Some (exn_message err)
     end.
Proof.
  unfold process_event.
  destruct (_validate_event now e) as [err | []].
  { simpl. split; [reflexivity |]. split; reflexivity. }
  destruct (processors value_of (event_type (mark_processing now e)))
    as [p |].
  2:{ simpl. split; [reflexivity |]. split; reflexivity. }
  destruct (p (mark_processing now e) schedule) as [err | result].
  { simpl. split; [reflexivity |]. split; reflexivity. }
  simpl. split; [reflexivity |]. split; reflexivity.
Qed.

(** The outcome of processing and the event it leaves do not depend on
    the log. *)
Lemma process_event_outcome now e schedule svc1 svc2 :
  fst (process_event value_of str_of now e schedule svc1)
  = fst (process_event value_of str_of now e schedule svc2).
Proof.
  unfold process_event.
  destruct (_validate_event now e) as [err | []]; [reflexivity |].
  destruct (processors value_of _) as [p |]; [| reflexivity].
  destruct (p _ schedule); reflexivity.
Qed.

(** Whether merging a result raises does not depend on what has been
    accumulated. *)
Lemma merge_result_outcome e r acc0 acc0' acc :
  merge_result value_of e r acc0 = inr acc0' ->
  exists acc', merge_result value_of e r acc = inr acc'.
Proof.
  unfold merge_result. destruct r; try (intros _; eexists; reflexivity).
  destruct (gt _ _); [| intros _; eexists; reflexivity].
  destruct (value_of (event_type e)); simpl; [discriminate |].
  intros _. eexists. reflexivity.
Qed.

Lemma completed_ids_log e lvl msg det svc :
  completed_ids (_log_event e lvl msg det svc)
  = completed_ids svc
      ++ (if decide (msg = "Event processing completed")
          then [event_id e] else []).
Proof.
  unfold completed_ids, _log_event. simpl.
  rewrite filter_app, map_app. f_equal.
  rewrite filter_cons, filter_nil. simpl.
  destruct (decide (msg = "Event processing completed")); reflexivity.
Qed.

Lemma process_event_completed_ids now e schedule svc :
  let '(r, e', svc') := process_event value_of str_of now e schedule svc in
  completed_ids svc'
  = completed_ids svc
      ++ (match r with inr _ => [event_id e] | inl _ => [] end).
Proof.
  assert (Hfail : forall (err : Exn) ev s,
             completed_ids
               (_log_event ev "ERROR"
                  ("Event processing failed: " ++ exn_message err) None s)
             = completed_ids s).
  { intros err ev s. rewrite completed_ids_log.
    destruct (decide _) as [Heq | _]; [| apply app_nil_r].
    simpl in Heq. discriminate Heq. }
  unfold process_event, fail_event.
  destruct (_validate_event now e) as [err | []].
  { rewrite Hfail, app_nil_r. reflexivity. }
  destruct (processors value_of _) as [p |].
  2:{ rewrite Hfail, completed_ids_log. simpl. rewrite !app_nil_r. reflexivity. }
  destruct (p _ schedule) as [err | result].
  { rewrite Hfail, completed_ids_log. simpl. rewrite !app_nil_r. reflexivity. }
  rewrite !completed_ids_log. simpl. rewrite app_nil_r. reflexivity.
Qed.

Section Batch.
Variable clock : nat -> Z.
Variable fresh_event_id : nat -> string.

Lemma apply_loop_failure (pre : list (option EventCreate)) :
  forall (n : nat) (acc : Accumulator) (svc : EventService.t)
         (created : list Event) (event_data : EventCreate)
         (post : list (option EventCreate)),
    (forall i raw, pre !! i = Some raw ->
       exists ec, raw = Some ec
         /\ handled value_of str_of clock fresh_event_id (n + i) ec = true) ->
    rejected value_of str_of clock fresh_event_id (n + length pre) event_data
    = true ->
    exists err svc' evs,
      apply_loop value_of str_of clock fresh_event_id n
                 (pre ++ Some event_data :: post) acc svc created
      = (inl err, svc', created ++ evs)
      /\ map status evs = replicate (length pre) COMPLETED ++ [FAILED]
      /\ map event_id evs = map fresh_event_id (seq n (S (length pre)))
      /\ completed_ids svc'
         = completed_ids svc ++ map fresh_event_id (seq n (length pre)).
Proof.
  induction pre as [| raw pre IH];
    intros n acc svc created event_data post Hpre Hbad.
  - simpl in *. rewrite Nat.add_0_r in Hbad.
    unfold rejected in Hbad.
    rewrite (process_event_outcome _ _ _ _ svc) in Hbad.
    pose proof (process_event_status (clock n)
                  (create_event fresh_event_id n event_data) None svc) as Hs.
    pose proof (process_event_completed_ids (clock n)
                  (create_event fresh_event_id n event_data) None svc) as Hc.
    destruct (process_event _ _ _ _ None svc) as [[r e'] svc']. simpl in Hbad.
    destruct r as [err | r]; [| discriminate].
    destruct Hs as (Hid & Hst & _).
    exists err, svc', [e']. repeat split.
    + simpl. rewrite Hst. reflexivity.
    + simpl. rewrite Hid. reflexivity.
    + rewrite Hc. reflexivity.
  - destruct (Hpre 0%nat raw eq_refl) as (ec & -> & Hok).
    rewrite Nat.add_0_r in Hok. simpl.
    unfold handled in Hok.
    pose proof (process_event_outcome (clock n)
                  (create_event fresh_event_id n ec) None
                  {| event_logs := [] |} svc) as Ho.
    pose proof (process_event_status (clock n)
                  (create_event fresh_event_id n ec) None svc) as Hs.
    pose proof (process_event_completed_ids (clock n)
                  (create_event fresh_event_id n ec) None svc) as Hc.
    destruct (process_event _ _ _ _ None {| event_logs := [] |})
      as [[r0 e0] svc0].
    destruct (process_event _ _ _ _ None svc) as [[r e'] svc'].
    simpl in Ho. injection Ho as -> ->.
    destruct r as [err | r]; [discriminate |].
    destruct (merge_result value_of e' r empty_accumulator)
      as [err | acc0] eqn:Hm; [discriminate |].
    destruct (merge_result_outcome _ _ _ _ acc Hm) as (acc' & Hacc).
    rewrite Hacc.
    destruct Hs as (Hid & Hst & _).
    destruct (IH (S n) acc' svc' (created ++ [e']) event_data post)
      as (err & svc2 & evs & Heq & Hstat & Hids & Hcomp).
    + intros i raw' Hi. specialize (Hpre (S i) raw' Hi).
      replace (S n + i)%nat with (n + S i)%nat by lia. exact Hpre.
    + simpl in Hbad.
      replace (S n + length pre)%nat with (n + S (length pre))%nat by lia.
      exact Hbad.
    + exists err, svc2, (e' :: evs). rewrite Heq. repeat split.
      * rewrite <- app_assoc. reflexivity.
      * simpl. rewrite Hst, Hstat. reflexivity.
      * simpl. rewrite Hid. simpl in Hids. rewrite Hids. reflexivity.
      * rewrite Hcomp, Hc. rewrite <- app_assoc. reflexivity.
Qed.

(** C2, as the code has it: when the loop body runs to its end for every
    event before the [k]-th and [process_event] raises for the [k]-th,
    [apply_events] raises an [EventProcessingError] and returns no diff;
    the event objects it created are the first [k], completed, and the
    [k]-th, failed; no later event is created; and the service log
    records the completion of exactly the first [k]. *)
Theorem batch_failure_keeps_completed_events (plan : string)
  (pre : list (option EventCreate)) (event_data : EventCreate)
  (post : list (option EventCreate)) (svc : EventService.t) :
  (forall i raw, pre !! i = Some raw ->
     exists ec, raw = Some ec
       /\ handled value_of str_of clock fresh_event_id i ec = true) ->
  rejected value_of str_of clock fresh_event_id (length pre) event_data
  = true ->
  exists err svc' created,
    apply_events value_of str_of clock fresh_event_id plan
                 (pre ++ Some event_data :: post) svc
    = (inl (EventProcessingError
              ("Failed to apply events: " ++ exn_message err)
              (Some "batch_processing") None),
       svc', created)
    /\ map status created = replicate (length pre) COMPLETED ++ [FAILED]
    /\ map event_id created = map fresh_event_id (seq 0 (S (length pre)))
    /\ completed_ids svc'
       = completed_ids svc ++ map fresh_event_id (seq 0 (length pre)).
Proof.
  intros Hpre Hbad.
  destruct (apply_loop_failure pre 0 empty_accumulator svc [] event_data post
              Hpre Hbad)
    as (err & svc' & evs & Heq & Hstat & Hids & Hcomp).
  exists err, svc', evs. unfold apply_events. rewrite Heq. simpl.
  repeat split; assumption.
Qed.

End Batch.
End AnyEnumAccess.


Lemma batch_failure_keeps_completed_events_witness :
  (forall i raw, [Some (Samples.eta_advance ["J1"])] !! i = Some raw ->
     exists ec, raw = Some ec
       /\ handled Samples.dot_value Samples.format_event_type Samples.clock
                  Samples.event_id_of i ec = true)
  /\ rejected Samples.dot_value Samples.format_event_type Samples.clock
              Samples.event_id_of 1 (Samples.eta_slip []) = true
  /\ exists err svc' created,
       apply_events Samples.dot_value Samples.format_event_type
                    Samples.clock Samples.event_id_of "PLAN-1"
                    [Some (Samples.eta_advance ["J1"]);
                     Some (Samples.eta_slip [])]
                    fresh_service
       = (inl (EventProcessingError
                 ("Failed to apply events: " ++ exn_message err)
                 (Some "batch_processing") None),
          svc', created)
       /\ map status created = [COMPLETED; FAILED].
Proof.
  assert (Hpre : forall i raw,
             [Some (Samples.eta_advance ["J1"])] !! i = Some raw ->
             exists ec, raw = Some ec
               /\ handled Samples.dot_value Samples.format_event_type
                          Samples.clock Samples.event_id_of i ec = true).
  { intros [| i] raw H; simpl in H; [| discriminate].
    injection H as <-. eexists. split; reflexivity. }
  assert (Hbad : rejected Samples.dot_value Samples.format_event_type
                   Samples.clock Samples.event_id_of 1 (Samples.eta_slip [])
                 = true) by reflexivity.
  split; [exact Hpre |]. split; [exact Hbad |].
  destruct (batch_failure_keeps_completed_events Samples.dot_value
              Samples.format_event_type Samples.clock
              Samples.event_id_of "PLAN-1" [Some (Samples.eta_advance ["J1"])]
              (Samples.eta_slip []) [] fresh_service Hpre Hbad)
    as (err & svc' & created & Heq & Hstat & _).
  exists err, svc', created. split; [exact Heq | exact Hstat].
Defined.

(** C2, as the specification words it, fails.  An ETA change that brings
    a delivery two hours forward, applied alone, is accounted for in the
    response: the makespan drops from 24 to 22 hours.  Followed by an
    event that fails, the batch raises, and the response with the first
    event's contribution is not returned.  The same holds for an ETA
    slip of two hours and its entry in [delays] when the event type is
    held as a member of the enumeration. *)
Lemma batch_failure_returns_no_diff :
  (exists r,
     fst (fst (apply_events Samples.dot_value Samples.format_event_type
                 Samples.clock Samples.event_id_of "PLAN-1"
                 [Some (Samples.eta_advance ["J1"])] fresh_service))
     = inr r
     /\ new_makespan r = "PT22H")
  /\ fst (fst (apply_events Samples.dot_value Samples.format_event_type
                 Samples.clock Samples.event_id_of "PLAN-1"
                 [Some (Samples.eta_advance ["J1"]);
                  Some (Samples.eta_slip [])]
                 fresh_service))
     = inl (EventProcessingError
              "Failed to apply events: Event EV-1 has empty scope"
              (Some "batch_processing") None)
  /\ (exists r,
        fst (fst (apply_events Samples.member_value Samples.format_event_type
                    Samples.clock Samples.event_id_of "PLAN-1"
                    [Some (Samples.eta_slip ["J1"])] fresh_service))
        = inr r
        /\ map delay_event_id (diff_delays (diff r)) = ["EV-0"])
  /\ fst (fst (apply_events Samples.member_value Samples.format_event_type
                 Samples.clock Samples.event_id_of "PLAN-1"
                 [Some (Samples.eta_slip ["J1"]); Some (Samples.eta_slip [])]
                 fresh_service))
     = inl (EventProcessingError
              "Failed to apply events: Event EV-1 has empty scope"
              (Some "batch_processing") None).
Proof.
  split; [eexists; split; vm_compute; reflexivity |].
  split; [vm_compute; reflexivity |].
  split; [eexists; split; vm_compute; reflexivity |].
  vm_compute; reflexivity.
Qed.

End EventProcessing.

(** * Further properties of the code *)

(** ** Business rules of the scheduling service *)

#[local] Set Warnings "-clear-no-such-hyp".

Section CycleSoundness.
Import SchedulingService.
Variable deps : list (string * list string).






End CycleSoundness.


Section BusinessRules.
Import SchedulingService.

Lemma dict_get_set_cases {V : Type} (d : list (string * V)) k k' v :
  Py.dict_get (Py.dict_set d k v) k'
  = if decide (k = k') then Some v else Py.dict_get d k'.
Proof.
  destruct (decide (k = k')) as [-> | Hne].
  - apply dict_get_set_eq.
  - apply dict_get_set_ne. exact Hne.
Qed.



End BusinessRules.


Section Responses.
Import SchedulingService.
Variable _execute_scheduling :
  list Job -> list Resource -> list PreparationTask ->
  Exn + (ScheduleModel.Schedule * Q).



End Responses.

(** ** Solver driver *)

Section SolverDriver.
Import CpModel CPSATSolver SolverResults.

Lemma flat_map_nil_iff {A B : Type} (f : A -> list B) (l : list A) :
  flat_map f l = [] <-> forall x, x ∈ l -> f x = [].
Proof.
  induction l as [| a l IH]; simpl.
  - split; [intros _ x Hx; inversion Hx | reflexivity].
  - split.
    + intros H. apply app_eq_nil in H as [Ha Hl].
      intros x Hx. apply elem_of_cons in Hx as [-> | Hx]; [exact Ha |].
      apply IH; assumption.
    + intros H. rewrite (H a) by left. simpl. apply IH.
      intros x Hx. apply H. right. exact Hx.
Qed.

(** X4: [validate_input] reports no error exactly when the solver is
    initialised, there is a job or a preparation task, there is a
    resource, and every predecessor of a job and every dependency of a
    preparation task is the id of a job or of a preparation task. *)
Theorem validate_input_accepts (s : CPSATSolver.t) :
  validate_input s = []
  <-> _is_initialized s = true
      /\ (jobs s <> [] \/ preparation_tasks s <> [])
      /\ resources s <> []
      /\ (forall job pred_id,
            job ∈ jobs s -> pred_id ∈ predecessor_jobs job ->
            pred_id ∈ known_task_ids s)
      /\ (forall task dep_id,
            task ∈ preparation_tasks s -> dep_id ∈ dependencies task ->
            dep_id ∈ known_task_ids s).
Proof.
  unfold validate_input, known_task_ids.
  set (ids := map job_id (jobs s) ++ map prep_id (preparation_tasks s)).
  rewrite !app_nil. rewrite !flat_map_nil_iff.
  split.
  - intros (Hi & He & Hr & Hj & Hp).
    split; [destruct (_is_initialized s); [reflexivity | discriminate] |].
    split.
    { destruct (jobs s); [| left; discriminate].
      destruct (preparation_tasks s); [discriminate | right; discriminate]. }
    split; [destruct (resources s); [discriminate | discriminate] |].
    split.
    + intros job pred_id Hjob Hpred. specialize (Hj job Hjob).
      rewrite flat_map_nil_iff in Hj. specialize (Hj pred_id Hpred).
      unfold Py.str_in in Hj.
      destruct (bool_decide (pred_id ∈ ids)) eqn:E; [| discriminate].
      apply bool_decide_eq_true in E. exact E.
    + intros task dep_id Htask Hdep. specialize (Hp task Htask).
      rewrite flat_map_nil_iff in Hp. specialize (Hp dep_id Hdep).
      unfold Py.str_in in Hp.
      destruct (bool_decide (dep_id ∈ ids)) eqn:E; [| discriminate].
      apply bool_decide_eq_true in E. exact E.
  - intros (Hi & He & Hr & Hj & Hp).
    split; [rewrite Hi; reflexivity |].
    split.
    { destruct (jobs s); [| reflexivity].
      destruct (preparation_tasks s); [| reflexivity].
      destruct He as [He | He]; congruence. }
    split; [destruct (resources s); [congruence | reflexivity] |].
    split.
    + intros job Hjob. apply flat_map_nil_iff. intros pred_id Hpred.
      unfold Py.str_in. rewrite bool_decide_eq_true_2; [reflexivity |].
      eapply Hj; eassumption.
    + intros task Htask. apply flat_map_nil_iff. intros dep_id Hdep.
      unfold Py.str_in. rewrite bool_decide_eq_true_2; [reflexivity |].
      eapply Hp; eassumption.
Qed.

Variable now : Z.
Variable cp_solver_Solve : CpModel.t -> option LinearExpr -> CpStatus * (nat -> Z).
Variable _build_cost_objective _build_waiting_objective
         _build_switches_objective _build_delays_objective :
  CPSATSolver.t -> CpModel.t -> option LinearExpr * CpModel.t.

Abbreviation solve_body' :=
  (solve_body now cp_solver_Solve _build_cost_objective
              _build_waiting_objective _build_switches_objective
              _build_delays_objective).
Abbreviation solve' :=
  (solve now cp_solver_Solve _build_cost_objective _build_waiting_objective
         _build_switches_objective _build_delays_objective).

Lemma build_constraints_keeps s s1 :
  _build_constraints now s = inr s1 ->
  solve_calls s1 = solve_calls s /\ last_result s1 = last_result s
  /\ _is_initialized s1 = _is_initialized s.
Proof.
  unfold _build_constraints.
  destruct (ConstraintBuilder.build_constraints _ _ _ _ _ _); simpl;
    [discriminate |].
  intros [= <-]. repeat split.
Qed.

Lemma build_objective_keeps s s2 :
  _build_objective _build_cost_objective _build_waiting_objective
                   _build_switches_objective _build_delays_objective s
  = inr s2 ->
  solve_calls s2 = solve_calls s /\ last_result s2 = last_result s
  /\ is_Some (objective s2).
Proof.
  unfold _build_objective.
  destruct (ObjectiveBuilder.build_objective _ _ _ _ _ _ _ _) as [r m].
  destruct r as [e | expr]; simpl; [discriminate |].
  intros [= <-]. simpl. repeat split. eauto.
Qed.

Lemma solve_body_failure s e s' :
  solve_body' s = (inl e, s') ->
  solve_calls s' = solve_calls s /\ last_result s' = last_result s.
Proof.
  unfold solve_body.
  destruct (validate_input s); [| intros [= <- <-]; split; reflexivity].
  destruct (_build_constraints now s) as [e1 | s1] eqn:E1;
    [intros [= <- <-]; split; reflexivity |].
  apply build_constraints_keeps in E1 as (Hc1 & Hl1 & _).
  destruct (_build_objective _ _ _ _ s1) as [e2 | s2] eqn:E2;
    [intros [= <- <-]; split; assumption |].
  destruct (cp_solver_Solve _ _) as [cp_status value].
  discriminate.
Qed.

Lemma solve_body_success s r s' :
  solve_body' s = (inr r, s') ->
  validate_input s = []
  /\ solve_calls s' = S (solve_calls s) /\ last_result s' = Some r
  /\ error_message r = None
  /\ status r <> ABNORMAL /\ status r <> UNBOUNDED
  /\ (is_successful r = true <-> is_Some (objective_value r)).
Proof.
  unfold solve_body.
  destruct (validate_input s); [| discriminate].
  destruct (_build_constraints now s) as [e1 | s1] eqn:E1; [discriminate |].
  apply build_constraints_keeps in E1 as (Hc1 & Hl1 & _).
  destruct (_build_objective _ _ _ _ s1) as [e2 | s2] eqn:E2; [discriminate |].
  apply build_objective_keeps in E2 as (Hc2 & Hl2 & [obj Hobj]).
  destruct (cp_solver_Solve _ _) as [cp_status value].
  intros [= <- <-]. simpl. rewrite Hobj.
  split; [reflexivity |]. split; [congruence |]. split; [reflexivity |].
  split; [reflexivity |].
  unfold is_successful. simpl.
  destruct cp_status; simpl; repeat split; try discriminate;
    try (intros [? ?]; discriminate); eauto.
Qed.

(** X5: whatever goes wrong in [solve], the caller sees a [SolverError]:
    for a solver that is not initialised the solver is left as it was;
    otherwise the message is [Solve failed: ] followed by the message of
    the cause, and the same message is recorded in a last result of
    status [ABNORMAL].  The search has not run. *)
Theorem solve_failure_is_solver_error (s : CPSATSolver.t) (e : Exn)
  (s' : CPSATSolver.t) :
  solve' s = (inl e, s') ->
  solve_calls s' = solve_calls s
  /\ ((_is_initialized s = false /\ e = SolverError "Solver not initialized"
       /\ s' = s)
      \/ (_is_initialized s = true
          /\ exists cause,
               e = SolverError ("Solve failed: " ++ exn_message cause)
               /\ last_result s'
                  = Some {| status := ABNORMAL; objective_value := None;
                            solution := None;
                            error_message :=
                              Some ("Solve failed: " ++ exn_message cause)%string
                         |})).
Proof.
  unfold solve. destruct (_is_initialized s); simpl.
  2:{ intros [= <- <-]. split; [reflexivity |]. left. repeat split. }
  destruct (solve_body _ _ _ _ _ _ s) as [[cause | r] s1] eqn:E;
    [| discriminate].
  apply solve_body_failure in E as [Hc _].
  intros [= <- <-]. simpl. split; [exact Hc |]. right.
  split; [reflexivity |]. exists cause. split; reflexivity.
Qed.

(** X6: when [solve] returns a result, the input was valid, the search
    ran exactly once, the result is recorded as the last result, it has
    no error message, its status is never [ABNORMAL] or [UNBOUNDED], and
    it carries an objective value exactly when [is_successful] holds. *)
Theorem solve_success_runs_search_once (s : CPSATSolver.t) (r : SolverResult)
  (s' : CPSATSolver.t) :
  solve' s = (inr r, s') ->
  _is_initialized s = true /\ validate_input s = []
  /\ solve_calls s' = S (solve_calls s) /\ last_result s' = Some r
  /\ error_message r = None
  /\ status r <> ABNORMAL /\ status r <> UNBOUNDED
  /\ (is_successful r = true <-> is_Some (objective_value r)).
Proof.
  unfold solve. destruct (_is_initialized s); simpl; [| discriminate].
  destruct (solve_body _ _ _ _ _ _ s) as [[cause | r1] s1] eqn:E;
    [discriminate |].
  intros [= <- <-].
  apply solve_body_success in E as (Hv & Hc & Hl & He & Ha & Hu & Hs).
  repeat split; try assumption; apply Hs.
Qed.

End SolverDriver.

Lemma solve_failure_is_solver_error_witness :
  let outcome :=
    CPSATSolver.solve 0 Samples.search_optimal Samples.no_solver_term
      Samples.no_solver_term Samples.no_solver_term Samples.no_solver_term
      (Samples.solver [] []) in
  fst outcome
  = inl (SolverError
           ("Solve failed: Input validation failed: "
            ++ "No jobs or preparation tasks provided; No resources provided"))
  /\ CPSATSolver.solve_calls (snd outcome) = 0%nat.
Proof.
  intros outcome.
  assert (Hfst : fst outcome
                 = inl (SolverError
                          ("Solve failed: Input validation failed: "
                           ++ "No jobs or preparation tasks provided; "
                           ++ "No resources provided")))
    by (vm_compute; reflexivity).
  split; [exact Hfst |].
  pose proof (surjective_pairing outcome) as Hpair. rewrite Hfst in Hpair.
  exact (proj1 (solve_failure_is_solver_error 0 Samples.search_optimal
                  Samples.no_solver_term Samples.no_solver_term
                  Samples.no_solver_term Samples.no_solver_term
                  (Samples.solver [] []) _ (snd outcome) Hpair)).
Defined.

Lemma solve_success_runs_search_once_witness :
  let outcome :=
    CPSATSolver.solve 0 Samples.search_optimal Samples.no_solver_term
      Samples.no_solver_term Samples.no_solver_term Samples.no_solver_term
      (Samples.solver [Samples.job "J1" [] [] [] None] [Samples.human "H1" []])
  in
  (exists r, fst outcome = inr r
             /\ CPSATSolver.status r = CPSATSolver.OPTIMAL)
  /\ CPSATSolver.solve_calls (snd outcome) = 1%nat.
Proof.
  intros outcome.
  assert (Hfst : exists r, fst outcome = inr r
                           /\ CPSATSolver.status r = CPSATSolver.OPTIMAL)
    by (eexists; split; [vm_compute; reflexivity | reflexivity]).
  split; [exact Hfst |].
  destruct Hfst as (r & Hfst & _).
  pose proof (surjective_pairing outcome) as Hpair. rewrite Hfst in Hpair.
  destruct (solve_success_runs_search_once 0 Samples.search_optimal
              Samples.no_solver_term Samples.no_solver_term
              Samples.no_solver_term Samples.no_solver_term
              (Samples.solver [Samples.job "J1" [] [] [] None]
                              [Samples.human "H1" []])
              r (snd outcome) Hpair)
    as (_ & _ & Hc & _).
  exact Hc.
Defined.

(** ** Solutions of the emitted constraint model *)

Section ModelGrowth.
Import CpModel ConstraintBuilder.

Lemma model_extends_refl (m : CpModel.t) : model_extends m m.
Proof. repeat split; reflexivity. Qed.

Lemma model_extends_trans (m1 m2 m3 : CpModel.t) :
  model_extends m1 m2 -> model_extends m2 m3 -> model_extends m1 m3.
Proof.
  intros (? & ? & ?) (? & ? & ?). repeat split; etransitivity; eassumption.
Qed.

Lemma grows_refl b : grows b b.
Proof. split; [apply same_tasks_refl | apply model_extends_refl]. Qed.

Lemma grows_trans b1 b2 b3 : grows b1 b2 -> grows b2 b3 -> grows b1 b3.
Proof.
  intros [? ?] [? ?].
  split; [eapply same_tasks_trans | eapply model_extends_trans]; eassumption.
Qed.

Lemma adds_constraints_refl b : adds_constraints b b.
Proof. split; [apply grows_refl | reflexivity]. Qed.

Lemma adds_constraints_trans b1 b2 b3 :
  adds_constraints b1 b2 -> adds_constraints b2 b3 -> adds_constraints b1 b3.
Proof.
  intros [? ?] [? ?]. split; [eapply grows_trans; eassumption | congruence].
Qed.

Lemma forallb_prefix {A : Type} (p : A -> bool) (l l' : list A) :
  l `prefix_of` l' -> forallb p l' = true -> forallb p l = true.
Proof.
  intros [k ->]. rewrite forallb_app. intros H.
  apply andb_true_iff in H as [H _]. exact H.
Qed.

Lemma solves_extends rho (m m' : CpModel.t) :
  model_extends m m' -> solves rho m' = true -> solves rho m = true.
Proof.
  intros (Hv & Hi & Hc). unfold solves. rewrite !andb_true_iff.
  intros [[H1 H2] H3].
  repeat split; eapply forallb_prefix; eassumption.
Qed.

Lemma solves_constraint rho (m : CpModel.t) c :
  c ∈ CpModel.constraints m -> solves rho m = true -> holds rho c = true.
Proof.
  intros Hc. unfold solves. rewrite !andb_true_iff. intros [_ H].
  rewrite forallb_forall in H. apply H. apply list_elem_of_In. exact Hc.
Qed.

Lemma solves_interval rho (m : CpModel.t) i :
  i ∈ CpModel.intervals m -> solves rho m = true -> interval_consistent rho i = true.
Proof.
  intros Hi. unfold solves. rewrite !andb_true_iff. intros [[_ H] _].
  rewrite forallb_forall in H. apply H. apply list_elem_of_In. exact Hi.
Qed.

Lemma solves_variable rho (m : CpModel.t) v :
  v ∈ CpModel.variables m -> solves rho m = true ->
  (var_lb v <= rho (var_index v) <= var_ub v)%Z.
Proof.
  intros Hv. unfold solves. rewrite !andb_true_iff. intros [[H _] _].
  rewrite forallb_forall in H. specialize (H v).
  unfold in_domain in H. rewrite andb_true_iff in H.
  destruct H as [H1 H2]; [apply list_elem_of_In; exact Hv |]. lia.
Qed.

Lemma elem_of_prefix {A : Type} (l l' : list A) x :
  l `prefix_of` l' -> x ∈ l -> x ∈ l'.
Proof. intros [k ->] Hx. apply elem_of_app. left. exact Hx. Qed.

Lemma add_named_adds name c b :
  adds_constraints b (add_named name c b)
  /\ c ∈ CpModel.constraints (model (add_named name c b)).
Proof.
  unfold add_named. simpl. split; [split; [split |] |].
  - repeat split.
  - simpl. repeat split; try reflexivity. exists [c]. reflexivity.
  - reflexivity.
  - apply elem_of_app. right. left.
Qed.

(** A loop reaches [Q] at the element [x] and keeps it afterwards, under
    an invariant [P]. *)
Lemma fold_left_reaches {A B : Type} (f : B -> A -> B) (P Q : B -> Prop)
  (l : list A) (x : A) (b : B) :
  x ∈ l -> P b ->
  (forall b a, P b -> P (f b a)) ->
  (forall b, P b -> Q (f b x)) ->
  (forall b a, P b -> Q b -> Q (f b a)) ->
  Q (fold_left f l b).
Proof.
  intros Hx Hb HP Hreach Hkeep. revert b Hb.
  induction l as [| a l IH]; intros b Hb; [inversion Hx |].
  simpl. apply elem_of_cons in Hx as [<- | Hx].
  - assert (forall l' b', P b' -> Q b' -> Q (fold_left f l' b')) as Hrest.
    { induction l' as [| a' l' IH']; intros b' HP' HQ'; simpl; [exact HQ' |].
      apply IH'; [apply HP; exact HP' | apply Hkeep; assumption]. }
    apply Hrest; [apply HP; exact Hb | apply Hreach; exact Hb].
  - apply IH; [exact Hx | apply HP; exact Hb].
Qed.

Lemma foldE_reaches {A B : Type} (f : B -> A -> Exn + B) (P Q : B -> Prop)
  (l : list A) (x : A) (b r : B) :
  x ∈ l -> P b -> foldE f l b = inr r ->
  (forall b a b', P b -> f b a = inr b' -> P b') ->
  (forall b b', P b -> f b x = inr b' -> Q b') ->
  (forall b a b', P b -> Q b -> f b a = inr b' -> Q b') ->
  Q r.
Proof.
  intros Hx Hb Hr HP Hreach Hkeep. revert b Hb Hr.
  induction l as [| a l IH]; intros b Hb Hr; [inversion Hx |].
  simpl in Hr. destruct (f b a) as [e | b1] eqn:E; [discriminate |].
  simpl in Hr. apply elem_of_cons in Hx as [<- | Hx].
  - assert (forall l' b', P b' -> Q b' -> foldE f l' b' = inr r -> Q r)
      as Hrest.
    { induction l' as [| a' l' IH']; intros b' HP' HQ' Hr'; simpl in Hr'.
      - injection Hr' as <-. exact HQ'.
      - destruct (f b' a') as [e | b2] eqn:E'; [discriminate |].
        simpl in Hr'. eapply IH'; [| | exact Hr'].
        + eapply HP; eassumption.
        + eapply Hkeep; eassumption. }
    eapply Hrest; [| | exact Hr].
    + eapply HP; eassumption.
    + eapply Hreach; eassumption.
  - eapply IH; [exact Hx | | exact Hr]. eapply HP; eassumption.
Qed.

(** *** The stages of [build_constraints] *)

Lemma add_precedence_adds succ b pred :
  adds_constraints b (add_precedence succ b pred).
Proof.
  unfold add_precedence.
  destruct (Py.dict_get (task_ends b) pred),
           (Py.dict_get (task_starts b) succ);
    try apply adds_constraints_refl.
  apply add_named_adds.
Qed.

Lemma precedence_loop_adds succ preds b :
  adds_constraints b (fold_left (add_precedence succ) preds b).
Proof.
  apply (fold_left_inv (adds_constraints b)); [apply adds_constraints_refl |].
  intros b0 p Hb0. eapply adds_constraints_trans; [exact Hb0 |].
  apply add_precedence_adds.
Qed.

Lemma precedence_adds jobs preps b :
  adds_constraints b (_build_precedence_constraints jobs preps b).
Proof.
  unfold _build_precedence_constraints.
  apply (fold_left_inv (adds_constraints b)).
  - apply (fold_left_inv (adds_constraints b)); [apply adds_constraints_refl |].
    intros b0 j Hb0. eapply adds_constraints_trans; [exact Hb0 |].
    apply precedence_loop_adds.
  - intros b0 t Hb0. eapply adds_constraints_trans; [exact Hb0 |].
    apply precedence_loop_adds.
Qed.

Lemma constraint_kept b b' c :
  grows b b' -> c ∈ CpModel.constraints (model b) -> c ∈ CpModel.constraints (model b').
Proof. intros [_ (_ & _ & H)]. apply elem_of_prefix. exact H. Qed.

Lemma precedence_loop_added succ preds pred b0 b e s :
  adds_constraints b0 b ->
  pred ∈ preds ->
  Py.dict_get (task_ends b0) pred = Some e ->
  Py.dict_get (task_starts b0) succ = Some s ->
  CLe (LVar e) (LVar s)
    ∈ CpModel.constraints (model (fold_left (add_precedence succ) preds b)).
Proof.
  intros Hb Hpred He Hs.
  apply (fold_left_reaches (add_precedence succ) (adds_constraints b0)
           (fun b => CLe (LVar e) (LVar s) ∈ CpModel.constraints (model b))
           preds pred b Hpred Hb).
  - intros b1 a Hb1. eapply adds_constraints_trans; [exact Hb1 |].
    apply add_precedence_adds.
  - intros b1 [[(_ & Hst & _ & Hen) _] _]. unfold add_precedence.
    rewrite Hen, Hst, He, Hs. apply add_named_adds.
  - intros b1 a _ Hin.
    eapply constraint_kept; [apply add_precedence_adds | exact Hin].
Qed.

Lemma precedence_added jobs preps b succ pred e s :
  depends_on jobs preps succ pred ->
  Py.dict_get (task_ends b) pred = Some e ->
  Py.dict_get (task_starts b) succ = Some s ->
  CLe (LVar e) (LVar s)
    ∈ CpModel.constraints (model (_build_precedence_constraints jobs preps b)).
Proof.
  intros Hdep He Hs. unfold _build_precedence_constraints.
  set (fj := fun b job =>
               fold_left (add_precedence (job_id job)) (predecessor_jobs job) b).
  set (ft := fun b task =>
               fold_left (add_precedence (prep_id task)) (dependencies task) b).
  assert (Hj : forall b1, adds_constraints b b1 ->
                          adds_constraints b (fold_left fj jobs b1)).
  { intros b1 Hb1. apply (fold_left_inv (adds_constraints b)); [exact Hb1 |].
    intros b2 j Hb2. eapply adds_constraints_trans; [exact Hb2 |].
    apply precedence_loop_adds. }
  destruct Hdep as [(job & Hjob & <- & Hpred) | (task & Htask & <- & Hpred)].
  - apply (fold_left_inv
             (fun b1 => adds_constraints b b1
                        /\ CLe (LVar e) (LVar s) ∈ CpModel.constraints (model b1))).
    + split; [apply Hj; apply adds_constraints_refl |].
      apply (fold_left_reaches fj (adds_constraints b)
               (fun b1 => CLe (LVar e) (LVar s) ∈ CpModel.constraints (model b1))
               jobs job b Hjob (adds_constraints_refl b)).
      * intros b1 a Hb1. eapply adds_constraints_trans; [exact Hb1 |].
        apply precedence_loop_adds.
      * intros b1 Hb1. unfold fj.
        eapply precedence_loop_added; eassumption.
      * intros b1 a _ Hin.
        eapply constraint_kept; [apply precedence_loop_adds | exact Hin].
    + intros b1 t [Hb1 Hin]. split.
      * eapply adds_constraints_trans; [exact Hb1 |].
        apply precedence_loop_adds.
      * eapply constraint_kept; [apply precedence_loop_adds | exact Hin].
  - apply (fold_left_reaches ft (adds_constraints b)
             (fun b1 => CLe (LVar e) (LVar s) ∈ CpModel.constraints (model b1))
             preps task _ Htask (Hj b (adds_constraints_refl b))).
    + intros b1 a Hb1. eapply adds_constraints_trans; [exact Hb1 |].
      apply precedence_loop_adds.
    + intros b1 Hb1. unfold ft.
      eapply precedence_loop_added; eassumption.
    + intros b1 a _ Hin.
      eapply constraint_kept; [apply precedence_loop_adds | exact Hin].
Qed.

End ModelGrowth.

Section Stages.
Import CpModel ConstraintBuilder.

Lemma model_extends_new_var lb ub name (m : CpModel.t) :
  model_extends m (snd (NewIntVar lb ub name m))
  /\ fst (NewIntVar lb ub name m) ∈ CpModel.variables (snd (NewIntVar lb ub name m)).
Proof.
  unfold NewIntVar. simpl. split.
  - repeat split; try reflexivity. eexists. reflexivity.
  - apply elem_of_app. right. left.
Qed.

Lemma variable_kept (m m' : CpModel.t) v :
  model_extends m m' -> v ∈ CpModel.variables m -> v ∈ CpModel.variables m'.
Proof. intros (H & _ & _). apply elem_of_prefix. exact H. Qed.

Lemma interval_kept (m m' : CpModel.t) i :
  model_extends m m' -> i ∈ CpModel.intervals m -> i ∈ CpModel.intervals m'.
Proof. intros (_ & H & _). apply elem_of_prefix. exact H. Qed.

Lemma tasks_linked_grows H b b' :
  grows b b' -> tasks_linked H b -> tasks_linked H b'.
Proof.
  intros [(Hi & Hs & Hd & He) Hm] Hb tid s d e. rewrite Hs, Hd, He.
  intros H1 H2 H3.
  destruct (Hb tid s d e H1 H2 H3)
    as (Hvs & Hvd & Hve & ? & ? & ? & ? & name & Hitv).
  repeat split; try assumption; try (eapply variable_kept; eassumption).
  exists name. eapply interval_kept; eassumption.
Qed.

Lemma create_task_linked H id dv m1 b :
  tasks_linked H b -> model_extends (model b) m1 ->
  dv ∈ CpModel.variables m1 ->
  tasks_linked H (create_task H id dv m1 b)
  /\ model_extends (model b) (model (create_task H id dv m1 b)).
Proof.
  intros Hb Hm Hdv. unfold create_task. simpl.
  set (s := {| var_index := length (CpModel.variables m1); var_lb := 0;
               var_ub := H * 60; var_name := "start_" ++ id |}).
  set (e := {| var_index := length (CpModel.variables m1 ++ [s]); var_lb := 0;
               var_ub := H * 60; var_name := "end_" ++ id |}).
  set (i := {| itv_start := s; itv_size := dv; itv_end := e;
               itv_presence := None; itv_name := "interval_" ++ id |}).
  set (m4 := {| CpModel.variables := (CpModel.variables m1 ++ [s]) ++ [e];
                CpModel.intervals := CpModel.intervals m1 ++ [i];
                CpModel.constraints := CpModel.constraints m1 |}).
  assert (Hm4 : model_extends m1 m4).
  { repeat split; simpl.
    - exists [s; e]. rewrite <- app_assoc. reflexivity.
    - exists [i]. reflexivity.
    - reflexivity. }
  split; [| eapply model_extends_trans; eassumption].
  intros tid s' d' e'. simpl.
  destruct (decide (id = tid)) as [<- | Hne].
  - rewrite !dict_get_set_eq. intros [= <-] [= <-] [= <-].
    split; [apply elem_of_app; left; apply elem_of_app; right; left |].
    split; [exact (variable_kept m1 m4 dv Hm4 Hdv) |].
    split; [apply elem_of_app; right; left |].
    repeat split. exists ("interval_" ++ id)%string.
    apply elem_of_app. right. left.
  - rewrite !dict_get_set_ne by assumption. intros H1 H2 H3.
    destruct (Hb tid s' d' e' H1 H2 H3)
      as (Hvs & Hvd & Hve & ? & ? & ? & ? & name & Hitv).
    assert (Hm' : model_extends (model b) m4)
      by (eapply model_extends_trans; eassumption).
    repeat split; try assumption;
      try (apply (variable_kept (model b) m4); assumption).
    exists name. apply (interval_kept (model b) m4); assumption.
Qed.

Lemma create_task_variables_linked jobs preps config b :
  let H := default 168%Z (time_horizon_hours config) in
  tasks_linked H b ->
  tasks_linked H (_create_task_variables jobs preps config b)
  /\ model_extends (model b)
                   (model (_create_task_variables jobs preps config b)).
Proof.
  intros H Hb. unfold _create_task_variables. fold H.
  set (P := fun b' => tasks_linked H b' /\ model_extends (model b) (model b')).
  change (P (fold_left (create_prep_variables H) preps
                       (fold_left (create_job_variables H) jobs b))).
  apply fold_left_inv; [apply fold_left_inv |].
  - split; [exact Hb | apply model_extends_refl].
  - intros b0 job [Hl Hm]. unfold create_job_variables.
    destruct (job_duration_var job (model b0)) as [dv m1] eqn:E.
    assert (Hdv : model_extends (model b0) m1 /\ dv ∈ CpModel.variables m1).
    { unfold job_duration_var, NewConstant in E.
      destruct (Py.truthy_float (fixed_duration job));
        match type of E with
        | NewIntVar ?lb ?ub ?n ?m = _ =>
            pose proof (model_extends_new_var lb ub n m) as Hn;
            rewrite E in Hn; exact Hn
        end. }
    destruct Hdv as [Hm1 Hdv].
    destruct (create_task_linked H (job_id job) dv m1 b0 Hl Hm1 Hdv)
      as [Hl' Hm'].
    split; [exact Hl' | eapply model_extends_trans; eassumption].
  - intros b0 task [Hl Hm]. unfold create_prep_variables.
    match goal with
    | |- context [NewConstant ?c (model b0)] =>
        destruct (NewConstant c (model b0)) as [dv m1] eqn:E;
        pose proof (model_extends_new_var c c EmptyString (model b0)) as Hn
    end.
    unfold NewConstant in E. rewrite E in Hn. destruct Hn as [Hm1 Hdv].
    destruct (create_task_linked H (prep_id task) dv m1 b0 Hl Hm1 Hdv)
      as [Hl' Hm'].
    split; [exact Hl' | eapply model_extends_trans; eassumption].
Qed.

Lemma tasks_linked_init H (m : CpModel.t) : tasks_linked H (init m).
Proof. intros tid s d e H1. discriminate. Qed.

(** *** Resources *)

Lemma assign_task_grows rid acc task_id b :
  grows b (snd acc) -> grows b (snd (assign_task rid acc task_id)).
Proof.
  destruct acc as [ts b0]. simpl. intros [Hs Hm]. split; [exact Hs |].
  eapply model_extends_trans; [exact Hm |]. simpl.
  repeat split; try reflexivity. eexists. reflexivity.
Qed.

Lemma exclusive_grows rid tasks b b' :
  _build_exclusive_resource_constraint rid tasks b = inr b' ->
  adds_constraints b b'.
Proof.
  unfold _build_exclusive_resource_constraint.
  destruct (bool_decide _); [intros [= <-]; apply adds_constraints_refl |].
  match goal with
  | |- context [foldE ?f tasks ([], b)] =>
      destruct (foldE f tasks ([], b)) as [e | [ivs b1]] eqn:E;
      [discriminate |];
      pose proof (foldE_inv
                    (fun acc : list IntervalVar * ConstraintBuilder.t =>
                       adds_constraints b (snd acc))
                    f tasks ([], b) (ivs, b1)) as Hinv
  end.
  simpl in Hinv. specialize (Hinv (adds_constraints_refl b)).
  assert (Hb1 : adds_constraints b b1).
  { apply Hinv; [| exact E]. clear Hinv E.
    intros [ivs0 b0] tid [ivs' b0'] _ Hb0. simpl in Hb0.
    destruct (Py.dict_get (resource_assignments b0) rid) as [inner |];
      [| intros [= <- <-]; exact Hb0].
    destruct (Py.dict_get inner tid) as [av |];
      [| intros [= <- <-]; exact Hb0].
    destruct (Py.dict_get (task_intervals b0) tid) as [iv |];
      [| intros [= <- <-]; exact Hb0].
    unfold index.
    destruct (Py.dict_get (task_starts b0) tid); simpl; [| discriminate].
    destruct (Py.dict_get (task_durations b0) tid); simpl; [| discriminate].
    destruct (Py.dict_get (task_ends b0) tid); simpl; [| discriminate].
    intros [= <- <-]. simpl.
    eapply adds_constraints_trans; [exact Hb0 |].
    split; [split |]; [repeat split | | reflexivity].
    simpl. repeat split; try reflexivity. eexists. reflexivity. }
  simpl. destruct ivs as [| i ivs]; intros [= <-]; [exact Hb1 |].
  eapply adds_constraints_trans; [exact Hb1 |].
  split; [split |]; [repeat split | | reflexivity].
  simpl. repeat split; try reflexivity. eexists. reflexivity.
Qed.

Lemma build_one_resource_grows jobs preps b resource b' :
  build_one_resource jobs preps b resource = inr b' -> grows b b'.
Proof.
  unfold build_one_resource.
  set (rid := resource_id (resource_base resource)).
  set (b0 := set_resource_assignments _ b).
  set (acc1 := if is_human resource then _ else _).
  assert (H0 : grows b b0) by (split; [repeat split | apply model_extends_refl]).
  assert (H1 : grows b (snd acc1)).
  { unfold acc1. destruct (is_human resource).
    - apply (fold_left_inv (fun acc => grows b (snd acc))); [exact H0 |].
      intros acc j Hacc. apply assign_task_grows. exact Hacc.
    - apply (fold_left_inv (fun acc => grows b (snd acc))); [exact H0 |].
      intros acc j Hacc.
      destruct (has_resource_requirement j rid); [| exact Hacc].
      apply assign_task_grows. exact Hacc. }
  match goal with
  | |- context [fold_left ?f preps acc1] => set (acc2 := fold_left f preps acc1)
  end.
  assert (H2 : grows b (snd acc2)).
  { unfold acc2.
    apply (fold_left_inv (fun acc => grows b (snd acc))); [exact H1 |].
    intros acc p Hacc.
    apply (fold_left_inv (fun acc => grows b (snd acc))); [exact Hacc |].
    intros acc' a Hacc'. destruct (bool_decide _); [| exact Hacc'].
    apply assign_task_grows. exact Hacc'. }
  destruct acc2 as [tasks b2]. simpl in H2.
  assert (Hex : forall r,
             _build_exclusive_resource_constraint r tasks b2 = inr b' ->
             grows b b').
  { intros r Hr. apply exclusive_grows in Hr as [Hg _].
    eapply grows_trans; eassumption. }
  destruct (is_exclusive_physical resource); [apply Hex |].
  unfold _build_cumulative_resource_constraint.
  destruct (bool_decide _); [apply Hex |].
  intros [= <-]. exact H2.
Qed.

Lemma resource_constraints_grow jobs preps resources b b' :
  _build_resource_constraints jobs preps resources b = inr b' -> grows b b'.
Proof.
  unfold _build_resource_constraints.
  apply (foldE_inv (grows b)); [apply grows_refl |].
  intros b0 r b1 _ Hb0 Hr. eapply grows_trans; [exact Hb0 |].
  eapply build_one_resource_grows. exact Hr.
Qed.

(** *** Time windows *)

Lemma window_start_ge_adds now config tid earliest b :
  adds_constraints b (window_start_ge now config tid earliest b).
Proof.
  unfold window_start_ge.
  destruct earliest; [| apply adds_constraints_refl].
  destruct (Py.dict_get (task_starts b) tid); [| apply adds_constraints_refl].
  apply add_named_adds.
Qed.

Lemma window_end_le_adds now config tid latest b :
  adds_constraints b (window_end_le now config tid latest b).
Proof.
  unfold window_end_le.
  destruct latest; [| apply adds_constraints_refl].
  destruct (Py.dict_get (task_ends b) tid); [| apply adds_constraints_refl].
  apply add_named_adds.
Qed.

Lemma window_start_eq_adds now config tid fixed b :
  adds_constraints b (window_start_eq now config tid fixed b).
Proof.
  unfold window_start_eq.
  destruct fixed; [| apply adds_constraints_refl].
  destruct (Py.dict_get (task_starts b) tid); [| apply adds_constraints_refl].
  apply add_named_adds.
Qed.

Lemma job_window_adds now config job b :
  adds_constraints b
    (window_start_eq now config (job_id job) (fixed_start job)
       (window_end_le now config (job_id job) (job_latest_finish job)
          (window_start_ge now config (job_id job)
             (job_earliest_start job) b))).
Proof.
  eapply adds_constraints_trans; [apply window_start_ge_adds |].
  eapply adds_constraints_trans; [apply window_end_le_adds |].
  apply window_start_eq_adds.
Qed.

Lemma prep_window_adds now config task b :
  adds_constraints b
    (window_end_le now config (prep_id task) (prep_latest_finish task)
       (window_start_ge now config (prep_id task)
          (prep_earliest_start task) b)).
Proof.
  eapply adds_constraints_trans; [apply window_start_ge_adds |].
  apply window_end_le_adds.
Qed.

Lemma time_windows_add now jobs preps config b :
  adds_constraints b (_build_time_window_constraints now jobs preps config b).
Proof.
  unfold _build_time_window_constraints.
  apply (fold_left_inv (adds_constraints b)).
  - apply (fold_left_inv (adds_constraints b)); [apply adds_constraints_refl |].
    intros b0 j Hb0. eapply adds_constraints_trans; [exact Hb0 |].
    apply job_window_adds.
  - intros b0 t Hb0. eapply adds_constraints_trans; [exact Hb0 |].
    apply prep_window_adds.
Qed.

(** *** Qualifications and task execution *)

Lemma collaborative_adds job hrs jid b b' :
  _build_collaborative_qualification_constraint job hrs jid b = inr b' ->
  adds_constraints b b'.
Proof.
  unfold _build_collaborative_qualification_constraint.
  apply (foldE_inv (adds_constraints b)); [apply adds_constraints_refl |].
  intros b0 q b1 _ Hb0.
  destruct (assignment_vars _ hrs jid b0); [discriminate |].
  intros [= <-]. eapply adds_constraints_trans; [exact Hb0 |].
  apply add_named_adds.
Qed.

Lemma qualification_step_adds hrs b job b' :
  match required_qualifications job with
  | [] => inr b
  | _ :: _ =>
      _build_collaborative_qualification_constraint job hrs (job_id job) b
  end = inr b' ->
  adds_constraints b b'.
Proof.
  destruct (required_qualifications job) eqn:E.
  - intros [= <-]. apply adds_constraints_refl.
  - apply collaborative_adds.
Qed.

Lemma qualification_adds jobs resources b b' :
  _build_qualification_constraints jobs resources b = inr b' ->
  adds_constraints b b'.
Proof.
  unfold _build_qualification_constraints.
  apply (foldE_inv (adds_constraints b)); [apply adds_constraints_refl |].
  intros b0 job b1 _ Hb0 Hstep. eapply adds_constraints_trans; [exact Hb0 |].
  eapply qualification_step_adds. exact Hstep.
Qed.

Lemma execution_step_adds hrs b job :
  adds_constraints b
    (if Py.dict_mem (task_starts b) (job_id job) then
       match assignment_vars (fun _ => true) hrs (job_id job) b with
       | [] => b
       | v :: vs =>
           add_named ("task_execution_" ++ job_id job)
             (CGe (sum_exprs (map LVar (v :: vs))) (LConst 1)) b
       end
     else b).
Proof.
  destruct (Py.dict_mem _ _); [| apply adds_constraints_refl].
  destruct (assignment_vars _ _ _ _); [apply adds_constraints_refl |].
  apply add_named_adds.
Qed.

Lemma execution_adds jobs resources b :
  adds_constraints b (_build_task_execution_constraints jobs resources b).
Proof.
  unfold _build_task_execution_constraints.
  apply (fold_left_inv (adds_constraints b)); [apply adds_constraints_refl |].
  intros b0 job Hb0. eapply adds_constraints_trans; [exact Hb0 |].
  apply execution_step_adds.
Qed.

(** *** The whole build *)

Lemma build_constraints_stages now jobs resources preps config b b' :
  build_constraints now jobs resources preps config b = inr b' ->
  let b1 := _create_task_variables jobs preps config b in
  let b2 := _build_precedence_constraints jobs preps b1 in
  exists b3 b5,
    let b4 := _build_time_window_constraints now jobs preps config b3 in
    _build_resource_constraints jobs preps resources b2 = inr b3
    /\ _build_qualification_constraints jobs resources b4 = inr b5
    /\ b' = _build_task_execution_constraints jobs resources b5
    /\ adds_constraints b1 b2 /\ grows b2 b3 /\ adds_constraints b3 b4
    /\ adds_constraints b4 b5 /\ adds_constraints b5 b'.
Proof.
  intros H b1 b2. unfold build_constraints in H. fold b1 b2 in H.
  destruct (_build_resource_constraints jobs preps resources b2)
    as [e | b3] eqn:E3; [discriminate |].
  simpl in H.
  destruct (_build_qualification_constraints jobs resources _)
    as [e | b5] eqn:E5; [discriminate |].
  simpl in H. injection H as <-. unfold _build_gate_constraints.
  exists b3, b5. simpl.
  split; [reflexivity |]. split; [exact E5 |]. split; [reflexivity |].
  split; [apply precedence_adds |].
  split; [eapply resource_constraints_grow; exact E3 |].
  split; [apply time_windows_add |].
  split; [eapply qualification_adds; exact E5 |].
  apply execution_adds.
Qed.

End Stages.

Section Solutions.
Import CpModel ConstraintBuilder.

Lemma stages_same_tasks now jobs resources preps config b b' :
  build_constraints now jobs resources preps config b = inr b' ->
  grows (_build_precedence_constraints jobs preps
           (_create_task_variables jobs preps config b)) b'
  /\ same_tasks (_create_task_variables jobs preps config b) b'.
Proof.
  intros H.
  destruct (build_constraints_stages _ _ _ _ _ _ _ H)
    as (b3 & b5 & _ & _ & _ & [H12 _] & H23 & [H34 _] & [H45 _] & [H5 _]).
  assert (Hg : grows (_build_precedence_constraints jobs preps
                        (_create_task_variables jobs preps config b)) b').
  { eapply grows_trans; [exact H23 |]. eapply grows_trans; [exact H34 |].
    eapply grows_trans; [exact H45 | exact H5]. }
  split; [exact Hg |].
  eapply same_tasks_trans; [apply H12 | apply Hg].
Qed.

Lemma precedence_holds (now : Z) (jobs : list Job)
  (resources : list Resource) (preparation_tasks : list PreparationTask)
  (config : ConstraintConfig) (b b' : ConstraintBuilder.t)
  (succ pred : string) (e s : IntVar) (rho : nat -> Z) :
  build_constraints now jobs resources preparation_tasks config b = inr b' ->
  depends_on jobs preparation_tasks succ pred ->
  Py.dict_get (task_ends b') pred = Some e ->
  Py.dict_get (task_starts b') succ = Some s ->
  solves rho (model b') = true ->
  (rho (var_index e) <= rho (var_index s))%Z.
Proof.
  intros Hbuild Hdep He Hs Hsol.
  destruct (stages_same_tasks _ _ _ _ _ _ _ Hbuild)
    as (Hg & (_ & Hst & _ & Hen)).
  rewrite Hen in He. rewrite Hst in Hs.
  pose proof (precedence_added jobs preparation_tasks _ succ pred e s
                Hdep He Hs) as Hin.
  pose proof (solves_constraint rho _ _ (constraint_kept _ _ _ Hg Hin) Hsol)
    as Hh.
  simpl in Hh. lia.
Qed.

(** X7: when a task lists another among its predecessors or
    dependencies, every solution of the model that [build_constraints]
    emits ends the predecessor no later than the task starts. *)
Theorem precedence_in_solutions (now : Z) (jobs : list Job)
  (resources : list Resource) (preparation_tasks : list PreparationTask)
  (config : ConstraintConfig) (b b' : ConstraintBuilder.t)
  (succ pred : string) (e s : IntVar) (rho : nat -> Z) :
  build_constraints now jobs resources preparation_tasks config b = inr b' ->
  depends_on jobs preparation_tasks succ pred ->
  Py.dict_get (task_ends b') pred = Some e ->
  Py.dict_get (task_starts b') succ = Some s ->
  solves rho (model b') = true ->
  (rho (var_index e) <= rho (var_index s))%Z.
Proof.
  apply precedence_holds.
Qed.

(** *** Time windows *)

Lemma job_window_added now config job b0 b :
  adds_constraints b0 b ->
  let b' :=
    window_start_eq now config (job_id job) (fixed_start job)
      (window_end_le now config (job_id job) (job_latest_finish job)
         (window_start_ge now config (job_id job)
            (job_earliest_start job) b)) in
  (forall s dt,
     Py.dict_get (task_starts b0) (job_id job) = Some s ->
     job_earliest_start job = Some dt ->
     CGe (LVar s) (LConst (_datetime_to_minutes now config dt))
       ∈ CpModel.constraints (model b'))
  /\ (forall e dt,
        Py.dict_get (task_ends b0) (job_id job) = Some e ->
        job_latest_finish job = Some dt ->
        CLe (LVar e) (LConst (_datetime_to_minutes now config dt))
          ∈ CpModel.constraints (model b'))
  /\ (forall s dt,
        Py.dict_get (task_starts b0) (job_id job) = Some s ->
        fixed_start job = Some dt ->
        CEq (LVar s) (LConst (_datetime_to_minutes now config dt))
          ∈ CpModel.constraints (model b')).
Proof.
  intros Hb b'. subst b'.
  set (b1 := window_start_ge now config (job_id job) (job_earliest_start job) b).
  set (b2 := window_end_le now config (job_id job) (job_latest_finish job) b1).
  set (b3 := window_start_eq now config (job_id job) (fixed_start job) b2).
  assert (H1 : adds_constraints b b1) by apply window_start_ge_adds.
  assert (H2 : adds_constraints b1 b2) by apply window_end_le_adds.
  assert (H3 : adds_constraints b2 b3) by apply window_start_eq_adds.
  assert (H01 : adds_constraints b0 b1)
    by (eapply adds_constraints_trans; eassumption).
  assert (H02 : adds_constraints b0 b2)
    by (eapply adds_constraints_trans; eassumption).
  split; [| split].
  - intros s dt Hs Hdt.
    apply (constraint_kept b1 b3);
      [eapply grows_trans; [apply H2 | apply H3] |].
    unfold b1, window_start_ge. rewrite Hdt.
    destruct Hb as [[(_ & Hst & _) _] _]. rewrite Hst, Hs.
    apply add_named_adds.
  - intros e dt He Hdt.
    apply (constraint_kept b2 b3); [apply H3 |].
    unfold b2, window_end_le. rewrite Hdt.
    destruct H01 as [[(_ & _ & _ & Hen) _] _]. rewrite Hen, He.
    apply add_named_adds.
  - intros s dt Hs Hdt.
    unfold b3, window_start_eq. rewrite Hdt.
    destruct H02 as [[(_ & Hst & _) _] _]. rewrite Hst, Hs.
    apply add_named_adds.
Qed.

Lemma prep_window_added now config task b0 b :
  adds_constraints b0 b ->
  let b' :=
    window_end_le now config (prep_id task) (prep_latest_finish task)
      (window_start_ge now config (prep_id task)
         (prep_earliest_start task) b) in
  (forall s dt,
     Py.dict_get (task_starts b0) (prep_id task) = Some s ->
     prep_earliest_start task = Some dt ->
     CGe (LVar s) (LConst (_datetime_to_minutes now config dt))
       ∈ CpModel.constraints (model b'))
  /\ (forall e dt,
        Py.dict_get (task_ends b0) (prep_id task) = Some e ->
        prep_latest_finish task = Some dt ->
        CLe (LVar e) (LConst (_datetime_to_minutes now config dt))
          ∈ CpModel.constraints (model b')).
Proof.
  intros Hb b'. subst b'.
  set (b1 := window_start_ge now config (prep_id task)
               (prep_earliest_start task) b).
  set (b2 := window_end_le now config (prep_id task)
               (prep_latest_finish task) b1).
  assert (H1 : adds_constraints b b1) by apply window_start_ge_adds.
  assert (H2 : adds_constraints b1 b2) by apply window_end_le_adds.
  assert (H01 : adds_constraints b0 b1)
    by (eapply adds_constraints_trans; eassumption).
  split.
  - intros s dt Hs Hdt.
    apply (constraint_kept b1 b2); [apply H2 |].
    unfold b1, window_start_ge. rewrite Hdt.
    destruct Hb as [[(_ & Hst & _) _] _]. rewrite Hst, Hs.
    apply add_named_adds.
  - intros e dt He Hdt.
    unfold b2, window_end_le. rewrite Hdt.
    destruct H01 as [[(_ & _ & _ & Hen) _] _]. rewrite Hen, He.
    apply add_named_adds.
Qed.

Lemma time_windows_added now jobs preps config b :
  let b' := _build_time_window_constraints now jobs preps config b in
  (forall job s dt,
     job ∈ jobs -> Py.dict_get (task_starts b) (job_id job) = Some s ->
     job_earliest_start job = Some dt ->
     CGe (LVar s) (LConst (_datetime_to_minutes now config dt))
       ∈ CpModel.constraints (model b'))
  /\ (forall job e dt,
        job ∈ jobs -> Py.dict_get (task_ends b) (job_id job) = Some e ->
        job_latest_finish job = Some dt ->
        CLe (LVar e) (LConst (_datetime_to_minutes now config dt))
          ∈ CpModel.constraints (model b'))
  /\ (forall job s dt,
        job ∈ jobs -> Py.dict_get (task_starts b) (job_id job) = Some s ->
        fixed_start job = Some dt ->
        CEq (LVar s) (LConst (_datetime_to_minutes now config dt))
          ∈ CpModel.constraints (model b'))
  /\ (forall task s dt,
        task ∈ preps -> Py.dict_get (task_starts b) (prep_id task) = Some s ->
        prep_earliest_start task = Some dt ->
        CGe (LVar s) (LConst (_datetime_to_minutes now config dt))
          ∈ CpModel.constraints (model b'))
  /\ (forall task e dt,
        task ∈ preps -> Py.dict_get (task_ends b) (prep_id task) = Some e ->
        prep_latest_finish task = Some dt ->
        CLe (LVar e) (LConst (_datetime_to_minutes now config dt))
          ∈ CpModel.constraints (model b')).
Proof.
  intros b'. subst b'. unfold _build_time_window_constraints.
  set (fj := fun b job =>
               window_start_eq now config (job_id job) (fixed_start job)
                 (window_end_le now config (job_id job) (job_latest_finish job)
                    (window_start_ge now config (job_id job)
                       (job_earliest_start job) b))).
  set (ft := fun b task =>
               window_end_le now config (prep_id task)
                 (prep_latest_finish task)
                 (window_start_ge now config (prep_id task)
                    (prep_earliest_start task) b)).
  assert (HPj : forall b1 a, adds_constraints b b1 ->
                             adds_constraints b (fj b1 a)).
  { intros b1 a Hb1. eapply adds_constraints_trans; [exact Hb1 |].
    apply job_window_adds. }
  assert (HPt : forall b1 a, adds_constraints b b1 ->
                             adds_constraints b (ft b1 a)).
  { intros b1 a Hb1. eapply adds_constraints_trans; [exact Hb1 |].
    apply prep_window_adds. }
  assert (Hj : adds_constraints b (fold_left fj jobs b)).
  { apply (fold_left_inv (adds_constraints b));
      [apply adds_constraints_refl | exact HPj]. }
  assert (Hjobs : forall c job,
             job ∈ jobs ->
             (forall b1, adds_constraints b b1 ->
                         c ∈ CpModel.constraints (model (fj b1 job))) ->
             c ∈ CpModel.constraints
                   (model (fold_left ft preps (fold_left fj jobs b)))).
  { intros c job Hjob Hc.
    apply (constraint_kept (fold_left fj jobs b)).
    - apply (fold_left_inv (grows (fold_left fj jobs b))); [apply grows_refl |].
      intros b1 t Hb1. eapply grows_trans; [exact Hb1 |].
      apply prep_window_adds.
    - apply (fold_left_reaches fj (adds_constraints b)
               (fun b1 => c ∈ CpModel.constraints (model b1))
               jobs job b Hjob (adds_constraints_refl b) HPj Hc).
      intros b1 a _ Hin.
      eapply constraint_kept; [apply job_window_adds | exact Hin]. }
  assert (Hpreps : forall c task,
             task ∈ preps ->
             (forall b1, adds_constraints b b1 ->
                         c ∈ CpModel.constraints (model (ft b1 task))) ->
             c ∈ CpModel.constraints
                   (model (fold_left ft preps (fold_left fj jobs b)))).
  { intros c task Htask Hc.
    apply (fold_left_reaches ft (adds_constraints b)
             (fun b1 => c ∈ CpModel.constraints (model b1))
             preps task _ Htask Hj HPt Hc).
    intros b1 a _ Hin.
    eapply constraint_kept; [apply prep_window_adds | exact Hin]. }
  repeat split.
  - intros job s dt Hjob Hs Hdt. apply (Hjobs _ job Hjob). intros b1 Hb1.
    apply (job_window_added now config job b b1 Hb1); assumption.
  - intros job e dt Hjob He Hdt. apply (Hjobs _ job Hjob). intros b1 Hb1.
    apply (job_window_added now config job b b1 Hb1); assumption.
  - intros job s dt Hjob Hs Hdt. apply (Hjobs _ job Hjob). intros b1 Hb1.
    apply (job_window_added now config job b b1 Hb1); assumption.
  - intros task s dt Htask Hs Hdt. apply (Hpreps _ task Htask). intros b1 Hb1.
    apply (prep_window_added now config task b b1 Hb1); assumption.
  - intros task e dt Htask He Hdt. apply (Hpreps _ task Htask). intros b1 Hb1.
    apply (prep_window_added now config task b b1 Hb1); assumption.
Qed.

Lemma time_windows_hold (now : Z) (jobs : list Job)
  (resources : list Resource) (preparation_tasks : list PreparationTask)
  (config : ConstraintConfig) (b b' : ConstraintBuilder.t) (rho : nat -> Z) :
  build_constraints now jobs resources preparation_tasks config b = inr b' ->
  solves rho (model b') = true ->
  (forall job s dt,
     job ∈ jobs -> Py.dict_get (task_starts b') (job_id job) = Some s ->
     job_earliest_start job = Some dt ->
     (_datetime_to_minutes now config dt <= rho (var_index s))%Z)
  /\ (forall job e dt,
        job ∈ jobs -> Py.dict_get (task_ends b') (job_id job) = Some e ->
        job_latest_finish job = Some dt ->
        (rho (var_index e) <= _datetime_to_minutes now config dt)%Z)
  /\ (forall job s dt,
        job ∈ jobs -> Py.dict_get (task_starts b') (job_id job) = Some s ->
        fixed_start job = Some dt ->
        rho (var_index s) = _datetime_to_minutes now config dt)
  /\ (forall task s dt,
        task ∈ preparation_tasks ->
        Py.dict_get (task_starts b') (prep_id task) = Some s ->
        prep_earliest_start task = Some dt ->
        (_datetime_to_minutes now config dt <= rho (var_index s))%Z)
  /\ (forall task e dt,
        task ∈ preparation_tasks ->
        Py.dict_get (task_ends b') (prep_id task) = Some e ->
        prep_latest_finish task = Some dt ->
        (rho (var_index e) <= _datetime_to_minutes now config dt)%Z).
Proof.
  intros Hbuild Hsol.
  destruct (build_constraints_stages _ _ _ _ _ _ _ Hbuild)
    as (b3 & b5 & _ & _ & _ & _ & _ & _ & [H45 _] & [H5 _]).
  set (b4 := _build_time_window_constraints now jobs preparation_tasks
               config b3) in *.
  assert (Hg : grows b4 b') by (eapply grows_trans; eassumption).
  assert (H3 : adds_constraints b3 b4) by apply time_windows_add.
  assert (Hs3 : task_starts b' = task_starts b3).
  { destruct Hg as [(_ & -> & _) _]. destruct H3 as [[(_ & -> & _) _] _].
    reflexivity. }
  assert (He3 : task_ends b' = task_ends b3).
  { destruct Hg as [(_ & _ & _ & ->) _].
    destruct H3 as [[(_ & _ & _ & ->) _] _]. reflexivity. }
  rewrite Hs3, He3.
  destruct (time_windows_added now jobs preparation_tasks config b3)
    as (W1 & W2 & W3 & W4 & W5).
  fold b4 in W1, W2, W3, W4, W5.
  assert (Hholds : forall c, c ∈ CpModel.constraints (model b4) ->
                             holds rho c = true).
  { intros c Hc. eapply solves_constraint; [| exact Hsol].
    eapply constraint_kept; eassumption. }
  repeat split.
  - intros job s dt Hjob Hs Hdt.
    pose proof (Hholds _ (W1 job s dt Hjob Hs Hdt)) as Hh. simpl in Hh. lia.
  - intros job e dt Hjob He Hdt.
    pose proof (Hholds _ (W2 job e dt Hjob He Hdt)) as Hh. simpl in Hh. lia.
  - intros job s dt Hjob Hs Hdt.
    pose proof (Hholds _ (W3 job s dt Hjob Hs Hdt)) as Hh. simpl in Hh. lia.
  - intros task s dt Htask Hs Hdt.
    pose proof (Hholds _ (W4 task s dt Htask Hs Hdt)) as Hh. simpl in Hh. lia.
  - intros task e dt Htask He Hdt.
    pose proof (Hholds _ (W5 task e dt Htask He Hdt)) as Hh. simpl in Hh. lia.
Qed.

(** X8: in every solution of the emitted model a job starts no earlier
    than its earliest start, ends no later than its latest finish and
    starts exactly at its fixed start, each converted to whole minutes
    after the plan start by [_datetime_to_minutes]; likewise for the
    earliest start and latest finish of a preparation task. *)
Theorem time_windows_in_solutions (now : Z) (jobs : list Job)
  (resources : list Resource) (preparation_tasks : list PreparationTask)
  (config : ConstraintConfig) (b b' : ConstraintBuilder.t) (rho : nat -> Z) :
  build_constraints now jobs resources preparation_tasks config b = inr b' ->
  solves rho (model b') = true ->
  (forall job s dt,
     job ∈ jobs -> Py.dict_get (task_starts b') (job_id job) = Some s ->
     job_earliest_start job = Some dt ->
     (_datetime_to_minutes now config dt <= rho (var_index s))%Z)
  /\ (forall job e dt,
        job ∈ jobs -> Py.dict_get (task_ends b') (job_id job) = Some e ->
        job_latest_finish job = Some dt ->
        (rho (var_index e) <= _datetime_to_minutes now config dt)%Z)
  /\ (forall job s dt,
        job ∈ jobs -> Py.dict_get (task_starts b') (job_id job) = Some s ->
        fixed_start job = Some dt ->
        rho (var_index s) = _datetime_to_minutes now config dt)
  /\ (forall task s dt,
        task ∈ preparation_tasks ->
        Py.dict_get (task_starts b') (prep_id task) = Some s ->
        prep_earliest_start task = Some dt ->
        (_datetime_to_minutes now config dt <= rho (var_index s))%Z)
  /\ (forall task e dt,
        task ∈ preparation_tasks ->
        Py.dict_get (task_ends b') (prep_id task) = Some e ->
        prep_latest_finish task = Some dt ->
        (rho (var_index e) <= _datetime_to_minutes now config dt)%Z).
Proof.
  apply time_windows_hold.
Qed.

Lemma task_times_linked (now : Z) (jobs : list Job)
  (resources : list Resource) (preparation_tasks : list PreparationTask)
  (config : ConstraintConfig) (m : CpModel.t) (b' : ConstraintBuilder.t)
  (tid : string) (s d e : IntVar) (rho : nat -> Z) :
  build_constraints now jobs resources preparation_tasks config (init m)
  = inr b' ->
  Py.dict_get (task_starts b') tid = Some s ->
  Py.dict_get (task_durations b') tid = Some d ->
  Py.dict_get (task_ends b') tid = Some e ->
  solves rho (model b') = true ->
  let horizon := default 168%Z (time_horizon_hours config) in
  (rho (var_index s) + rho (var_index d) = rho (var_index e))%Z
  /\ (0 <= rho (var_index s) <= horizon * 60)%Z
  /\ (0 <= rho (var_index e) <= horizon * 60)%Z
  /\ (var_lb d <= rho (var_index d) <= var_ub d)%Z.
Proof.
  intros Hbuild Hs Hd He Hsol horizon.
  destruct (stages_same_tasks _ _ _ _ _ _ _ Hbuild) as (Hg & Hsame).
  destruct (create_task_variables_linked jobs preparation_tasks config (init m)
              (tasks_linked_init _ m)) as [Hl1 _].
  fold horizon in Hl1.
  set (b1 := _create_task_variables jobs preparation_tasks config (init m))
    in *.
  assert (Hg1 : grows b1 b').
  { eapply grows_trans; [apply precedence_adds | exact Hg]. }
  pose proof (tasks_linked_grows horizon b1 b' Hg1 Hl1) as Hl.
  destruct (Hl tid s d e Hs Hd He)
    as (Hvs & Hvd & Hve & Hls & Hus & Hle & Hue & name & Hitv).
  pose proof (solves_variable rho _ _ Hvs Hsol) as Bs.
  pose proof (solves_variable rho _ _ Hvd Hsol) as Bd.
  pose proof (solves_variable rho _ _ Hve Hsol) as Be.
  pose proof (solves_interval rho _ _ Hitv Hsol) as Hc.
  unfold interval_consistent, present in Hc. simpl in Hc.
  rewrite Hls, Hus in Bs. rewrite Hle, Hue in Be.
  repeat split; lia.
Qed.

(** X9: for a fresh builder, every task with stored variables satisfies
    in every solution of the emitted model: start plus duration is the
    end, start and end lie between 0 and the planning horizon in
    minutes, and the duration lies in the domain of its variable. *)
Theorem task_times_consistent (now : Z) (jobs : list Job)
  (resources : list Resource) (preparation_tasks : list PreparationTask)
  (config : ConstraintConfig) (m : CpModel.t) (b' : ConstraintBuilder.t)
  (tid : string) (s d e : IntVar) (rho : nat -> Z) :
  build_constraints now jobs resources preparation_tasks config (init m)
  = inr b' ->
  Py.dict_get (task_starts b') tid = Some s ->
  Py.dict_get (task_durations b') tid = Some d ->
  Py.dict_get (task_ends b') tid = Some e ->
  solves rho (model b') = true ->
  let horizon := default 168%Z (time_horizon_hours config) in
  (rho (var_index s) + rho (var_index d) = rho (var_index e))%Z
  /\ (0 <= rho (var_index s) <= horizon * 60)%Z
  /\ (0 <= rho (var_index e) <= horizon * 60)%Z
  /\ (var_lb d <= rho (var_index d) <= var_ub d)%Z.
Proof.
  apply task_times_linked.
Qed.

(** *** Qualification coverage *)

Lemma sum_exprs_positive rho (vs : list IntVar) :
  (1 <= eval rho (sum_exprs (map LVar vs)))%Z ->
  exists v, v ∈ vs /\ (1 <= rho (var_index v))%Z.
Proof.
  unfold sum_exprs. rewrite eval_fold_add. simpl.
  induction vs as [| v vs IH]; simpl; [lia |].
  intros H. destruct (Z_le_gt_dec 1 (rho (var_index v))) as [Hv | Hv].
  - exists v. split; [left | exact Hv].
  - destruct IH as (v' & Hin & Hv'); [lia |].
    exists v'. split; [right; exact Hin | exact Hv'].
Qed.

Lemma assignment_vars_elem keep (hrs : list Resource) jid b v :
  v ∈ assignment_vars keep hrs jid b ->
  exists hr inner,
    hr ∈ hrs /\ keep hr = true
    /\ Py.dict_get (resource_assignments b) (resource_id (resource_base hr))
       = Some inner
    /\ Py.dict_get inner jid = Some v.
Proof.
  unfold assignment_vars. intros H.
  apply list_elem_of_omap in H as (hr & Hin & Hv).
  destruct (keep hr) eqn:Ek; [| discriminate].
  destruct (Py.dict_get (resource_assignments b) _) as [inner |] eqn:E;
    [| discriminate].
  exists hr, inner. repeat split; auto.
Qed.

Lemma collaborative_added job hrs jid b0 b b' q :
  adds_constraints b0 b ->
  q ∈ required_qualifications job ->
  _build_collaborative_qualification_constraint job hrs jid b = inr b' ->
  exists v vs,
    assignment_vars (fun hr => has_qualification hr q) hrs jid b0 = v :: vs
    /\ CGe (sum_exprs (map LVar (v :: vs))) (LConst 1)
         ∈ CpModel.constraints (model b').
Proof.
  intros Hb Hq Hr. unfold _build_collaborative_qualification_constraint in Hr.
  match type of Hr with
  | foldE ?f _ _ = _ =>
      apply (foldE_reaches f (adds_constraints b0)
               (fun b1 =>
                  exists v vs,
                    assignment_vars (fun hr => has_qualification hr q)
                                    hrs jid b0 = v :: vs
                    /\ CGe (sum_exprs (map LVar (v :: vs))) (LConst 1)
                         ∈ CpModel.constraints (model b1))
               (required_qualifications job) q b b' Hq Hb Hr)
  end.
  - intros b1 a b2 Hb1.
    destruct (assignment_vars _ hrs jid b1); [discriminate |].
    intros [= <-]. eapply adds_constraints_trans; [exact Hb1 |].
    apply add_named_adds.
  - intros b1 b2 Hb1.
    assert (Heq : assignment_vars (fun hr => has_qualification hr q) hrs jid b1
                  = assignment_vars (fun hr => has_qualification hr q)
                                    hrs jid b0).
    { unfold assignment_vars. destruct Hb1 as [_ ->]. reflexivity. }
    rewrite Heq.
    destruct (assignment_vars _ hrs jid b0) as [| v vs]; [discriminate |].
    intros [= <-]. exists v, vs. split; [reflexivity |]. apply add_named_adds.
  - intros b1 a b2 Hb1 (v & vs & Hv & Hin).
    destruct (assignment_vars _ hrs jid b1); [discriminate |].
    intros [= <-]. exists v, vs. split; [exact Hv |].
    eapply constraint_kept; [apply add_named_adds | exact Hin].
Qed.

Lemma qualification_added jobs resources b b' job q :
  job ∈ jobs -> q ∈ required_qualifications job ->
  _build_qualification_constraints jobs resources b = inr b' ->
  exists v vs,
    assignment_vars (fun hr => has_qualification hr q)
                    (filter (fun r => is_human r = true) resources)
                    (job_id job) b = v :: vs
    /\ CGe (sum_exprs (map LVar (v :: vs))) (LConst 1)
         ∈ CpModel.constraints (model b').
Proof.
  intros Hjob Hq Hr. unfold _build_qualification_constraints in Hr.
  set (hrs := filter (fun r => is_human r = true) resources) in *.
  match type of Hr with
  | foldE ?f _ _ = _ =>
      apply (foldE_reaches f (adds_constraints b)
               (fun b1 =>
                  exists v vs,
                    assignment_vars (fun hr => has_qualification hr q)
                                    hrs (job_id job) b = v :: vs
                    /\ CGe (sum_exprs (map LVar (v :: vs))) (LConst 1)
                         ∈ CpModel.constraints (model b1))
               jobs job b b' Hjob (adds_constraints_refl b) Hr)
  end.
  - intros b1 a b2 Hb1 Hstep. eapply adds_constraints_trans; [exact Hb1 |].
    eapply qualification_step_adds. exact Hstep.
  - intros b1 b2 Hb1 Hstep.
    destruct (required_qualifications job) as [| q0 qs] eqn:Eq;
      [inversion Hq |].
    eapply collaborative_added; [exact Hb1 | | exact Hstep].
    rewrite Eq. exact Hq.
  - intros b1 a b2 Hb1 (v & vs & Hv & Hin) Hstep.
    exists v, vs. split; [exact Hv |].
    eapply constraint_kept; [| exact Hin].
    apply (qualification_step_adds hrs b1 a b2 Hstep).
Qed.

(** X10: in every solution of the emitted model, each qualification
    that a job requires is held by a human resource whose assignment
    variable for that job is at least 1. *)
Theorem qualification_covered_in_solutions (now : Z) (jobs : list Job)
  (resources : list Resource) (preparation_tasks : list PreparationTask)
  (config : ConstraintConfig) (b b' : ConstraintBuilder.t)
  (job : Job) (q : string) (rho : nat -> Z) :
  build_constraints now jobs resources preparation_tasks config b = inr b' ->
  job ∈ jobs -> q ∈ required_qualifications job ->
  solves rho (model b') = true ->
  exists hr inner v,
    hr ∈ resources /\ is_human hr = true /\ has_qualification hr q = true
    /\ Py.dict_get (resource_assignments b') (resource_id (resource_base hr))
       = Some inner
    /\ Py.dict_get inner (job_id job) = Some v
    /\ (1 <= rho (var_index v))%Z.
Proof.
  intros Hbuild Hjob Hq Hsol.
  destruct (build_constraints_stages _ _ _ _ _ _ _ Hbuild)
    as (b3 & b5 & _ & E5 & _ & _ & _ & _ & H45 & H5).
  set (b4 := _build_time_window_constraints now jobs preparation_tasks
               config b3) in *.
  destruct (qualification_added jobs resources b4 b5 job q Hjob Hq E5)
    as (v0 & vs & Hvars & Hin).
  pose proof (solves_constraint rho _ _
                (constraint_kept _ _ _ (proj1 H5) Hin) Hsol) as Hh.
  simpl in Hh. apply Z.leb_le in Hh.
  destruct (sum_exprs_positive rho (v0 :: vs) Hh) as (v & Hv & Hpos).
  rewrite <- Hvars in Hv.
  apply assignment_vars_elem in Hv as (hr & inner & Hhr & Hkeep & Hra & Hinner).
  apply list_elem_of_filter in Hhr as [Hhuman Hres].
  exists hr, inner, v. repeat split; try assumption.
  destruct H45 as [_ H45]. destruct H5 as [_ H5]. rewrite H5, H45. exact Hra.
Qed.

End Solutions.

Lemma precedence_in_solutions_witness :
  ConstraintBuilder.build_constraints 0 Samples.plan_jobs
    Samples.plan_resources [] Samples.config
    (ConstraintBuilder.init CpModel.empty)
  = inr (Samples.built Samples.plan_jobs Samples.plan_resources)
  /\ depends_on Samples.plan_jobs [] "J2" "J1"
  /\ Py.dict_get (ConstraintBuilder.task_ends
                    (Samples.built Samples.plan_jobs Samples.plan_resources))
                 "J1"
     = Some (Samples.var 2 "end_J1")
  /\ Py.dict_get (ConstraintBuilder.task_starts
                    (Samples.built Samples.plan_jobs Samples.plan_resources))
                 "J2"
     = Some (Samples.var 4 "start_J2")
  /\ CpModel.solves Samples.plan_values
       (ConstraintBuilder.model
          (Samples.built Samples.plan_jobs Samples.plan_resources))
     = true
  /\ (Samples.plan_values 2 <= Samples.plan_values 4)%Z.
Proof.
  assert (Hb : ConstraintBuilder.build_constraints 0 Samples.plan_jobs
                 Samples.plan_resources [] Samples.config
                 (ConstraintBuilder.init CpModel.empty)
               = inr (Samples.built Samples.plan_jobs Samples.plan_resources))
    by (vm_compute; reflexivity).
  assert (Hd : depends_on Samples.plan_jobs [] "J2" "J1").
  { left. exists (Samples.job "J2" [] ["J1"] [] None).
    split; [right; left |]. split; [reflexivity | left]. }
  assert (He : Py.dict_get
                 (ConstraintBuilder.task_ends
                    (Samples.built Samples.plan_jobs Samples.plan_resources))
                 "J1"
               = Some (Samples.var 2 "end_J1")) by (vm_compute; reflexivity).
  assert (Hs : Py.dict_get
                 (ConstraintBuilder.task_starts
                    (Samples.built Samples.plan_jobs Samples.plan_resources))
                 "J2"
               = Some (Samples.var 4 "start_J2")) by (vm_compute; reflexivity).
  assert (Hsol : CpModel.solves Samples.plan_values
                   (ConstraintBuilder.model
                      (Samples.built Samples.plan_jobs Samples.plan_resources))
                 = true) by (vm_compute; reflexivity).
  repeat (split; [assumption |]).
  exact (precedence_in_solutions 0 Samples.plan_jobs Samples.plan_resources []
           Samples.config _ _ "J2" "J1" _ _ Samples.plan_values
           Hb Hd He Hs Hsol).
Defined.

Lemma time_windows_in_solutions_witness :
  ConstraintBuilder.build_constraints 0 Samples.plan_jobs
    Samples.plan_resources [] Samples.config
    (ConstraintBuilder.init CpModel.empty)
  = inr (Samples.built Samples.plan_jobs Samples.plan_resources)
  /\ CpModel.solves Samples.plan_values
       (ConstraintBuilder.model
          (Samples.built Samples.plan_jobs Samples.plan_resources))
     = true
  /\ (60 <= Samples.plan_values 1)%Z /\ (Samples.plan_values 2 <= 600)%Z.
Proof.
  assert (Hb : ConstraintBuilder.build_constraints 0 Samples.plan_jobs
                 Samples.plan_resources [] Samples.config
                 (ConstraintBuilder.init CpModel.empty)
               = inr (Samples.built Samples.plan_jobs Samples.plan_resources))
    by (vm_compute; reflexivity).
  assert (Hsol : CpModel.solves Samples.plan_values
                   (ConstraintBuilder.model
                      (Samples.built Samples.plan_jobs Samples.plan_resources))
                 = true) by (vm_compute; reflexivity).
  repeat (split; [assumption |]).
  destruct (time_windows_in_solutions 0 Samples.plan_jobs
              Samples.plan_resources [] Samples.config _ _ Samples.plan_values
              Hb Hsol) as (W1 & W2 & _).
  split.
  - apply (W1 (hd (Samples.job "J0" [] [] [] None) Samples.plan_jobs)
              (Samples.var 1 "start_J1") 3600000000%Z);
      [left | vm_compute; reflexivity | reflexivity].
  - apply (W2 (hd (Samples.job "J0" [] [] [] None) Samples.plan_jobs)
              (Samples.var 2 "end_J1") 36000000000%Z);
      [left | vm_compute; reflexivity | reflexivity].
Defined.

Lemma task_times_consistent_witness :
  ConstraintBuilder.build_constraints 0 Samples.plan_jobs
    Samples.plan_resources [] Samples.config
    (ConstraintBuilder.init CpModel.empty)
  = inr (Samples.built Samples.plan_jobs Samples.plan_resources)
  /\ CpModel.solves Samples.plan_values
       (ConstraintBuilder.model
          (Samples.built Samples.plan_jobs Samples.plan_resources))
     = true
  /\ (Samples.plan_values 4 + Samples.plan_values 3 = Samples.plan_values 5)%Z
  /\ (96 <= Samples.plan_values 3 <= 180)%Z.
Proof.
  assert (Hb : ConstraintBuilder.build_constraints 0 Samples.plan_jobs
                 Samples.plan_resources [] Samples.config
                 (ConstraintBuilder.init CpModel.empty)
               = inr (Samples.built Samples.plan_jobs Samples.plan_resources))
    by (vm_compute; reflexivity).
  assert (Hsol : CpModel.solves Samples.plan_values
                   (ConstraintBuilder.model
                      (Samples.built Samples.plan_jobs Samples.plan_resources))
                 = true) by (vm_compute; reflexivity).
  repeat (split; [assumption |]).
  destruct (task_times_consistent 0 Samples.plan_jobs Samples.plan_resources []
              Samples.config CpModel.empty _ "J2"
              (Samples.var 4 "start_J2")
              {| CpModel.var_index := 3; CpModel.var_lb := 96;
                 CpModel.var_ub := 180; CpModel.var_name := "duration_J2" |}
              (Samples.var 5 "end_J2") Samples.plan_values Hb)
    as (H1 & _ & _ & H4); try (vm_compute; reflexivity).
  split; [exact H1 | exact H4].
Defined.

Lemma qualification_covered_in_solutions_witness :
  ConstraintBuilder.build_constraints 0 Samples.plan_jobs
    Samples.plan_resources [] Samples.config
    (ConstraintBuilder.init CpModel.empty)
  = inr (Samples.built Samples.plan_jobs Samples.plan_resources)
  /\ CpModel.solves Samples.plan_values
       (ConstraintBuilder.model
          (Samples.built Samples.plan_jobs Samples.plan_resources))
     = true
  /\ exists hr inner v,
       hr ∈ Samples.plan_resources /\ has_qualification hr "welder" = true
       /\ Py.dict_get
            (ConstraintBuilder.resource_assignments
               (Samples.built Samples.plan_jobs Samples.plan_resources))
            (resource_id (resource_base hr))
          = Some inner
       /\ Py.dict_get inner "J1" = Some v
       /\ (1 <= Samples.plan_values (CpModel.var_index v))%Z.
Proof.
  assert (Hb : ConstraintBuilder.build_constraints 0 Samples.plan_jobs
                 Samples.plan_resources [] Samples.config
                 (ConstraintBuilder.init CpModel.empty)
               = inr (Samples.built Samples.plan_jobs Samples.plan_resources))
    by (vm_compute; reflexivity).
  assert (Hsol : CpModel.solves Samples.plan_values
                   (ConstraintBuilder.model
                      (Samples.built Samples.plan_jobs Samples.plan_resources))
                 = true) by (vm_compute; reflexivity).
  repeat (split; [assumption |]).
  destruct (qualification_covered_in_solutions 0 Samples.plan_jobs
              Samples.plan_resources [] Samples.config _ _
              (hd (Samples.job "J0" [] [] [] None) Samples.plan_jobs)
              "welder" Samples.plan_values Hb)
    as (hr & inner & v & Hhr & _ & Hq & Hra & Hin & Hv);
    [left | left | exact Hsol |].
  exists hr, inner, v. repeat split; assumption.
Defined.

(** ** Makespan objective *)

Section MakespanObjective.
Import CpModel ObjectiveBuilder.

Lemma makespan_loop (mk : IntVar) (task_ends : list (string * IntVar)) :
  forall m : CpModel.t,
    variables
      (fold_left (fun m kv => snd (Add (CGe (LVar mk) (LVar (snd kv))) m))
                 task_ends m)
    = variables m
    /\ intervals
         (fold_left (fun m kv => snd (Add (CGe (LVar mk) (LVar (snd kv))) m))
                    task_ends m)
       = intervals m
    /\ constraints
         (fold_left (fun m kv => snd (Add (CGe (LVar mk) (LVar (snd kv))) m))
                    task_ends m)
       = constraints m
           ++ map (fun kv => CGe (LVar mk) (LVar (snd kv))) task_ends.
Proof.
  induction task_ends as [| kv l IH]; intros m.
  - simpl. rewrite app_nil_r. repeat split.
  - cbn [fold_left map].
    destruct (IH (snd (Add (CGe (LVar mk) (LVar (snd kv))) m)))
      as (Hv & Hi & Hc).
    rewrite Hv, Hi, Hc. simpl. rewrite <- app_assoc. repeat split.
Qed.

(** X11: the model that [_build_makespan_objective] returns extends the
    one it was given, and in every solution of it the makespan
    expression is at least the end of every task and lies between 0 and
    the larger of the planning horizon in minutes and 1440. *)
Theorem makespan_bounds_task_ends (task_ends : list (string * IntVar))
  (time_horizon_hours : option Z) (m m' : CpModel.t) (expr : LinearExpr)
  (rho : nat -> Z) :
  _build_makespan_objective task_ends time_horizon_hours m = (Some expr, m') ->
  solves rho m' = true ->
  model_extends m m'
  /\ (forall task_id end_var,
        (task_id, end_var) ∈ task_ends ->
        (rho (var_index end_var) <= eval rho expr)%Z)
  /\ (0 <= eval rho expr
      <= Z.max (default 168%Z time_horizon_hours * 60) 1440)%Z.
Proof.
  intros Heq Hsol.
  destruct task_ends as [| kv0 rest]; [discriminate |].
  set (task_ends := kv0 :: rest) in *.
  set (mk := {| var_index := length (variables m); var_lb := 0;
                var_ub := Z.max (default 168%Z time_horizon_hours * 60) 1440;
                var_name := "makespan" |}).
  set (m1 := {| variables := variables m ++ [mk]; intervals := intervals m;
                constraints := constraints m |}).
  assert (Hm' : m' = fold_left
                       (fun m kv => snd (Add (CGe (LVar mk) (LVar (snd kv))) m))
                       task_ends m1
                /\ expr = LVar mk).
  { unfold _build_makespan_objective in Heq. cbn [NewIntVar] in Heq.
    injection Heq as <- <-. split; reflexivity. }
  destruct Hm' as [-> ->]. clear Heq.
  destruct (makespan_loop mk task_ends m1) as (Hv & Hi & Hc).
  split; [| split].
  - unfold model_extends. rewrite Hv, Hi, Hc. simpl.
    split; [exists [mk]; reflexivity |].
    split; [reflexivity | eexists; reflexivity].
  - intros task_id end_var Hin. simpl.
    assert (Hcon : CGe (LVar mk) (LVar end_var)
                   ∈ constraints
                       (fold_left
                          (fun m kv => snd (Add (CGe (LVar mk) (LVar (snd kv))) m))
                          task_ends m1)).
    { rewrite Hc. apply elem_of_app. right.
      apply list_elem_of_fmap. exists (task_id, end_var). split; [reflexivity | exact Hin]. }
    unfold solves in Hsol. rewrite !andb_true_iff in Hsol.
    destruct Hsol as [_ Hcs]. rewrite forallb_forall in Hcs.
    specialize (Hcs _ (proj1 (list_elem_of_In _ _) Hcon)).
    simpl in Hcs. lia.
  - simpl.
    unfold solves in Hsol. rewrite !andb_true_iff in Hsol.
    destruct Hsol as [[Hvs _] _]. rewrite forallb_forall in Hvs.
    assert (Hmk : In mk (variables
                           (fold_left
                              (fun m kv =>
                                 snd (Add (CGe (LVar mk) (LVar (snd kv))) m))
                              task_ends m1))).
    { rewrite Hv. simpl. apply in_or_app. right. left. reflexivity. }
    specialize (Hvs mk Hmk). unfold in_domain in Hvs.
    rewrite andb_true_iff in Hvs. simpl in Hvs. lia.
Qed.

Section Builders.
Variables cost_builder waiting_builder switches_builder delays_builder :
  CpModel.t -> option LinearExpr * CpModel.t.


End Builders.
End MakespanObjective.

Lemma makespan_bounds_task_ends_witness :
  ObjectiveBuilder._build_makespan_objective
    (ConstraintBuilder.task_ends
       (Samples.built Samples.plan_jobs Samples.plan_resources))
    None
    (ConstraintBuilder.model
       (Samples.built Samples.plan_jobs Samples.plan_resources))
  = (Some (CpModel.LVar (Samples.var 8 "makespan")), Samples.plan_model)
  /\ CpModel.solves Samples.plan_model_values Samples.plan_model = true
  /\ (Samples.plan_model_values 5 <= Samples.plan_model_values 8)%Z.
Proof.
  assert (Hb : ObjectiveBuilder._build_makespan_objective
                 (ConstraintBuilder.task_ends
                    (Samples.built Samples.plan_jobs Samples.plan_resources))
                 None
                 (ConstraintBuilder.model
                    (Samples.built Samples.plan_jobs Samples.plan_resources))
               = (Some (CpModel.LVar (Samples.var 8 "makespan")),
                  Samples.plan_model)) by (vm_compute; reflexivity).
  assert (Hsol : CpModel.solves Samples.plan_model_values Samples.plan_model
                 = true) by (vm_compute; reflexivity).
  repeat (split; [assumption |]).
  destruct (makespan_bounds_task_ends _ _ _ _ _ Samples.plan_model_values
              Hb Hsol) as (_ & Hends & _).
  apply (Hends "J2" (Samples.var 5 "end_J2")).
  vm_compute. right. left.
Defined.


(** ** Staffing of jobs *)

Section Staffing.
Import CpModel ConstraintBuilder.

Lemma foldE_total_in {A B : Type} (P : B -> Prop) (f : B -> A -> Exn + B)
  (l : list A) (b : B) :
  P b ->
  (forall b x, x ∈ l -> P b -> exists b', f b x = inr b' /\ P b') ->
  exists r, foldE f l b = inr r /\ P r.
Proof.
  revert b. induction l as [| x l IH]; intros b Hb Hf; simpl; [eauto |].
  destruct (Hf b x) as (b' & -> & Hb'); [left | exact Hb |]. simpl.
  apply IH; [exact Hb' |]. intros b0 y Hy. apply Hf. right. exact Hy.
Qed.

Lemma dict_set_keeps {V : Type} (d : list (string * V)) k k' v :
  is_Some (Py.dict_get d k') -> is_Some (Py.dict_get (Py.dict_set d k v) k').
Proof.
  rewrite dict_get_set_cases. destruct (decide (k = k')); eauto.
Qed.

Lemma create_task_starts H id dv m1 b k :
  is_Some (Py.dict_get (task_starts (create_task H id dv m1 b)) k)
  <-> k = id \/ is_Some (Py.dict_get (task_starts b) k).
Proof.
  unfold create_task. simpl. rewrite dict_get_set_cases.
  destruct (decide (id = k)) as [-> | Hne].
  - split; [left; reflexivity | eauto].
  - split; [right; assumption | intros [-> | H']; [congruence | exact H']].
Qed.

Lemma job_starts_created jobs preps config b job :
  job ∈ jobs ->
  is_Some (Py.dict_get (task_starts (_create_task_variables jobs preps config b))
                       (job_id job)).
Proof.
  intros Hjob. unfold _create_task_variables.
  set (H := default 168%Z (time_horizon_hours config)).
  apply (fold_left_inv
           (fun b' => is_Some (Py.dict_get (task_starts b') (job_id job)))).
  - apply (fold_left_reaches (create_job_variables H) (fun _ => True)
             (fun b' => is_Some (Py.dict_get (task_starts b') (job_id job)))
             jobs job b Hjob I).
    + intros; exact I.
    + intros b0 _. unfold create_job_variables.
      destruct (job_duration_var job (model b0)) as [dv m1].
      apply create_task_starts. left. reflexivity.
    + intros b0 a _ Hq. unfold create_job_variables.
      destruct (job_duration_var a (model b0)) as [dv m1].
      apply create_task_starts. right. exact Hq.
  - intros b0 t Hq. unfold create_prep_variables.
    destruct (NewConstant _ (model b0)) as [dv m1].
    apply create_task_starts. right. exact Hq.
Qed.

(** *** Assignment variables *)

Lemma assign_task_assigns rid acc tid :
  assignment_var (snd (assign_task rid acc tid)) rid tid <> None
  /\ (forall t, assignment_var (snd acc) rid t <> None ->
                assignment_var (snd (assign_task rid acc tid)) rid t <> None)
  /\ (forall k t, k <> rid ->
                  assignment_var (snd (assign_task rid acc tid)) k t
                  = assignment_var (snd acc) k t).
Proof.
  destruct acc as [ts b]. unfold assign_task, assignment_var. simpl.
  rewrite dict_get_set_eq. simpl. split; [| split].
  - rewrite dict_get_set_eq. discriminate.
  - intros t. destruct (Py.dict_get (resource_assignments b) rid) as [inner |];
      simpl; [| congruence].
    rewrite dict_get_set_cases. destruct (decide (tid = t)); [discriminate |].
    trivial.
  - intros k t Hne. rewrite dict_get_set_ne by congruence. reflexivity.
Qed.

Lemma adds_constraints_assignment b b' rid tid :
  adds_constraints b b' -> assignment_var b' rid tid = assignment_var b rid tid.
Proof. intros [_ H]. unfold assignment_var. rewrite H. reflexivity. Qed.

Lemma resource_tail_keeps resource tasks b b' rid tid :
  (if is_exclusive_physical resource then
     _build_exclusive_resource_constraint
       (resource_id (resource_base resource)) tasks b
   else _build_cumulative_resource_constraint resource tasks b) = inr b' ->
  assignment_var b' rid tid = assignment_var b rid tid.
Proof.
  intros H. apply adds_constraints_assignment.
  destruct (is_exclusive_physical resource);
    [eapply exclusive_grows; exact H |].
  unfold _build_cumulative_resource_constraint in H.
  destruct (bool_decide _); [eapply exclusive_grows; exact H |].
  injection H as <-. apply adds_constraints_refl.
Qed.

Lemma human_turn jobs preps b hr b' job :
  is_human hr = true -> job ∈ jobs ->
  build_one_resource jobs preps b hr = inr b' ->
  assignment_var b' (resource_id (resource_base hr)) (job_id job) <> None.
Proof.
  intros Hh Hjob. unfold build_one_resource. rewrite Hh.
  set (rid := resource_id (resource_base hr)).
  set (b0 := set_resource_assignments _ b).
  set (Q := fun acc : list string * ConstraintBuilder.t =>
              assignment_var (snd acc) rid (job_id job) <> None).
  set (acc1 := fold_left (fun acc j => assign_task rid acc (job_id j)) jobs
                         ([], b0)).
  assert (H1 : Q acc1).
  { apply (fold_left_reaches (fun acc j => assign_task rid acc (job_id j))
             (fun _ => True) Q jobs job ([], b0) Hjob I).
    - intros; exact I.
    - intros acc _. apply (proj1 (assign_task_assigns rid acc (job_id job))).
    - intros acc a _ Hq.
      apply (proj1 (proj2 (assign_task_assigns rid acc (job_id a)))).
      exact Hq. }
  match goal with
  | |- context [fold_left ?f preps acc1] => set (acc2 := fold_left f preps acc1)
  end.
  assert (H2 : Q acc2).
  { unfold acc2. apply (fold_left_inv Q); [exact H1 |].
    intros acc p Hacc. apply (fold_left_inv Q); [exact Hacc |].
    intros acc' a Hacc'. destruct (bool_decide _); [| exact Hacc'].
    apply (proj1 (proj2 (assign_task_assigns rid acc' (prep_id p)))).
    exact Hacc'. }
  destruct acc2 as [tasks b2]. unfold Q in H2. simpl in H2.
  intros Htail. rewrite (resource_tail_keeps hr tasks b2 b' _ _ Htail).
  exact H2.
Qed.

Lemma other_turn jobs preps b resource b' k t :
  k <> resource_id (resource_base resource) ->
  build_one_resource jobs preps b resource = inr b' ->
  assignment_var b' k t = assignment_var b k t.
Proof.
  intros Hne. unfold build_one_resource.
  set (rid := resource_id (resource_base resource)) in *.
  set (b0 := set_resource_assignments _ b).
  set (P := fun acc : list string * ConstraintBuilder.t =>
              assignment_var (snd acc) k t = assignment_var b k t).
  assert (H0 : P ([], b0)).
  { unfold P, b0, assignment_var. simpl.
    rewrite dict_get_set_ne by congruence. reflexivity. }
  assert (Hstep : forall acc tid, P acc -> P (assign_task rid acc tid)).
  { intros acc tid Hacc. unfold P in *. rewrite <- Hacc.
    apply (proj2 (proj2 (assign_task_assigns rid acc tid))). exact Hne. }
  set (acc1 := if is_human resource then _ else _).
  assert (H1 : P acc1).
  { unfold acc1. destruct (is_human resource).
    - apply (fold_left_inv P); [exact H0 |]. intros acc j. apply Hstep.
    - apply (fold_left_inv P); [exact H0 |]. intros acc j Hacc.
      destruct (has_resource_requirement j rid); [apply Hstep |]; exact Hacc. }
  match goal with
  | |- context [fold_left ?f preps acc1] => set (acc2 := fold_left f preps acc1)
  end.
  assert (H2 : P acc2).
  { unfold acc2. apply (fold_left_inv P); [exact H1 |].
    intros acc p Hacc. apply (fold_left_inv P); [exact Hacc |].
    intros acc' a Hacc'. destruct (bool_decide _); [apply Hstep |]; exact Hacc'. }
  destruct acc2 as [tasks b2]. unfold P in H2. simpl in H2.
  intros Htail. rewrite (resource_tail_keeps resource tasks b2 b' _ _ Htail).
  exact H2.
Qed.

Lemma human_variables_created jobs preps hr job :
  is_human hr = true -> job ∈ jobs ->
  forall resources b b',
    NoDup (map (fun r => resource_id (resource_base r)) resources) ->
    hr ∈ resources ->
    _build_resource_constraints jobs preps resources b = inr b' ->
    assignment_var b' (resource_id (resource_base hr)) (job_id job) <> None.
Proof.
  intros Hh Hjob resources. unfold _build_resource_constraints.
  induction resources as [| r rs IH]; intros b b' Hnd Hin Hr;
    [inversion Hin |].
  simpl in Hr.
  destruct (build_one_resource jobs preps b r) as [e | b1] eqn:E1;
    [discriminate |].
  simpl in Hr. simpl in Hnd. apply NoDup_cons in Hnd as [Hnotin Hnd].
  apply elem_of_cons in Hin as [-> | Hin].
  - pose proof (human_turn jobs preps b r b1 job Hh Hjob E1) as H1.
    revert Hr. apply (foldE_inv
      (fun b2 => assignment_var b2 (resource_id (resource_base r))
                                (job_id job) <> None)); [exact H1 |].
    intros b2 a b3 Ha Hb2 Hstep.
    assert (Hne : resource_id (resource_base r)
                  <> resource_id (resource_base a)).
    { intros Heq. apply Hnotin. rewrite Heq.
      apply list_elem_of_fmap. exists a. split; [reflexivity | exact Ha]. }
    rewrite (other_turn jobs preps b2 a b3 _ (job_id job) Hne Hstep).
    exact Hb2.
  - eapply IH; eassumption.
Qed.

Lemma assignment_vars_intro keep (hrs : list Resource) jid b hr :
  hr ∈ hrs -> keep hr = true ->
  assignment_var b (resource_id (resource_base hr)) jid <> None ->
  assignment_vars keep hrs jid b <> [].
Proof.
  intros Hin Hkeep Hv. unfold assignment_var in Hv.
  destruct (Py.dict_get (resource_assignments b) _) as [inner |] eqn:E;
    simpl in Hv; [| congruence].
  destruct (Py.dict_get inner jid) as [v |] eqn:Ev; [| congruence].
  assert (Hel : v ∈ assignment_vars keep hrs jid b).
  { unfold assignment_vars. apply list_elem_of_omap. exists hr.
    split; [exact Hin |]. rewrite Hkeep, E. exact Ev. }
  intros Hnil. rewrite Hnil in Hel. inversion Hel.
Qed.

Lemma assignment_vars_same keep hrs jid b b' :
  resource_assignments b' = resource_assignments b ->
  assignment_vars keep hrs jid b' = assignment_vars keep hrs jid b.
Proof. intros H. unfold assignment_vars. rewrite H. reflexivity. Qed.


(** *** Task execution *)

Lemma execution_added jobs resources b job v vs :
  job ∈ jobs ->
  is_Some (Py.dict_get (task_starts b) (job_id job)) ->
  assignment_vars (fun _ => true) (filter (fun r => is_human r = true) resources)
                  (job_id job) b = v :: vs ->
  CGe (sum_exprs (map LVar (v :: vs))) (LConst 1)
    ∈ CpModel.constraints
        (model (_build_task_execution_constraints jobs resources b)).
Proof.
  intros Hjob Hstart Hvars. unfold _build_task_execution_constraints.
  set (hrs := filter (fun r => is_human r = true) resources) in *.
  match goal with
  | |- context [fold_left ?f jobs b] =>
      apply (fold_left_reaches f (adds_constraints b)
               (fun b1 => CGe (sum_exprs (map LVar (v :: vs))) (LConst 1)
                            ∈ CpModel.constraints (model b1))
               jobs job b Hjob (adds_constraints_refl b))
  end.
  - intros b1 a Hb1. eapply adds_constraints_trans; [exact Hb1 |].
    apply execution_step_adds.
  - intros b1 Hb1.
    assert (Hmem : Py.dict_mem (task_starts b1) (job_id job) = true).
    { unfold Py.dict_mem. destruct Hb1 as [[(_ & -> & _) _] _].
      destruct Hstart as [x ->]. reflexivity. }
    rewrite Hmem.
    rewrite (assignment_vars_same _ hrs (job_id job) b b1) by apply Hb1.
    rewrite Hvars. apply add_named_adds.
  - intros b1 a _ Hin.
    eapply constraint_kept; [apply execution_step_adds | exact Hin].
Qed.

(** X14: with distinct resource ids and at least one human resource,
    every solution of the emitted model assigns at least one human
    resource to each job. *)
Theorem every_job_is_staffed (now : Z) (jobs : list Job)
  (resources : list Resource) (preparation_tasks : list PreparationTask)
  (config : ConstraintConfig) (b b' : ConstraintBuilder.t)
  (job : Job) (hr : Resource) (rho : nat -> Z) :
  build_constraints now jobs resources preparation_tasks config b = inr b' ->
  NoDup (map (fun r => resource_id (resource_base r)) resources) ->
  job ∈ jobs -> hr ∈ resources -> is_human hr = true ->
  solves rho (model b') = true ->
  exists hr' v,
    hr' ∈ resources /\ is_human hr' = true
    /\ assignment_var b' (resource_id (resource_base hr')) (job_id job)
       = Some v
    /\ (1 <= rho (var_index v))%Z.
Proof.
  intros Hbuild Hnd Hjob Hhr Hhuman Hsol.
  destruct (build_constraints_stages _ _ _ _ _ _ _ Hbuild)
    as (b3 & b5 & E3 & E5 & -> & H12 & H23 & H34 & H45 & H5).
  set (b1 := _create_task_variables jobs preparation_tasks config b) in *.
  set (b2 := _build_precedence_constraints jobs preparation_tasks b1) in *.
  set (b4 := _build_time_window_constraints now jobs preparation_tasks
               config b3) in *.
  set (hrs := filter (fun r => is_human r = true) resources).
  assert (H35 : adds_constraints b3 b5)
    by (eapply adds_constraints_trans; eassumption).
  pose proof (human_variables_created jobs preparation_tasks hr job
                Hhuman Hjob resources b2 b3 Hnd Hhr E3) as Hvar.
  rewrite <- (adds_constraints_assignment b3 b5) in Hvar by exact H35.
  assert (Hstart : is_Some (Py.dict_get (task_starts b5) (job_id job))).
  { assert (Hs : task_starts b5 = task_starts b1).
    { destruct H35 as [[(_ & -> & _) _] _].
      destruct H23 as [(_ & -> & _) _].
      destruct H12 as [[(_ & -> & _) _] _]. reflexivity. }
    rewrite Hs. apply job_starts_created. exact Hjob. }
  assert (Hne : assignment_vars (fun _ => true) hrs (job_id job) b5 <> []).
  { apply (assignment_vars_intro _ hrs (job_id job) b5 hr);
      [apply list_elem_of_filter; split; assumption | reflexivity | exact Hvar]. }
  destruct (assignment_vars (fun _ => true) hrs (job_id job) b5)
    as [| v0 vs] eqn:Evars; [congruence |].
  pose proof (execution_added jobs resources b5 job v0 vs Hjob Hstart Evars)
    as Hin.
  pose proof (solves_constraint rho _ _ Hin Hsol) as Hh.
  simpl in Hh. apply Z.leb_le in Hh.
  destruct (sum_exprs_positive rho (v0 :: vs) Hh) as (v & Hv & Hpos).
  rewrite <- Evars in Hv.
  apply assignment_vars_elem in Hv as (hr' & inner & Hin' & _ & Hra & Hinner).
  apply list_elem_of_filter in Hin' as [Hhuman' Hres'].
  exists hr', v. repeat split; try assumption.
  rewrite (adds_constraints_assignment b5) by exact H5.
  unfold assignment_var. rewrite Hra. exact Hinner.
Qed.

End Staffing.



Lemma every_job_is_staffed_witness :
  ConstraintBuilder.build_constraints 0 Samples.plan_jobs
    Samples.plan_resources [] Samples.config
    (ConstraintBuilder.init CpModel.empty)
  = inr (Samples.built Samples.plan_jobs Samples.plan_resources)
  /\ NoDup (map (fun r => resource_id (resource_base r))
                Samples.plan_resources)
  /\ CpModel.solves Samples.plan_values
       (ConstraintBuilder.model
          (Samples.built Samples.plan_jobs Samples.plan_resources))
     = true
  /\ exists hr v,
       hr ∈ Samples.plan_resources
       /\ assignment_var
            (Samples.built Samples.plan_jobs Samples.plan_resources)
            (resource_id (resource_base hr)) "J2"
          = Some v
       /\ (1 <= Samples.plan_values (CpModel.var_index v))%Z.
Proof.
  assert (Hb : ConstraintBuilder.build_constraints 0 Samples.plan_jobs
                 Samples.plan_resources [] Samples.config
                 (ConstraintBuilder.init CpModel.empty)
               = inr (Samples.built Samples.plan_jobs Samples.plan_resources))
    by (vm_compute; reflexivity).
  assert (Hnd : NoDup (map (fun r => resource_id (resource_base r))
                           Samples.plan_resources))
    by (apply NoDup_singleton).
  assert (Hsol : CpModel.solves Samples.plan_values
                   (ConstraintBuilder.model
                      (Samples.built Samples.plan_jobs Samples.plan_resources))
                 = true) by (vm_compute; reflexivity).
  repeat (split; [assumption |]).
  destruct (every_job_is_staffed 0 Samples.plan_jobs Samples.plan_resources []
              Samples.config _ _ (Samples.job "J2" [] ["J1"] [] None)
              (Samples.human "H1" ["welder"]) Samples.plan_values Hb Hnd)
    as (hr & v & Hhr & _ & Hv & Hpos);
    [right; left | left | reflexivity | exact Hsol |].
  exists hr, v. repeat split; assumption.
Defined.

(** ** Parsed solutions *)

Section ParsedSolutions.
Import CpModel ConstraintBuilder ScheduleModel SolutionParser.

Lemma create_task_vars H id dv m1 b k :
  k = id
  \/ is_Some (task_vars (task_starts b) (task_ends b) (task_durations b) k) ->
  is_Some (task_vars (task_starts (create_task H id dv m1 b))
                     (task_ends (create_task H id dv m1 b))
                     (task_durations (create_task H id dv m1 b)) k).
Proof.
  unfold create_task, task_vars. simpl. rewrite !dict_get_set_cases.
  destruct (decide (id = k)) as [-> | Hne]; [eauto |].
  intros [-> | H']; [congruence | exact H'].
Qed.

Lemma tasks_created jobs preps config b k :
  k ∈ map job_id jobs ++ map prep_id preps ->
  let b1 := _create_task_variables jobs preps config b in
  is_Some (task_vars (task_starts b1) (task_ends b1) (task_durations b1) k).
Proof.
  intros Hk. unfold _create_task_variables.
  set (H := default 168%Z (time_horizon_hours config)).
  set (Q := fun b' : ConstraintBuilder.t =>
              is_Some (task_vars (task_starts b') (task_ends b')
                                 (task_durations b') k)).
  assert (Hjob : forall b0 a, Q b0 -> Q (create_job_variables H b0 a)).
  { intros b0 a Hq. unfold create_job_variables.
    destruct (job_duration_var a (model b0)) as [dv m1].
    apply create_task_vars. right. exact Hq. }
  assert (Hprep : forall b0 a, Q b0 -> Q (create_prep_variables H b0 a)).
  { intros b0 a Hq. unfold create_prep_variables.
    destruct (NewConstant _ (model b0)) as [dv m1].
    apply create_task_vars. right. exact Hq. }
  apply elem_of_app in Hk as [Hk | Hk];
    apply list_elem_of_fmap in Hk as (x & -> & Hx).
  - apply (fold_left_inv Q); [| exact Hprep].
    apply (fold_left_reaches (create_job_variables H) (fun _ => True) Q
             jobs x b Hx I); [intros; exact I | | intros; apply Hjob; assumption].
    intros b0 _. unfold create_job_variables.
    destruct (job_duration_var x (model b0)) as [dv m1].
    apply create_task_vars. left. reflexivity.
  - apply (fold_left_reaches (create_prep_variables H) (fun _ => True) Q
             preps x _ Hx I); [intros; exact I | | intros; apply Hprep; assumption].
    intros b0 _. unfold create_prep_variables.
    destruct (NewConstant _ (model b0)) as [dv m1].
    apply create_task_vars. left. reflexivity.
Qed.

Lemma minutes_as_hours (p s e d : Z) :
  (s + d = e)%Z ->
  (calculated_hours (p + Py.timedelta_minutes s) (p + Py.timedelta_minutes e)
   == inject_Z d / (60 # 1))%Q.
Proof.
  intros <-. unfold calculated_hours, Py.total_seconds, Py.timedelta_minutes,
    Py.us_per_minute, Py.us_per_second, Qdiv, Qeq, inject_Z.
  simpl. lia.
Qed.

Lemma parsed_interval_succeeds value p tid ty name wp eng fixed (s e d : IntVar) :
  (value (var_index s) + value (var_index d) = value (var_index e))%Z ->
  (0 < value (var_index d))%Z ->
  exists iv,
    parsed_interval value p tid ty name wp eng fixed (s, e, d) = inr iv
    /\ task_id iv = tid
    /\ start_time iv = (p + Py.timedelta_minutes (value (var_index s)))%Z
    /\ end_time iv = (p + Py.timedelta_minutes (value (var_index e)))%Z.
Proof.
  intros Hsum Hpos. unfold parsed_interval, TaskInterval_new. cbn [start_time end_time duration_hours].
  destruct (Z.leb_spec (p + Py.timedelta_minutes (value (var_index e)))
                       (p + Py.timedelta_minutes (value (var_index s))))
    as [Hle | _].
  { unfold Py.timedelta_minutes, Py.us_per_minute, Py.us_per_second in Hle. lia. }
  destruct (Qle_bool (inject_Z (value (var_index d)) / (60 # 1)) 0) eqn:Ed.
  { apply Qle_bool_iff in Ed. exfalso.
    unfold Qdiv, Qle, inject_Z in Ed. simpl in Ed. lia. }
  destruct (Qle_bool _ (1 # 100)) eqn:Eg.
  - simpl. eexists. split; [reflexivity |]. repeat split.
  - exfalso. apply not_true_iff_false in Eg. apply Eg. apply Qle_bool_iff.
    pose proof (minutes_as_hours p _ _ _ Hsum) as Heq.
    assert (Hz : (Qabs
                    (calculated_hours
                       (p + Py.timedelta_minutes (value (var_index s)))
                       (p + Py.timedelta_minutes (value (var_index e)))
                     - inject_Z (value (var_index d)) / (60 # 1)) == 0)%Q).
    { rewrite Heq. unfold Qminus. rewrite Qplus_opp_r. reflexivity. }
    rewrite Hz.
    discriminate.
Qed.

Lemma parse_loop {A : Type}
  (step : list TaskInterval -> A -> Exn + list TaskInterval)
  (R : A -> TaskInterval -> Prop) (l : list A) :
  (forall x, x ∈ l ->
     exists iv, (forall ivs, step ivs x = inr (ivs ++ [iv])) /\ R x iv) ->
  forall ivs, exists new,
    foldE step l ivs = inr (ivs ++ new) /\ Forall2 R l new.
Proof.
  induction l as [| x l IH]; intros Hstep ivs; simpl.
  - exists []. rewrite app_nil_r. split; [reflexivity | constructor].
  - destruct (Hstep x) as (iv & Hiv & HR); [left |]. rewrite Hiv. simpl.
    destruct (IH (fun y Hy => Hstep y (list_elem_of_further _ _ _ Hy))
                 (ivs ++ [iv])) as (new & -> & Hnew).
    exists (iv :: new). rewrite <- app_assoc. split; [reflexivity |].
    constructor; assumption.
Qed.

Lemma Forall2_ids {A : Type} (f : A -> string) (P : TaskInterval -> Prop)
  (l : list A) (new : list TaskInterval) :
  Forall2 (fun x iv => task_id iv = f x /\ P iv) l new ->
  map task_id new = map f l /\ Forall P new.
Proof.
  induction 1 as [| x iv l new [Hid HP] _ [IH1 IH2]]; simpl.
  - split; [reflexivity | constructor].
  - split; [congruence | constructor; assumption].
Qed.

(** X15: for a model built on a fresh builder, and values that solve it
    and give every task a positive duration, [_parse_task_intervals]
    does not raise: it returns one interval for each job and then each
    preparation task, in input order, each placed at the values of its
    start and end variables, lasting a positive time inside the
    planning horizon. *)
Theorem solution_parses (now : Z) (jobs : list Job)
  (resources : list Resource) (preparation_tasks : list PreparationTask)
  (config : ConstraintConfig) (m : CpModel.t) (b' : ConstraintBuilder.t)
  (value : nat -> Z) (plan_start_time : Z) :
  build_constraints now jobs resources preparation_tasks config (init m)
  = inr b' ->
  solves value (model b') = true ->
  (forall tid d, Py.dict_get (task_durations b') tid = Some d ->
                 (0 < value (var_index d))%Z) ->
  exists intervals,
    _parse_task_intervals value jobs preparation_tasks (task_starts b')
                          (task_ends b') (task_durations b') plan_start_time
    = inr intervals
    /\ map task_id intervals = map job_id jobs ++ map prep_id preparation_tasks
    /\ Forall (fun iv =>
                 placed_by value plan_start_time b' iv
                 /\ within_horizon plan_start_time
                      (default 168%Z (time_horizon_hours config)) iv)
              intervals.
Proof.
  intros Hbuild Hsol Hpos.
  set (horizon := default 168%Z (time_horizon_hours config)).
  set (good := fun iv => placed_by value plan_start_time b' iv
                         /\ within_horizon plan_start_time horizon iv).
  destruct (stages_same_tasks _ _ _ _ _ _ _ Hbuild) as (_ & Hsame).
  assert (Hvars : forall k,
             k ∈ map job_id jobs ++ map prep_id preparation_tasks ->
             forall ty name wp eng fixed,
             exists iv,
               (forall ivs,
                  match task_vars (task_starts b') (task_ends b')
                                  (task_durations b') k with
                  | Some vars =>
                      iv <- parsed_interval value plan_start_time k ty name
                              wp eng fixed vars ;;
                      inr (ivs ++ [iv])
                  | None => inr ivs
                  end = inr (ivs ++ [iv]))
               /\ task_id iv = k /\ good iv).
  { intros k Hk ty name wp eng fixed.
    pose proof (tasks_created jobs preparation_tasks config (init m) k Hk)
      as Hc. cbv zeta in Hc.
    destruct Hsame as (_ & Hs & Hd & He). rewrite <- Hs, <- Hd, <- He in Hc.
    destruct Hc as [[[s e] d] Hc]. rewrite Hc.
    unfold task_vars in Hc.
    destruct (Py.dict_get (task_starts b') k) as [s0 |] eqn:Es; [| discriminate].
    destruct (Py.dict_get (task_ends b') k) as [e0 |] eqn:Ee; [| discriminate].
    destruct (Py.dict_get (task_durations b') k) as [d0 |] eqn:Ed;
      [| discriminate].
    injection Hc as -> -> ->.
    destruct (task_times_linked now jobs resources preparation_tasks config m
                b' k s d e value Hbuild Es Ed Ee Hsol)
      as (Hsum & Hbs & Hbe & _).
    destruct (parsed_interval_succeeds value plan_start_time k ty name wp eng
                fixed s e d Hsum (Hpos k d Ed))
      as (iv & Hiv & Hid & Hst & Hen).
    exists iv. split; [intros ivs; rewrite Hiv; reflexivity |].
    split; [exact Hid |]. split.
    - exists s, e. rewrite Hid. repeat split; assumption.
    - unfold within_horizon. rewrite Hst, Hen. fold horizon in Hbs, Hbe.
      pose proof (Hpos k d Ed).
      unfold Py.timedelta_minutes, Py.us_per_minute, Py.us_per_second.
      lia. }
  unfold _parse_task_intervals.
  destruct (parse_loop
              (fun ivs job =>
                 match task_vars (task_starts b') (task_ends b')
                                 (task_durations b') (job_id job) with
                 | Some vars =>
                     iv <- parsed_interval value plan_start_time (job_id job)
                             JOB (Some (job_name job))
                             (Some (work_card_id job))
                             (Some (job_engine_id job))
                             (bool_decide (is_Some (fixed_start job))) vars ;;
                     inr (ivs ++ [iv])
                 | None => inr ivs
                 end)
              (fun job iv => task_id iv = job_id job /\ good iv) jobs)
    with (ivs := @nil TaskInterval) as (new1 & -> & H1).
  { intros job Hjob. apply Hvars. apply elem_of_app. left.
    apply list_elem_of_fmap. eauto. }
  simpl.
  destruct (parse_loop
              (fun ivs task =>
                 match task_vars (task_starts b') (task_ends b')
                                 (task_durations b') (prep_id task) with
                 | Some vars =>
                     iv <- parsed_interval value plan_start_time (prep_id task)
                             PREPARATION (Some (prep_name task))
                             (Some (work_package_id task))
                             (Some (prep_engine_id task)) false vars ;;
                     inr (ivs ++ [iv])
                 | None => inr ivs
                 end)
              (fun task iv => task_id iv = prep_id task /\ good iv)
              preparation_tasks)
    with (ivs := new1) as (new2 & -> & H2).
  { intros task Htask. apply Hvars. apply elem_of_app. right.
    apply list_elem_of_fmap. eauto. }
  apply Forall2_ids in H1 as [Hi1 Hg1]. apply Forall2_ids in H2 as [Hi2 Hg2].
  exists (new1 ++ new2). split; [reflexivity |].
  split; [rewrite map_app; congruence |].
  apply Forall_app. split; assumption.
Qed.





End ParsedSolutions.

(** ** Schedule metrics *)

Section PlanEnd.
Import ScheduleModel SolutionMetrics.

Lemma max_of_ge x xs : (x <= max_of x xs)%Z.
Proof.
  unfold max_of. revert x. induction xs as [| y xs IH]; intros x; simpl; [lia |].
  specialize (IH (Z.max x y)). lia.
Qed.

Lemma max_of_upper x xs y : y ∈ xs -> (y <= max_of x xs)%Z.
Proof.
  unfold max_of. revert x. induction xs as [| z xs IH]; intros x Hy;
    [inversion Hy |].
  simpl. apply elem_of_cons in Hy as [-> | Hy].
  - pose proof (max_of_ge (Z.max x z) xs). unfold max_of in *. lia.
  - apply IH. exact Hy.
Qed.

Lemma min_of_le x xs : (min_of x xs <= x)%Z.
Proof.
  unfold min_of. revert x. induction xs as [| y xs IH]; intros x; simpl; [lia |].
  specialize (IH (Z.min x y)). lia.
Qed.

Lemma min_of_lower x xs y : y ∈ xs -> (min_of x xs <= y)%Z.
Proof.
  unfold min_of. revert x. induction xs as [| z xs IH]; intros x Hy;
    [inversion Hy |].
  simpl. apply elem_of_cons in Hy as [-> | Hy].
  - pose proof (min_of_le (Z.min x z) xs). unfold min_of in *. lia.
  - apply IH. exact Hy.
Qed.

Lemma max_end_upper iv rest x :
  x ∈ iv :: rest -> (end_time x <= max_of (end_time iv) (map end_time rest))%Z.
Proof.
  intros Hx. apply elem_of_cons in Hx as [-> | Hx]; [apply max_of_ge |].
  apply max_of_upper. apply list_elem_of_fmap. eauto.
Qed.

Lemma min_start_lower iv rest x :
  x ∈ iv :: rest ->
  (min_of (start_time iv) (map start_time rest) <= start_time x)%Z.
Proof.
  intros Hx. apply elem_of_cons in Hx as [-> | Hx]; [apply min_of_le |].
  apply min_of_lower. apply list_elem_of_fmap. eauto.
Qed.

(** X17: the plan end that [_calculate_plan_end_time] returns is
    strictly after the plan start, no task ends after it, and it is
    either one hour after the plan start or the end of a task. *)
Theorem plan_end_covers_tasks (task_intervals : list TaskInterval)
  (plan_start_time : Z) :
  let plan_end_time := _calculate_plan_end_time task_intervals plan_start_time in
  (plan_start_time < plan_end_time)%Z
  /\ (forall interval, interval ∈ task_intervals ->
        (end_time interval <= plan_end_time)%Z)
  /\ (plan_end_time = (plan_start_time + Py.us_per_hour)%Z
      \/ exists interval, interval ∈ task_intervals
                          /\ plan_end_time = end_time interval).
Proof.
  assert (Hhour : (0 < Py.us_per_hour)%Z) by reflexivity.
  unfold _calculate_plan_end_time.
  destruct task_intervals as [| iv rest]; simpl.
  - split; [lia |]. split; [intros x Hx; inversion Hx | left; reflexivity].
  - destruct (Z.leb_spec (max_of (end_time iv) (map end_time rest))
                         plan_start_time) as [Hle | Hgt].
    + split; [lia |]. split; [| left; reflexivity].
      intros x Hx. pose proof (max_end_upper iv rest x Hx). lia.
    + split; [lia |]. split; [intros x Hx; apply max_end_upper; exact Hx |].
      right.
      assert (Hmem : forall x xs, max_of x xs ∈ x :: xs).
      { intros x xs. unfold max_of. revert x.
        induction xs as [| y xs IH]; intros x; simpl; [left |].
        specialize (IH (Z.max x y)).
        apply elem_of_cons in IH as [-> | IH].
        - destruct (Z.max_spec x y) as [[_ ->] | [_ ->]];
            [right; left | left].
        - right. right. exact IH. }
      specialize (Hmem (end_time iv) (map end_time rest)).
      change (end_time iv :: map end_time rest) with (map end_time (iv :: rest))
        in Hmem.
      apply list_elem_of_fmap in Hmem as (x & Hx & Hin). eauto.
Qed.

End PlanEnd.

Section CriticalPath.
Import ScheduleModel SolutionMetrics.

Lemma insert_by_end_perm x l : insert_by_end x l ≡ₚ x :: l.
Proof.
  induction l as [| y l IH]; simpl; [reflexivity |].
  destruct (end_time x <? end_time y)%Z; [| reflexivity].
  rewrite IH. apply Permutation_swap.
Qed.

Lemma sorted_by_end_desc_perm l : sorted_by_end_desc l ≡ₚ l.
Proof.
  induction l as [| x l IH]; simpl; [reflexivity |].
  rewrite insert_by_end_perm. rewrite IH. reflexivity.
Qed.

Lemma insert_by_end_sorted x l : latest_first l -> latest_first (insert_by_end x l).
Proof.
  induction l as [| y l IH]; simpl.
  - intros _. split; [constructor | exact I].
  - intros [Hy Hl].
    destruct (Z.ltb_spec (end_time x) (end_time y)) as [Hlt | Hge]; simpl.
    + split; [| apply IH; exact Hl].
      rewrite insert_by_end_perm. constructor; [lia | exact Hy].
    + split; [| split; assumption].
      constructor; [lia |].
      eapply Forall_impl; [exact Hy |]. simpl. intros z Hz. lia.
Qed.

Lemma sorted_by_end_desc_sorted l : latest_first (sorted_by_end_desc l).
Proof.
  induction l as [| x l IH]; simpl; [exact I |].
  apply insert_by_end_sorted. exact IH.
Qed.

(** X18: [_analyze_critical_path] returns the ids of the five
    intervals that end last (all of them when there are fewer), latest
    first: the intervals split into the chosen ones followed by the
    rest, ordered by end time. *)
Theorem critical_path_ends_last (task_intervals : list TaskInterval) :
  exists chosen rest,
    chosen ++ rest ≡ₚ task_intervals
    /\ latest_first (chosen ++ rest)
    /\ length chosen = Nat.min (length task_intervals) 5
    /\ _analyze_critical_path task_intervals = map task_id chosen.
Proof.
  unfold _analyze_critical_path.
  destruct task_intervals as [| iv l].
  - exists [], []. simpl. repeat split; reflexivity.
  - set (sorted := sorted_by_end_desc (iv :: l)).
    exists (take (Nat.min (length sorted) 5) sorted),
           (drop (Nat.min (length sorted) 5) sorted).
    rewrite take_drop.
    assert (Hlen : length sorted = length (iv :: l)).
    { apply Permutation_length. apply sorted_by_end_desc_perm. }
    split; [apply sorted_by_end_desc_perm |].
    split; [apply sorted_by_end_desc_sorted |].
    split; [rewrite length_take; rewrite Hlen; lia | reflexivity].
Qed.

End CriticalPath.

Section Metrics.
Import ScheduleModel SolutionMetrics.

Lemma sum_from_bounds (xs : list Q) (a : Q) :
  Forall (fun x => 0 <= x /\ x <= 1)%Q xs ->
  (a <= fold_left Qplus xs a
   /\ fold_left Qplus xs a <= a + inject_Z (Z.of_nat (length xs)))%Q.
Proof.
  intros H. revert a. induction H as [| x xs [H0 H1] _ IH]; intros a; simpl.
  - split; [apply Qle_refl |].
    change (inject_Z (Z.of_nat 0)) with (0 # 1)%Q. rewrite Qplus_0_r.
    apply Qle_refl.
  - destruct (IH (a + x)%Q) as [IH1 IH2].
    assert (Hs : (inject_Z (Z.pos (Pos.of_succ_nat (length xs)))
                  == inject_Z (Z.of_nat (length xs)) + 1)%Q).
    { rewrite <- (inject_Z_plus _ 1). rewrite Zpos_P_of_succ_nat.
      unfold Z.succ. reflexivity. }
    rewrite Hs. split; lra.
Qed.

Lemma sum_from_nonneg (xs : list Q) (a : Q) :
  Forall (fun x => 0 <= x)%Q xs -> (a <= fold_left Qplus xs a)%Q.
Proof.
  intros H. revert a. induction H as [| x xs H0 _ IH]; intros a; simpl.
  - apply Qle_refl.
  - specialize (IH (a + x)%Q). lra.
Qed.

Lemma dict_set_values {V : Type} (P : V -> Prop) (d : list (string * V)) k v :
  Forall (fun kv => P (snd kv)) d -> P v ->
  Forall (fun kv => P (snd kv)) (Py.dict_set d k v).
Proof.
  intros Hd Hv. induction Hd as [| [k' v'] d Hkv Hd IH]; simpl.
  - repeat constructor. exact Hv.
  - destruct (decide (k' = k)); constructor; simpl; auto.
Qed.

Lemma group_allocations_from (Q : ResourceAllocation -> Prop) allocs :
  Forall Q allocs ->
  forall d,
    (forall k l, Py.dict_get d k = Some l -> Forall Q l) ->
    forall k l,
      Py.dict_get
        (fold_left
           (fun (d : list (string * list ResourceAllocation)) alloc =>
              Py.dict_set d (alloc_resource_id alloc)
                (default [] (Py.dict_get d (alloc_resource_id alloc))
                 ++ [alloc]))
           allocs d) k
      = Some l ->
      Forall Q l.
Proof.
  induction 1 as [| a allocs Ha _ IH]; intros d Hd k l; simpl; [apply Hd |].
  apply IH. intros k' l'. rewrite dict_get_set_cases.
  destruct (decide (alloc_resource_id a = k')) as [_ | Hne]; [| apply Hd].
  intros [= <-]. apply Forall_app. split; [| repeat constructor; exact Ha].
  destruct (Py.dict_get d (alloc_resource_id a)) as [l0 |] eqn:E; simpl.
  - exact (Hd _ _ E).
  - constructor.
Qed.

Lemma hours_nonneg (t : Z) : (0 <= t)%Z -> (0 <= Py.total_seconds t / (3600 # 1))%Q.
Proof.
  intros H. unfold Py.total_seconds, Qdiv, Qle. simpl. lia.
Qed.

Lemma utilization_bounds allocations resources plan_start plan_end :
  Forall (fun a => (alloc_start_time a < alloc_end_time a)%Z) allocations ->
  Forall (fun kv => 0 <= snd kv /\ snd kv <= 1)%Q
         (_calculate_resource_utilization allocations resources plan_start
                                          plan_end).
Proof.
  intros Hall. unfold _calculate_resource_utilization.
  set (total := (Py.total_seconds (plan_end - plan_start) / (3600 # 1))%Q).
  destruct (Qle_bool total 0) eqn:Et; [constructor |].
  assert (Hpos : (0 < total)%Q).
  { apply Qnot_le_lt. intros Hle. apply Qle_bool_iff in Hle. congruence. }
  apply (fold_left_inv (Forall (fun kv : string * Q => 0 <= snd kv /\ snd kv <= 1)%Q));
    [constructor |].
  intros u r Hu.
  destruct (default [] (Py.dict_get (group_allocations allocations)
                                    (resource_id (resource_base r))))
    as [| a l] eqn:Eg.
  - apply (dict_set_values (fun v => 0 <= v /\ v <= 1)%Q); [exact Hu |].
    split; [apply Qle_refl | discriminate].
  - apply (dict_set_values (fun v => 0 <= v /\ v <= 1)%Q); [exact Hu |].
    assert (Hl : Forall (fun a => (alloc_start_time a < alloc_end_time a)%Z)
                        (a :: l)).
    { destruct (Py.dict_get (group_allocations allocations)
                            (resource_id (resource_base r))) as [l0 |] eqn:E;
        simpl in Eg; [| discriminate].
      subst l0.
      eapply (group_allocations_from _ allocations Hall []); [| exact E].
      intros k l0 H0. discriminate. }
    set (used := sum_floats (map get_duration_hours (a :: l))).
    assert (Hused : (0 <= used)%Q).
    { unfold used, sum_floats. apply sum_from_nonneg.
      apply Forall_fmap. eapply Forall_impl; [exact Hl |].
      intros x Hx. simpl in *. unfold get_duration_hours. apply hours_nonneg.
      lia. }
    destruct (Qle_bool (used / total) 1) eqn:Er.
    + split; [| apply Qle_bool_iff; exact Er].
      apply Qle_shift_div_l; [exact Hpos |]. lra.
    + split; discriminate.
Qed.

(** X19: for intervals and allocations that passed their validators
    and a non-negative solve time, [_calculate_metrics] passes the
    bounds of [ScheduleMetrics]: every utilisation and their average
    lie between 0 and 1, the makespan covers the length of every
    interval, and a total cost is reported only when positive. *)
Theorem metrics_pass_validation (solve_time : Q)
  (status : CPSATSolver.SolverStatus) (objective_value : option Q)
  (task_intervals : list TaskInterval)
  (resource_allocations : list ResourceAllocation) (resources : list Resource) :
  Forall (fun iv => (start_time iv < end_time iv)%Z
                    /\ (0 < duration_hours iv)%Q) task_intervals ->
  Forall (fun a => (alloc_start_time a < alloc_end_time a)%Z)
         resource_allocations ->
  (0 <= solve_time)%Q ->
  exists metrics,
    _calculate_metrics solve_time status objective_value task_intervals
                       resource_allocations resources
    = inr metrics
    /\ Forall (fun kv => 0 <= snd kv /\ snd kv <= 1)%Q
              (resource_utilization metrics)
    /\ (0 <= average_utilization metrics /\ average_utilization metrics <= 1)%Q
    /\ (forall iv, iv ∈ task_intervals ->
          (calculated_hours (start_time iv) (end_time iv)
           <= makespan_hours metrics)%Q)
    /\ match total_cost metrics with
       | Some c => (0 < c)%Q
       | None => True
       end.
Proof.
  intros Hiv Hal Htime.
  assert (Hst : Qle_bool 0 solve_time = true) by (apply Qle_bool_iff; exact Htime).
  unfold _calculate_metrics.
  destruct task_intervals as [| iv rest].
  - unfold ScheduleMetrics_new. simpl. rewrite Hst. simpl.
    eexists. split; [reflexivity |]. simpl.
    split; [constructor |]. split; [split; discriminate |].
    split; [intros x Hx; inversion Hx | exact I].
  - set (max_end_time := max_of (end_time iv) (map end_time rest)).
    set (min_start_time := min_of (start_time iv) (map start_time rest)).
    set (makespan := (Py.total_seconds (max_end_time - min_start_time)
                      / (3600 # 1))%Q).
    set (util := _calculate_resource_utilization resource_allocations
                   resources min_start_time max_end_time).
    set (avg := match util with
                | [] => 0 # 1
                | _ :: _ =>
                    (sum_floats (map snd util)
                     / inject_Z (Z.of_nat (length util)))%Q
                end).
    set (cost := sum_floats (omap alloc_cost resource_allocations)).
    assert (Hspan : forall x, x ∈ iv :: rest ->
              (calculated_hours (start_time x) (end_time x) <= makespan)%Q).
    { intros x Hx. pose proof (max_end_upper iv rest x Hx).
      pose proof (min_start_lower iv rest x Hx).
      fold max_end_time in H. fold min_start_time in H0.
      unfold calculated_hours, makespan, Py.total_seconds, Qdiv, Qle.
      simpl. lia. }
    assert (Hmk : (0 <= makespan)%Q).
    { eapply Qle_trans; [| apply (Hspan iv); left].
      apply Forall_cons in Hiv as [[Hlt _] _].
      unfold calculated_hours. apply hours_nonneg. lia. }
    assert (Hdur : (0 <= sum_floats (map duration_hours (iv :: rest)))%Q).
    { unfold sum_floats. apply sum_from_nonneg. apply Forall_fmap.
      eapply Forall_impl; [exact Hiv |]. intros x [_ Hx]. simpl.
      apply Qlt_le_weak. exact Hx. }
    pose proof (utilization_bounds resource_allocations resources
                  min_start_time max_end_time Hal) as Hutil.
    fold util in Hutil.
    assert (Havg : (0 <= avg /\ avg <= 1)%Q).
    { unfold avg. destruct util as [| kv u] eqn:Eu; [split; discriminate |].
      rewrite <- Eu in *.
      assert (Hb : Forall (fun x => 0 <= x /\ x <= 1)%Q (map snd util)).
      { apply Forall_fmap. exact Hutil. }
      destruct (sum_from_bounds (map snd util) 0 Hb) as [Hlo Hhi].
      rewrite length_map in Hhi. fold (sum_floats (map snd util)) in Hlo, Hhi.
      assert (Hn : (0 < inject_Z (Z.of_nat (length util)))%Q).
      { rewrite Eu. simpl. reflexivity. }
      split.
      - apply Qle_shift_div_l; [exact Hn |]. lra.
      - apply Qle_shift_div_r; [exact Hn |]. lra. }
    unfold ScheduleMetrics_new. cbn [makespan_hours total_duration_hours
      critical_path_length_hours average_utilization total_waiting_time_hours
      average_waiting_time_hours total_cost constraint_violations
      solve_time_seconds].
    fold max_end_time min_start_time makespan util avg cost.
    assert (Hw : Qle_bool 0 (0 / inject_Z (Z.of_nat (length (iv :: rest))))
                 = true).
    { apply Qle_bool_iff. unfold Qdiv. rewrite Qmult_0_l. apply Qle_refl. }
    assert (Hc : match (if Qle_bool cost 0 then None else Some cost) with
                 | Some c => Qle_bool 0 c
                 | None => true
                 end = true
                 /\ match (if Qle_bool cost 0 then None else Some cost) with
                    | Some c => (0 < c)%Q
                    | None => True
                    end).
    { destruct (Qle_bool cost 0) eqn:Ec; [split; [reflexivity | exact I] |].
      assert (0 < cost)%Q.
      { apply Qnot_le_lt. intros Hle. apply Qle_bool_iff in Hle. congruence. }
      split; [apply Qle_bool_iff; apply Qlt_le_weak |]; assumption. }
    destruct Hc as [Hc1 Hc2].
    rewrite (proj2 (Qle_bool_iff 0 makespan) Hmk).
    rewrite (proj2 (Qle_bool_iff 0 _) Hdur).
    rewrite (proj2 (Qle_bool_iff 0 avg) (proj1 Havg)).
    rewrite (proj2 (Qle_bool_iff avg 1) (proj2 Havg)).
    rewrite Hw, Hc1, Hst. simpl.
    eexists. split; [reflexivity |]. simpl.
    split; [exact Hutil |]. split; [exact Havg |].
    split; [exact Hspan | exact Hc2].
Qed.

End Metrics.

(** ** Parsed resource allocations *)

Section ParsedAllocations.
Import CpModel ConstraintBuilder SolutionParser SolutionMetrics.

Lemma started_tasks_have_times jobs preps config (m : CpModel.t) k :
  let b1 := _create_task_variables jobs preps config (init m) in
  is_Some (Py.dict_get (task_starts b1) k) ->
  is_Some (task_vars (task_starts b1) (task_ends b1) (task_durations b1) k).
Proof.
  unfold _create_task_variables.
  set (H := default 168%Z (time_horizon_hours config)).
  set (Q := fun b : ConstraintBuilder.t =>
              is_Some (Py.dict_get (task_starts b) k) ->
              is_Some (task_vars (task_starts b) (task_ends b)
                                 (task_durations b) k)).
  assert (Hstep : forall id dv m1 b, Q b -> Q (create_task H id dv m1 b)).
  { intros id dv m1 b Hq Hs. apply create_task_vars.
    apply create_task_starts in Hs as [-> | Hs]; [left; reflexivity |].
    right. apply Hq. exact Hs. }
  cbv zeta. apply (fold_left_inv Q); [apply (fold_left_inv Q) |].
  - intros [x Hx]. discriminate.
  - intros b job Hq. unfold create_job_variables.
    destruct (job_duration_var job (model b)) as [dv m1]. apply Hstep. exact Hq.
  - intros b task Hq. unfold create_prep_variables.
    destruct (NewConstant _ (model b)) as [dv m1]. apply Hstep. exact Hq.
Qed.

Lemma resource_by_id_elem resources rid r :
  Py.dict_get (resource_by_id resources) rid = Some r ->
  r ∈ resources /\ resource_id (resource_base r) = rid.
Proof.
  unfold resource_by_id.
  assert (Hgen : forall d,
            (forall k x, Py.dict_get d k = Some x ->
                         x ∈ resources /\ resource_id (resource_base x) = k) ->
            forall l, (forall x, x ∈ l -> x ∈ resources) ->
            forall k x,
              Py.dict_get
                (fold_left (fun d r => Py.dict_set d (resource_id (resource_base r)) r)
                           l d) k = Some x ->
              x ∈ resources /\ resource_id (resource_base x) = k).
  { intros d Hd l. revert d Hd. induction l as [| y l IH]; intros d Hd Hl k x;
      simpl; [apply Hd |].
    apply IH; [| intros z Hz; apply Hl; right; exact Hz].
    intros k' x'. rewrite dict_get_set_cases.
    destruct (decide (resource_id (resource_base y) = k')) as [Heq | Hne];
      [| apply Hd].
    intros [= <-]. split; [apply Hl; left | exact Heq]. }
  apply (Hgen [] (fun k x H => ltac:(discriminate)) resources (fun x H => H)).
Qed.

(** X20: for a model built on a fresh builder, values that solve it
    and give every task a positive duration, and hourly costs that are
    not negative, [_parse_resource_allocations] does not raise: every
    allocation it returns is for a known resource and an assignment
    variable that the solver set, spans the time of its task, ends
    after it starts and has no negative cost. *)
Theorem allocations_parse (now : Z) (jobs : list Job)
  (resources : list Resource) (preparation_tasks : list PreparationTask)
  (config : ConstraintConfig) (m : CpModel.t) (b' : ConstraintBuilder.t)
  (value : nat -> Z) (plan_start_time : Z) :
  build_constraints now jobs resources preparation_tasks config (init m)
  = inr b' ->
  solves value (model b') = true ->
  (forall tid d, Py.dict_get (task_durations b') tid = Some d ->
                 (0 < value (var_index d))%Z) ->
  (forall r c, r ∈ resources -> hourly_cost (resource_base r) = Some c ->
               (0 <= c)%Q) ->
  exists allocations,
    _parse_resource_allocations value resources (resource_assignments b')
                                (task_starts b') (task_ends b') plan_start_time
    = inr allocations
    /\ Forall (fun a =>
                 allocated_by value plan_start_time resources b' a
                 /\ (alloc_start_time a < alloc_end_time a)%Z
                 /\ match alloc_cost a with
                    | Some c => (0 <= c)%Q
                    | None => True
                    end)
              allocations.
Proof.
  intros Hbuild Hsol Hpos Hcost.
  set (good := fun a => allocated_by value plan_start_time resources b' a
                        /\ (alloc_start_time a < alloc_end_time a)%Z
                        /\ match alloc_cost a with
                           | Some c => (0 <= c)%Q
                           | None => True
                           end).
  destruct (stages_same_tasks _ _ _ _ _ _ _ Hbuild)
    as (_ & (_ & Hs & Hd & He)).
  unfold _parse_resource_allocations.
  apply (foldE_total_in (Forall good)); [constructor |].
  intros allocations [rid assignments] Hentry Hacc.
  destruct (Py.dict_get (resource_by_id resources) rid) as [resource |] eqn:Er;
    [| eauto].
  destruct (resource_by_id_elem resources rid resource Er) as [Hres Hrid].
  apply (foldE_total_in (Forall good)); [exact Hacc |].
  intros acc [tid v] Hitem Hgood. unfold parse_assignment.
  destruct (Z.eqb_spec (value (var_index v)) 0) as [Hz | Hnz]; [eauto |].
  destruct (Py.dict_get (task_starts b') tid) as [s |] eqn:Es; [| eauto].
  destruct (Py.dict_get (task_ends b') tid) as [e |] eqn:Ee; [| eauto].
  pose proof (started_tasks_have_times jobs preparation_tasks config m tid)
    as Hv. cbv zeta in Hv. rewrite <- Hs, <- Hd, <- He in Hv.
  destruct Hv as [[[s0 e0] d] Hv]; [rewrite Es; eauto |].
  unfold task_vars in Hv. rewrite Es, Ee in Hv.
  destruct (Py.dict_get (task_durations b') tid) as [d0 |] eqn:Ed;
    [| discriminate].
  injection Hv as <- <- <-.
  destruct (task_times_linked now jobs resources preparation_tasks config m b'
              tid s d0 e value Hbuild Es Ed Ee Hsol) as (Hsum & _).
  pose proof (Hpos tid d0 Ed) as Hd0.
  unfold ResourceAllocation_new. cbn [alloc_end_time alloc_start_time alloc_cost].
  destruct (Z.leb_spec (plan_start_time + Py.timedelta_minutes (value (var_index e)))
                       (plan_start_time + Py.timedelta_minutes (value (var_index s))))
    as [Hle | Hlt].
  { unfold Py.timedelta_minutes, Py.us_per_minute, Py.us_per_second in Hle. lia. }
  assert (Hby : forall c,
            allocated_by value plan_start_time resources b'
              {| alloc_resource_id := rid;
                 alloc_resource_name := Some (resource_name (resource_base resource));
                 allocated_to := tid;
                 alloc_start_time :=
                   plan_start_time + Py.timedelta_minutes (value (var_index s));
                 alloc_end_time :=
                   plan_start_time + Py.timedelta_minutes (value (var_index e));
                 alloc_cost := c |}).
  { intros c. exists assignments, v, s, e. simpl.
    repeat split; try assumption.
    apply list_elem_of_fmap. exists resource. split; [symmetry |]; assumption. }
  destruct (Py.truthy_float (hourly_cost (resource_base resource))) eqn:Et.
  - destruct (hourly_cost (resource_base resource)) as [c |] eqn:Ec;
      [| discriminate].
    simpl.
    assert (Hc : (0 <= c * (inject_Z (value (var_index e) - value (var_index s))
                            / (60 # 1)))%Q).
    { apply Qmult_le_0_compat; [eapply Hcost; eassumption |].
      unfold Qdiv, Qle, inject_Z. simpl. lia. }
    rewrite (proj2 (Qle_bool_iff _ _) Hc). simpl.
    eexists. split; [reflexivity |]. apply Forall_app. split; [exact Hgood |].
    repeat constructor; simpl; [apply Hby | exact Hlt | exact Hc].
  - simpl. eexists. split; [reflexivity |].
    apply Forall_app. split; [exact Hgood |].
    repeat constructor; simpl; [apply Hby | exact Hlt].
Qed.

End ParsedAllocations.

(** *** Instances on the sample plan *)

Lemma durations_positive_by_list (value : nat -> Z)
  (d : list (string * CpModel.IntVar)) :
  forallb (fun kv => (0 <? value (CpModel.var_index (snd kv)))%Z) d = true ->
  forall tid dv, Py.dict_get d tid = Some dv ->
                 (0 < value (CpModel.var_index dv))%Z.
Proof.
  intros H tid dv Hget. apply dict_get_elem in Hget.
  rewrite forallb_forall in H. apply list_elem_of_In in Hget.
  specialize (H _ Hget). simpl in H. lia.
Qed.

Lemma solution_parses_witness :
  exists intervals,
    SolutionParser._parse_task_intervals Samples.plan_values Samples.plan_jobs
      []
      (ConstraintBuilder.task_starts
         (Samples.built Samples.plan_jobs Samples.plan_resources))
      (ConstraintBuilder.task_ends
         (Samples.built Samples.plan_jobs Samples.plan_resources))
      (ConstraintBuilder.task_durations
         (Samples.built Samples.plan_jobs Samples.plan_resources))
      0
    = inr intervals
    /\ map ScheduleModel.task_id intervals = ["J1"; "J2"].
Proof.
  assert (Hb : ConstraintBuilder.build_constraints 0 Samples.plan_jobs
                 Samples.plan_resources [] Samples.config
                 (ConstraintBuilder.init CpModel.empty)
               = inr (Samples.built Samples.plan_jobs Samples.plan_resources))
    by (vm_compute; reflexivity).
  assert (Hsol : CpModel.solves Samples.plan_values
                   (ConstraintBuilder.model
                      (Samples.built Samples.plan_jobs Samples.plan_resources))
                 = true) by (vm_compute; reflexivity).
  assert (Hpos : forall tid d,
             Py.dict_get
               (ConstraintBuilder.task_durations
                  (Samples.built Samples.plan_jobs Samples.plan_resources))
               tid = Some d ->
             (0 < Samples.plan_values (CpModel.var_index d))%Z).
  { apply durations_positive_by_list. vm_compute. reflexivity. }
  destruct (solution_parses 0 Samples.plan_jobs Samples.plan_resources []
              Samples.config CpModel.empty _ Samples.plan_values 0
              Hb Hsol Hpos) as (intervals & Hp & Hids & _).
  exists intervals. split; [exact Hp | exact Hids].
Defined.


Lemma metrics_pass_validation_witness :
  exists metrics,
    SolutionMetrics._calculate_metrics (1 # 1) CPSATSolver.OPTIMAL None
      [Samples.two_hour_interval] [Samples.two_hour_allocation]
      Samples.plan_resources
    = inr metrics
    /\ (SolutionMetrics.average_utilization metrics <= 1)%Q.
Proof.
  assert (Hiv : Forall (fun iv =>
                          (ScheduleModel.start_time iv
                           < ScheduleModel.end_time iv)%Z
                          /\ (0 < ScheduleModel.duration_hours iv)%Q)
                       [Samples.two_hour_interval]).
  { repeat constructor. }
  assert (Hal : Forall (fun a =>
                          (SolutionMetrics.alloc_start_time a
                           < SolutionMetrics.alloc_end_time a)%Z)
                       [Samples.two_hour_allocation]).
  { repeat constructor. }
  assert (Ht : (0 <= 1 # 1)%Q) by discriminate.
  destruct (metrics_pass_validation (1 # 1) CPSATSolver.OPTIMAL None
              [Samples.two_hour_interval] [Samples.two_hour_allocation]
              Samples.plan_resources Hiv Hal Ht)
    as (metrics & Hm & _ & [_ Havg] & _).
  exists metrics. split; [exact Hm | exact Havg].
Defined.

Lemma allocations_parse_witness :
  exists allocations,
    SolutionMetrics._parse_resource_allocations Samples.plan_values
      Samples.plan_resources
      (ConstraintBuilder.resource_assignments
         (Samples.built Samples.plan_jobs Samples.plan_resources))
      (ConstraintBuilder.task_starts
         (Samples.built Samples.plan_jobs Samples.plan_resources))
      (ConstraintBuilder.task_ends
         (Samples.built Samples.plan_jobs Samples.plan_resources))
      0
    = inr allocations
    /\ Forall (fun a =>
                 (SolutionMetrics.alloc_start_time a
                  < SolutionMetrics.alloc_end_time a)%Z)
              allocations.
Proof.
  assert (Hb : ConstraintBuilder.build_constraints 0 Samples.plan_jobs
                 Samples.plan_resources [] Samples.config
                 (ConstraintBuilder.init CpModel.empty)
               = inr (Samples.built Samples.plan_jobs Samples.plan_resources))
    by (vm_compute; reflexivity).
  assert (Hsol : CpModel.solves Samples.plan_values
                   (ConstraintBuilder.model
                      (Samples.built Samples.plan_jobs Samples.plan_resources))
                 = true) by (vm_compute; reflexivity).
  assert (Hpos : forall tid d,
             Py.dict_get
               (ConstraintBuilder.task_durations
                  (Samples.built Samples.plan_jobs Samples.plan_resources))
               tid = Some d ->
             (0 < Samples.plan_values (CpModel.var_index d))%Z).
  { apply durations_positive_by_list. vm_compute. reflexivity. }
  assert (Hcost : forall r c,
             r ∈ Samples.plan_resources ->
             hourly_cost (resource_base r) = Some c -> (0 <= c)%Q).
  { intros r c Hr. apply list_elem_of_singleton in Hr as ->. discriminate. }
  destruct (allocations_parse 0 Samples.plan_jobs Samples.plan_resources []
              Samples.config CpModel.empty _ Samples.plan_values 0
              Hb Hsol Hpos Hcost) as (allocations & Hp & Hall).
  exists allocations. split; [exact Hp |].
  eapply Forall_impl; [exact Hall |]. intros a (_ & Hlt & _). exact Hlt.
Defined.

(** ** Event logs and batches *)

Section EventLogging.
Import EventModel EventService EventLogs.

Variable value_of : EventType -> Exn + string.
Variable str_of : EventType -> string.



Section Batches.
Variable clock : nat -> Z.
Variable fresh_event_id : nat -> string.

Lemma process_event_two_entries now e schedule svc r e' svc' :
  process_event value_of str_of now e schedule svc = (inr r, e', svc') ->
  length (event_logs svc') = (length (event_logs svc) + 2)%nat.
Proof.
  unfold process_event, fail_event.
  destruct (_validate_event now e) as [err | []]; [discriminate |].
  destruct (processors value_of _) as [p |]; [| discriminate].
  destruct (p _ schedule) as [err | result]; [discriminate |].
  intros [= <- <- <-]. unfold _log_event. simpl.
  rewrite !length_app. simpl. lia.
Qed.

Lemma merge_result_delays e r acc acc' :
  merge_result value_of e r acc = inr acc' ->
  exists new,
    delays acc' = delays acc ++ new
    /\ Forall (fun d => (0 < delay_hours d)%Q /\ delay_event_id d = event_id e)
              new.
Proof.
  unfold merge_result. destruct r as [tasks dh rr il | |];
    try (intros [= <-]; exists []; rewrite app_nil_r; split;
         [reflexivity | constructor]).
  destruct (gt dh 0) eqn:Eg.
  - destruct (value_of (event_type e)) as [err | v]; simpl; [discriminate |].
    intros [= <-]. simpl. eexists. split; [reflexivity |].
    repeat constructor; simpl.
    unfold gt in Eg. apply negb_true_iff in Eg.
    apply Qnot_le_lt. intros Hle. apply Qle_bool_iff in Hle. congruence.
  - simpl. intros [= <-]. exists []. simpl. rewrite app_nil_r.
    split; [reflexivity | constructor].
Qed.

Lemma apply_loop_success (events : list (option EventCreate)) :
  forall (n : nat) (acc acc' : Accumulator) (svc svc' : EventService.t)
         (created created' : list Event),
    apply_loop value_of str_of clock fresh_event_id n events acc svc created
    = (inr acc', svc', created') ->
    exists new_events new_delays,
      created' = created ++ new_events
      /\ map event_id new_events
         = map fresh_event_id (seq n (length events))
      /\ Forall (fun e => status e = COMPLETED) new_events
      /\ Forall is_Some events
      /\ length (event_logs svc')
         = (length (event_logs svc) + 2 * length events)%nat
      /\ delays acc' = delays acc ++ new_delays
      /\ Forall (fun d => (0 < delay_hours d)%Q
                          /\ delay_event_id d ∈ map event_id new_events)
                new_delays.
Proof.
  induction events as [| raw events IH];
    intros n acc acc' svc svc' created created' H; simpl in H.
  - injection H as <- <- <-. exists [], []. rewrite !app_nil_r. simpl.
    repeat split; try constructor. lia.
  - destruct raw as [event_data |]; [| discriminate].
    destruct (process_event value_of str_of (clock n)
                (create_event fresh_event_id n event_data) None svc)
      as [[r e1] svc1] eqn:Ep.
    destruct r as [err | result]; [discriminate |].
    destruct (merge_result value_of e1 result acc) as [err | acc1] eqn:Em;
      [discriminate |].
    pose proof (process_event_status value_of str_of (clock n)
                  (create_event fresh_event_id n event_data) None svc) as Hst.
    rewrite Ep in Hst. destruct Hst as (Hid & Hdone & _).
    pose proof (process_event_two_entries _ _ _ _ _ _ _ Ep) as Hlen.
    destruct (merge_result_delays _ _ _ _ Em) as (d1 & Hd1 & Hpos1).
    destruct (IH _ _ _ _ _ _ _ H)
      as (evs & ds & -> & Hids & Hcompleted & Hsome & Hlogs & Hds & Hpos).
    exists (e1 :: evs), (d1 ++ ds).
    split; [rewrite <- app_assoc; reflexivity |].
    split; [simpl; rewrite Hid, Hids; reflexivity |].
    split; [constructor; assumption |].
    split; [constructor; [eauto | assumption] |].
    split; [rewrite Hlogs, Hlen; simpl; lia |].
    split; [rewrite Hds, Hd1, <- app_assoc; reflexivity |].
    apply Forall_app. split.
    + eapply Forall_impl; [exact Hpos1 |]. intros d [Hp Hd]. split; [exact Hp |].
      rewrite Hd. simpl. left.
    + eapply Forall_impl; [exact Hpos |]. intros d [Hp Hd]. split; [exact Hp |].
      simpl. right. exact Hd.
Qed.

(** X22: when [apply_events] returns a response, every dictionary of
    the batch was accepted, every event was created with the next
    fresh id and left completed, the log grew by two entries for each
    event, every reported delay is positive and belongs to an event of
    the batch, and no resource reallocation is reported. *)
Theorem batch_success_completes_all (plan : string)
  (events : list (option EventCreate)) (svc svc' : EventService.t)
  (response : ApplyResult) (created : list Event) :
  apply_events value_of str_of clock fresh_event_id plan events svc
  = (inr response, svc', created) ->
  result_plan_id response = plan
  /\ Forall is_Some events
  /\ map event_id created = map fresh_event_id (seq 0 (length events))
  /\ Forall (fun e => status e = COMPLETED) created
  /\ length (event_logs svc')
     = (length (event_logs svc) + 2 * length events)%nat
  /\ Forall (fun d => (0 < delay_hours d)%Q
                      /\ delay_event_id d ∈ map event_id created)
            (diff_delays (diff response))
  /\ diff_resource_reallocation (diff response) = [].
Proof.
  unfold apply_events.
  destruct (apply_loop value_of str_of clock fresh_event_id 0 events
              empty_accumulator svc []) as [[r svc1] created1] eqn:E.
  destruct r as [err | acc]; [discriminate |].
  intros [= <- <- <-].
  destruct (apply_loop_success _ _ _ _ _ _ _ _ E)
    as (evs & ds & -> & Hids & Hcompleted & Hsome & Hlogs & Hds & Hpos).
  simpl in *. subst. repeat split; assumption.
Qed.

End Batches.
End EventLogging.

Lemma batch_success_completes_all_witness :
  exists response svc' created,
    EventService.apply_events Samples.dot_value Samples.format_event_type
      Samples.clock Samples.event_id_of "PLAN-1"
      [Some (Samples.eta_advance ["J1"])] fresh_service
    = (inr response, svc', created)
    /\ Forall (fun e => EventModel.status e = EventModel.COMPLETED) created
    /\ length (EventService.event_logs svc') = 2%nat.
Proof.
  destruct (EventService.apply_events Samples.dot_value
              Samples.format_event_type Samples.clock Samples.event_id_of
              "PLAN-1" [Some (Samples.eta_advance ["J1"])] fresh_service)
    as [[r svc'] created] eqn:E.
  assert (Hr : match fst (fst (EventService.apply_events Samples.dot_value
                                 Samples.format_event_type Samples.clock
                                 Samples.event_id_of "PLAN-1"
                                 [Some (Samples.eta_advance ["J1"])]
                                 fresh_service)) with
               | inr _ => true
               | inl _ => false
               end = true) by (vm_compute; reflexivity).
  rewrite E in Hr. simpl in Hr.
  destruct r as [err | response]; [discriminate |].
  exists response, svc', created. split; [reflexivity |].
  destruct (batch_success_completes_all Samples.dot_value
              Samples.format_event_type Samples.clock Samples.event_id_of
              "PLAN-1" [Some (Samples.eta_advance ["J1"])] fresh_service svc'
              response created E)
    as (_ & _ & _ & Hdone & Hlogs & _).
  split; [exact Hdone | exact Hlogs].
Defined.

(** ** Schedule differences *)

Section ScheduleDiffs.
Import ScheduleModel ScheduleQueries.

Variable list_of_set : list string -> list string.
Hypothesis list_of_set_elements :
  forall (l : list string) (x : string), x ∈ list_of_set l <-> x ∈ l.

Lemma first_interval_found intervals tid iv :
  first_interval intervals tid = Some iv -> iv ∈ intervals /\ task_id iv = tid.
Proof.
  induction intervals as [| x l IH]; simpl; [discriminate |].
  destruct (bool_decide_reflect (task_id x = tid)) as [Heq | Hne].
  - intros [= <-]. split; [left | exact Heq].
  - intros H. destruct (IH H). split; [right |]; assumption.
Qed.

Lemma first_interval_unique intervals iv :
  NoDup (map task_id intervals) -> iv ∈ intervals ->
  first_interval intervals (task_id iv) = Some iv.
Proof.
  induction intervals as [| x l IH]; intros Hnd Hin; [inversion Hin |].
  simpl in *. apply NoDup_cons in Hnd as [Hx Hnd].
  destruct (bool_decide_reflect (task_id x = task_id iv)) as [Heq | Hne].
  - apply elem_of_cons in Hin as [-> | Hin]; [reflexivity |].
    exfalso. apply Hx. rewrite Heq. apply list_elem_of_fmap. eauto.
  - apply elem_of_cons in Hin as [-> | Hin]; [congruence |]. apply IH; assumption.
Qed.

Lemma compare_loop (other : Schedule) (l : list TaskInterval) :
  forall affected delays,
    let r := fold_left (compare_interval other) l (affected, delays) in
    (forall tid, tid ∈ fst r <->
       tid ∈ affected
       \/ exists iv o, iv ∈ l /\ task_id iv = tid
                       /\ get_task_interval other tid = Some o
                       /\ start_time iv <> start_time o)
    /\ exists new,
         snd r = delays ++ new
         /\ Forall (fun d => (0 < delay_hours d)%Q
                             /\ exists iv o,
                                  iv ∈ l /\ task_id iv = delay_task_id d
                                  /\ get_task_interval other (delay_task_id d)
                                     = Some o
                                  /\ (start_time o < start_time iv)%Z
                                  /\ delay_hours d
                                     = calculated_hours (start_time o)
                                                        (start_time iv))
                  new.
Proof.
  induction l as [| x l IH]; intros affected delays; cbn [fold_left].
  - simpl. split.
    + intros tid. split; [tauto |].
      intros [H | (iv & o & Hin & _)]; [exact H | inversion Hin].
    + exists []. rewrite app_nil_r. split; [reflexivity | constructor].
  - destruct (compare_interval other (affected, delays) x)
      as [affected1 delays1] eqn:Es.
    destruct (IH affected1 delays1) as [IHa (new & Hnew & Hpos)].
    cbv zeta in IHa.
    assert (Hstep :
      (forall tid, tid ∈ affected1 <->
         tid ∈ affected
         \/ (task_id x = tid
             /\ exists o, get_task_interval other tid = Some o
                          /\ start_time x <> start_time o))
      /\ exists new1,
           delays1 = delays ++ new1
           /\ Forall (fun d => (0 < delay_hours d)%Q
                               /\ exists o,
                                    task_id x = delay_task_id d
                                    /\ get_task_interval other (delay_task_id d)
                                       = Some o
                                    /\ (start_time o < start_time x)%Z
                                    /\ delay_hours d
                                       = calculated_hours (start_time o)
                                                          (start_time x))
                    new1).
    { unfold compare_interval in Es.
      destruct (get_task_interval other (task_id x)) as [o |] eqn:Eo.
      2:{ injection Es as <- <-. split.
          - intros tid. split; [tauto |].
            intros [H | (<- & o & Ho & _)]; [exact H | congruence].
          - exists []. rewrite app_nil_r. split; [reflexivity | constructor]. }
      destruct (bool_decide_reflect (start_time x <> start_time o))
        as [Hne | Heq].
      2:{ injection Es as <- <-. split.
          - intros tid. split; [tauto |].
            intros [H | (<- & o' & Ho & Hd)]; [exact H |].
            rewrite Eo in Ho. injection Ho as <-. exfalso. apply Heq. exact Hd.
          - exists []. rewrite app_nil_r. split; [reflexivity | constructor]. }
      injection Es as <- <-. split.
      - intros tid. rewrite elem_of_app, list_elem_of_singleton. split.
        + intros [H | ->]; [left; exact H | right]. split; [reflexivity |].
          exists o. split; assumption.
        + intros [H | (<- & _)]; [left; exact H | right; reflexivity].
      - destruct (Z.ltb_spec (start_time o) (start_time x)) as [Hlt | Hge].
        + eexists. split; [reflexivity |]. repeat constructor; simpl.
          * unfold Py.total_seconds, Qdiv, Qlt. simpl. lia.
          * exists o. repeat split; assumption.
        + exists []. rewrite app_nil_r. split; [reflexivity | constructor]. }
    destruct Hstep as [Ha1 (new1 & -> & Hpos1)].
    cbv zeta. split.
    + intros tid. rewrite IHa, Ha1. split.
      * intros [[H | (Hid & o & Ho & Hd)] | (iv & o & Hin & Hrest)].
        -- left. exact H.
        -- right. exists x, o. split; [left |]. repeat split; assumption.
        -- right. exists iv, o. split; [right; exact Hin | exact Hrest].
      * intros [H | (iv & o & Hin & Hid & Ho & Hd)]; [left; left; exact H |].
        apply elem_of_cons in Hin as [-> | Hin].
        -- left. right. split; [exact Hid |]. exists o. split; assumption.
        -- right. exists iv, o. repeat split; assumption.
    + exists (new1 ++ new). rewrite Hnew, <- app_assoc. split; [reflexivity |].
      apply Forall_app. split.
      * eapply Forall_impl; [exact Hpos1 |].
        intros d (Hp & o & Hid & Hrest). split; [exact Hp |].
        exists x, o. split; [left |]. split; [exact Hid | exact Hrest].
      * eapply Forall_impl; [exact Hpos |].
        intros d (Hp & iv & o & Hin & Hrest). split; [exact Hp |].
        exists iv, o. split; [right; exact Hin | exact Hrest].
Qed.

Lemma calculate_diff_facts (self other : Schedule)
  (self_makespan_hours other_makespan_hours : Q) :
  let d := calculate_diff list_of_set self other self_makespan_hours
                          other_makespan_hours in
  (forall tid, tid ∈ affected_tasks d <-> moved self other tid)
  /\ Forall (fun delay =>
               (0 < delay_hours delay)%Q
               /\ delay_task_id delay ∈ affected_tasks d)
            (delays d)
  /\ added_tasks d = [] /\ cancelled_tasks d = []
  /\ resource_reallocation d = [].
Proof.
  unfold calculate_diff.
  destruct (compare_loop other (task_intervals self) [] [])
    as [Ha (new & Hnew & Hpos)].
  cbv zeta in Ha.
  destruct (fold_left (compare_interval other) (task_intervals self) ([], []))
    as [affected ds] eqn:E.
  simpl in *. subst ds.
  assert (Haff : forall tid, tid ∈ list_of_set affected <-> moved self other tid).
  { intros tid. rewrite list_of_set_elements, Ha. unfold moved. split.
    - intros [H | H]; [inversion H | exact H].
    - intros H. right. exact H. }
  split; [exact Haff |]. split; [| repeat split].
  eapply Forall_impl; [exact Hpos |].
  intros d (Hp & iv & o & Hin & Hid & Ho & Hlt & _). split; [exact Hp |].
  apply Haff. exists iv, o. repeat split; try assumption. lia.
Qed.

(** X23: however [list(set(...))] orders its result, the affected
    tasks of [calculate_diff] are exactly the tasks planned in both
    schedules at different start times; every delay is positive and
    belongs to an affected task; tasks that only one schedule has are
    reported nowhere, the lists of added and cancelled tasks and of
    reallocations being always empty. *)
Theorem diff_reports_moved_tasks (self other : Schedule)
  (self_makespan_hours other_makespan_hours : Q) :
  let d := calculate_diff list_of_set self other self_makespan_hours
                          other_makespan_hours in
  (forall tid, tid ∈ affected_tasks d <-> moved self other tid)
  /\ Forall (fun delay =>
               (0 < delay_hours delay)%Q
               /\ delay_task_id delay ∈ affected_tasks d)
            (delays d)
  /\ added_tasks d = [] /\ cancelled_tasks d = []
  /\ resource_reallocation d = [].
Proof.
  apply calculate_diff_facts.
Qed.

(** X24: a schedule whose task ids are distinct has no significant
    change against itself, for any threshold that is not negative. *)
Theorem unchanged_schedule_has_no_changes (self : Schedule)
  (makespan_hours threshold_hours : Q) :
  NoDup (map task_id (task_intervals self)) ->
  (0 <= threshold_hours)%Q ->
  has_significant_changes
    (calculate_diff list_of_set self self makespan_hours makespan_hours)
    threshold_hours
  = false.
Proof.
  intros Hnd Hth.
  destruct (calculate_diff_facts self self makespan_hours makespan_hours)
    as (Haff & _ & Hadd & Hcan & Hre).
  set (d := calculate_diff list_of_set self self makespan_hours makespan_hours)
    in *.
  assert (Hnone : affected_tasks d = []).
  { destruct (affected_tasks d) as [| tid l] eqn:E; [reflexivity |].
    exfalso. destruct (proj1 (Haff tid)) as (iv & o & Hin & Hid & Ho & Hne).
    { left. }
    unfold get_task_interval in Ho. rewrite <- Hid in Ho.
    rewrite (first_interval_unique _ _ Hnd Hin) in Ho.
    injection Ho as <-. apply Hne. reflexivity. }
  unfold has_significant_changes. rewrite Hnone, Hadd, Hcan, Hre. simpl.
  rewrite !orb_false_r. apply negb_false_iff. apply Qle_bool_iff.
  assert (Hz : (Qabs (makespan_change_hours d) == 0)%Q).
  { unfold d, calculate_diff.
    destruct (fold_left _ _ _) as [a ds]. cbn [makespan_change_hours].
    unfold Qminus. rewrite Qplus_opp_r. reflexivity. }
  rewrite Hz. exact Hth.
Qed.


End ScheduleDiffs.

Lemma sorted_set_elements (l : list string) (x : string) :
  x ∈ Samples.sorted_set l <-> x ∈ l.
Proof.
  unfold Samples.sorted_set. rewrite elem_of_elements, elem_of_list_to_set.
  reflexivity.
Qed.

Lemma diff_reports_moved_tasks_witness :
  "J1" ∈ ScheduleQueries.affected_tasks
           (ScheduleQueries.calculate_diff Samples.sorted_set
              (Samples.schedule_of [Samples.late_interval])
              (Samples.schedule_of [Samples.two_hour_interval])
              (2 # 1) (2 # 1)).
Proof.
  apply (proj1 (diff_reports_moved_tasks Samples.sorted_set
                  sorted_set_elements
                  (Samples.schedule_of [Samples.late_interval])
                  (Samples.schedule_of [Samples.two_hour_interval])
                  (2 # 1) (2 # 1))).
  exists Samples.late_interval, Samples.two_hour_interval.
  split; [left |]. repeat split. discriminate.
Defined.

Lemma unchanged_schedule_has_no_changes_witness :
  ScheduleQueries.has_significant_changes
    (ScheduleQueries.calculate_diff Samples.sorted_set
       (Samples.schedule_of [Samples.two_hour_interval])
       (Samples.schedule_of [Samples.two_hour_interval]) (2 # 1) (2 # 1))
    (1 # 1)
  = false.
Proof.
  apply (unchanged_schedule_has_no_changes Samples.sorted_set
           sorted_set_elements
           (Samples.schedule_of [Samples.two_hour_interval]) (2 # 1) (1 # 1)).
  - apply NoDup_singleton.
  - discriminate.
Defined.

(** ** Parsed schedules and the constraints *)

Section ParsedConstraints.
Import CpModel ConstraintBuilder ScheduleModel SolutionParser ScheduleQueries.

Lemma parsed_interval_placed value p (b : ConstraintBuilder.t) tid ty name wp
  eng fixed vars iv :
  task_vars (task_starts b) (task_ends b) (task_durations b) tid = Some vars ->
  parsed_interval value p tid ty name wp eng fixed vars = inr iv ->
  placed_by value p b iv.
Proof.
  unfold task_vars, parsed_interval. destruct vars as [[s e] d].
  destruct (Py.dict_get (task_starts b) tid) as [s0 |] eqn:Es; [| discriminate].
  destruct (Py.dict_get (task_ends b) tid) as [e0 |] eqn:Ee; [| discriminate].
  destruct (Py.dict_get (task_durations b) tid) as [d0 |]; [| discriminate].
  intros [= -> -> ->] H.
  apply TaskInterval_new_inv in H as (-> & _). exists s, e. simpl. auto.
Qed.

Lemma parsed_intervals_placed value jobs preps (b : ConstraintBuilder.t) p
  intervals :
  _parse_task_intervals value jobs preps (task_starts b) (task_ends b)
                        (task_durations b) p = inr intervals ->
  Forall (placed_by value p b) intervals.
Proof.
  unfold _parse_task_intervals. intros H.
  destruct (foldE _ jobs []) as [err | ivs] eqn:E1; [discriminate |].
  simpl in H.
  assert (H1 : Forall (placed_by value p b) ivs).
  { eapply (foldE_inv (Forall (placed_by value p b))); [constructor | | exact E1].
    intros acc job acc' _ Hacc Hstep. cbv beta in Hstep.
    destruct (task_vars _ _ _ (job_id job)) as [vars |] eqn:Ev;
      [| injection Hstep as <-; exact Hacc].
    destruct (parsed_interval _ _ _ _ _ _ _ _ vars) as [err | iv] eqn:Ep;
      [discriminate |].
    simpl in Hstep. injection Hstep as <-. apply Forall_app.
    split; [exact Hacc |]. repeat constructor.
    eapply parsed_interval_placed; eassumption. }
  eapply (foldE_inv (Forall (placed_by value p b))); [exact H1 | | exact H].
  intros acc task acc' _ Hacc Hstep. cbv beta in Hstep.
  destruct (task_vars _ _ _ (prep_id task)) as [vars |] eqn:Ev;
    [| injection Hstep as <-; exact Hacc].
  destruct (parsed_interval _ _ _ _ _ _ _ _ vars) as [err | iv] eqn:Ep;
    [discriminate |].
  simpl in Hstep. injection Hstep as <-. apply Forall_app.
  split; [exact Hacc |]. repeat constructor.
  eapply parsed_interval_placed; eassumption.
Qed.

(** X25: in the intervals that [_parse_task_intervals] returns for a
    solution of the built model, a task that lists another among its
    predecessors or dependencies starts no earlier than the other ends;
    [overlaps_with] is false for the two. *)
Theorem parsed_predecessor_ends_first (now : Z) (jobs : list Job)
  (resources : list Resource) (preparation_tasks : list PreparationTask)
  (config : ConstraintConfig) (b b' : ConstraintBuilder.t) (value : nat -> Z)
  (plan_start_time : Z) (intervals : list TaskInterval)
  (first second : TaskInterval) :
  build_constraints now jobs resources preparation_tasks config b = inr b' ->
  solves value (model b') = true ->
  _parse_task_intervals value jobs preparation_tasks (task_starts b')
                        (task_ends b') (task_durations b') plan_start_time
  = inr intervals ->
  first ∈ intervals -> second ∈ intervals ->
  depends_on jobs preparation_tasks (task_id second) (task_id first) ->
  (end_time first <= start_time second)%Z
  /\ overlaps_with first second = false.
Proof.
  intros Hbuild Hsol Hparse H1 H2 Hdep.
  pose proof (parsed_intervals_placed _ _ _ _ _ _ Hparse) as Hpl.
  rewrite Forall_forall in Hpl.
  destruct (Hpl first H1) as (s1 & e1 & _ & He1 & _ & Hend).
  destruct (Hpl second H2) as (s2 & e2 & Hs2 & _ & Hstart & _).
  pose proof (precedence_holds now jobs resources preparation_tasks config b b'
                (task_id second) (task_id first) e1 s2 value Hbuild Hdep He1
                Hs2 Hsol) as Hle.
  assert (Hlt : (end_time first <= start_time second)%Z).
  { rewrite Hend, Hstart.
    unfold Py.timedelta_minutes, Py.us_per_minute, Py.us_per_second. lia. }
  split; [exact Hlt |]. unfold overlaps_with.
  rewrite (proj2 (Z.leb_le _ _) Hlt). reflexivity.
Qed.

Lemma whole_minutes (now : Z) (config : ConstraintConfig) (p dt : Z) :
  plan_start_time config = Some p -> (p <= dt)%Z ->
  let minutes := _datetime_to_minutes now config dt in
  (p + Py.timedelta_minutes minutes <= dt
   /\ dt < p + Py.timedelta_minutes minutes + Py.us_per_minute)%Z.
Proof.
  intros Hp Hle. unfold _datetime_to_minutes. rewrite Hp. simpl.
  unfold Py.int_of_float, Py.total_seconds, Qdiv, Py.timedelta_minutes,
    Py.us_per_minute, Py.us_per_second.
  simpl. rewrite Z.mul_1_r.
  rewrite Z.quot_div_nonneg by lia.
  change (Z.pos (1000000 * 60)) with 60000000%Z.
  change (60 * 1000000)%Z with 60000000%Z.
  pose proof (Z.div_mod (dt - p) 60000000 ltac:(lia)).
  pose proof (Z.mod_pos_bound (dt - p) 60000000 ltac:(lia)).
  lia.
Qed.

(** X26: when builder and parser share the plan start, the parsed
    interval of a job ends no later than a latest finish after the
    plan start, and starts less than a minute before an earliest start
    after the plan start; with a fixed start it starts at the fixed
    start cut to whole minutes after the plan start. *)
Theorem parsed_job_keeps_window (now : Z) (jobs : list Job)
  (resources : list Resource) (preparation_tasks : list PreparationTask)
  (config : ConstraintConfig) (b b' : ConstraintBuilder.t) (value : nat -> Z)
  (p : Z) (intervals : list TaskInterval) (job : Job)
  (interval : TaskInterval) :
  build_constraints now jobs resources preparation_tasks config b = inr b' ->
  solves value (model b') = true ->
  plan_start_time config = Some p ->
  _parse_task_intervals value jobs preparation_tasks (task_starts b')
                        (task_ends b') (task_durations b') p
  = inr intervals ->
  job ∈ jobs -> interval ∈ intervals -> task_id interval = job_id job ->
  (forall dt, job_latest_finish job = Some dt -> (p <= dt)%Z ->
              (end_time interval <= dt)%Z)
  /\ (forall dt, job_earliest_start job = Some dt -> (p <= dt)%Z ->
                 (dt - Py.us_per_minute < start_time interval)%Z)
  /\ (forall dt, fixed_start job = Some dt -> (p <= dt)%Z ->
                 (dt - Py.us_per_minute < start_time interval <= dt)%Z).
Proof.
  intros Hbuild Hsol Hp Hparse Hjob Hin Hid.
  pose proof (parsed_intervals_placed _ _ _ _ _ _ Hparse) as Hpl.
  rewrite Forall_forall in Hpl.
  destruct (Hpl interval Hin) as (s & e & Hs & He & Hstart & Hend).
  rewrite Hid in Hs, He.
  destruct (time_windows_hold now jobs resources preparation_tasks config b b'
              value Hbuild Hsol) as (W1 & W2 & W3 & _).
  assert (Hmin : (0 < Py.us_per_minute)%Z) by reflexivity.
  split; [| split].
  - intros dt Hdt Hle. pose proof (W2 job e dt Hjob He Hdt) as Hw.
    destruct (whole_minutes now config p dt Hp Hle) as [Hlo _].
    rewrite Hend. unfold Py.timedelta_minutes in *. nia.
  - intros dt Hdt Hle. pose proof (W1 job s dt Hjob Hs Hdt) as Hw.
    destruct (whole_minutes now config p dt Hp Hle) as [_ Hhi].
    rewrite Hstart. unfold Py.timedelta_minutes in *. nia.
  - intros dt Hdt Hle. pose proof (W3 job s dt Hjob Hs Hdt) as Hw.
    destruct (whole_minutes now config p dt Hp Hle) as [Hlo Hhi].
    rewrite Hstart, Hw. lia.
Qed.

End ParsedConstraints.

Lemma parsed_predecessor_ends_first_witness :
  exists first second intervals,
    SolutionParser._parse_task_intervals Samples.plan_values Samples.plan_jobs
      []
      (ConstraintBuilder.task_starts
         (Samples.built Samples.plan_jobs Samples.plan_resources))
      (ConstraintBuilder.task_ends
         (Samples.built Samples.plan_jobs Samples.plan_resources))
      (ConstraintBuilder.task_durations
         (Samples.built Samples.plan_jobs Samples.plan_resources))
      0
    = inr intervals
    /\ first ∈ intervals /\ second ∈ intervals
    /\ ScheduleModel.task_id first = "J1"
    /\ ScheduleModel.task_id second = "J2"
    /\ ScheduleQueries.overlaps_with first second = false.
Proof.
  assert (Hb : ConstraintBuilder.build_constraints 0 Samples.plan_jobs
                 Samples.plan_resources [] Samples.config
                 (ConstraintBuilder.init CpModel.empty)
               = inr (Samples.built Samples.plan_jobs Samples.plan_resources))
    by (vm_compute; reflexivity).
  assert (Hsol : CpModel.solves Samples.plan_values
                   (ConstraintBuilder.model
                      (Samples.built Samples.plan_jobs Samples.plan_resources))
                 = true) by (vm_compute; reflexivity).
  assert (Hp : exists first second,
             SolutionParser._parse_task_intervals Samples.plan_values
               Samples.plan_jobs []
               (ConstraintBuilder.task_starts
                  (Samples.built Samples.plan_jobs Samples.plan_resources))
               (ConstraintBuilder.task_ends
                  (Samples.built Samples.plan_jobs Samples.plan_resources))
               (ConstraintBuilder.task_durations
                  (Samples.built Samples.plan_jobs Samples.plan_resources))
               0
             = inr [first; second]
             /\ ScheduleModel.task_id first = "J1"
             /\ ScheduleModel.task_id second = "J2").
  { vm_compute. eexists _, _. repeat split. }
  destruct Hp as (first & second & Hp & Hid1 & Hid2).
  exists first, second, [first; second].
  assert (H1 : first ∈ [first; second]) by left.
  assert (H2 : second ∈ [first; second]) by (right; left).
  assert (Hdep : depends_on Samples.plan_jobs []
                   (ScheduleModel.task_id second) (ScheduleModel.task_id first)).
  { rewrite Hid1, Hid2. left. exists (Samples.job "J2" [] ["J1"] [] None).
    split; [right; left |]. split; [reflexivity | left]. }
  repeat (split; [assumption |]).
  exact (proj2 (parsed_predecessor_ends_first 0 Samples.plan_jobs
                  Samples.plan_resources [] Samples.config
                  (ConstraintBuilder.init CpModel.empty) _ Samples.plan_values
                  0 [first; second] first second Hb Hsol Hp H1 H2 Hdep)).
Defined.

Lemma parsed_job_keeps_window_witness :
  exists interval intervals,
    SolutionParser._parse_task_intervals Samples.plan_values Samples.plan_jobs
      []
      (ConstraintBuilder.task_starts
         (Samples.built Samples.plan_jobs Samples.plan_resources))
      (ConstraintBuilder.task_ends
         (Samples.built Samples.plan_jobs Samples.plan_resources))
      (ConstraintBuilder.task_durations
         (Samples.built Samples.plan_jobs Samples.plan_resources))
      0
    = inr intervals
    /\ interval ∈ intervals
    /\ ScheduleModel.task_id interval = "J1"
    /\ (ScheduleModel.end_time interval <= 36000000000)%Z
    /\ (3600000000 - Py.us_per_minute < ScheduleModel.start_time interval)%Z.
Proof.
  assert (Hb : ConstraintBuilder.build_constraints 0 Samples.plan_jobs
                 Samples.plan_resources [] Samples.config
                 (ConstraintBuilder.init CpModel.empty)
               = inr (Samples.built Samples.plan_jobs Samples.plan_resources))
    by (vm_compute; reflexivity).
  assert (Hsol : CpModel.solves Samples.plan_values
                   (ConstraintBuilder.model
                      (Samples.built Samples.plan_jobs Samples.plan_resources))
                 = true) by (vm_compute; reflexivity).
  assert (Hp : exists first second,
             SolutionParser._parse_task_intervals Samples.plan_values
               Samples.plan_jobs []
               (ConstraintBuilder.task_starts
                  (Samples.built Samples.plan_jobs Samples.plan_resources))
               (ConstraintBuilder.task_ends
                  (Samples.built Samples.plan_jobs Samples.plan_resources))
               (ConstraintBuilder.task_durations
                  (Samples.built Samples.plan_jobs Samples.plan_resources))
               0
             = inr [first; second]
             /\ ScheduleModel.task_id first = "J1").
  { vm_compute. eexists _, _. repeat split. }
  destruct Hp as (first & second & Hp & Hid1).
  exists first, [first; second].
  assert (H1 : first ∈ [first; second]) by left.
  repeat (split; [assumption |]).
  destruct (parsed_job_keeps_window 0 Samples.plan_jobs Samples.plan_resources
              [] Samples.config (ConstraintBuilder.init CpModel.empty) _
              Samples.plan_values 0 [first; second]
              (hd (Samples.job "J1" [] [] [] None) Samples.plan_jobs) first
              Hb Hsol eq_refl Hp)
    as (Hlatest & Hearliest & _); [left | exact H1 | exact Hid1 |].
  split; [apply Hlatest | apply Hearliest]; (reflexivity || (simpl; lia)).
Defined.

(** ** Single-use resources *)

Section ExclusiveUse.
Import CpModel ConstraintBuilder.

Lemma no_overlap_pair rho (ivs : list IntervalVar) i j :
  no_overlap rho ivs = true -> i ∈ ivs -> j ∈ ivs -> i <> j ->
  present rho i = true -> present rho j = true ->
  disjoint rho i j = true.
Proof.
  assert (Hsym : forall a b, disjoint rho a b = disjoint rho b a).
  { intros a b. unfold disjoint. apply orb_comm. }
  induction ivs as [| x l IH]; intros Hno Hi Hj Hne Hpi Hpj; [inversion Hi |].
  simpl in Hno. apply andb_true_iff in Hno as [Hx Hl].
  rewrite forallb_forall in Hx.
  apply elem_of_cons in Hi as [-> | Hi]; apply elem_of_cons in Hj as [-> | Hj].
  - congruence.
  - specialize (Hx j (proj1 (list_elem_of_In _ _) Hj)).
    rewrite Hpi, Hpj in Hx. exact Hx.
  - specialize (Hx i (proj1 (list_elem_of_In _ _) Hi)).
    rewrite Hpi, Hpj in Hx. simpl in Hx. rewrite Hsym. exact Hx.
  - apply IH; assumption.
Qed.

Lemma exclusive_intervals rid tasks b b' inner :
  _build_exclusive_resource_constraint rid tasks b = inr b' ->
  (1 < length tasks)%nat ->
  Py.dict_get (resource_assignments b) rid = Some inner ->
  exists ivs,
    (tasks <> [] -> ivs <> [] -> CNoOverlap ivs ∈ CpModel.constraints (model b'))
    /\ forall t a s d e,
         t ∈ tasks -> Py.dict_get inner t = Some a ->
         is_Some (Py.dict_get (task_intervals b) t) ->
         Py.dict_get (task_starts b) t = Some s ->
         Py.dict_get (task_durations b) t = Some d ->
         Py.dict_get (task_ends b) t = Some e ->
         optional_interval rid t s d e a ∈ ivs.
Proof.
  unfold _build_exclusive_resource_constraint. intros H Hlen Hinner.
  rewrite bool_decide_eq_false_2 in H by lia.
  match type of H with
  | context [foldE ?f tasks ([], b)] =>
      set (step := f) in *;
      destruct (foldE step tasks ([], b)) as [err | [ivs b1]] eqn:E;
      [discriminate |]
  end.
  simpl in H. exists ivs.
  set (P := fun acc : list IntervalVar * ConstraintBuilder.t =>
              adds_constraints b (snd acc)).
  assert (HP : forall acc x acc', P acc -> step acc x = inr acc' -> P acc').
  { intros [ivs0 b0] tid [ivs' b0'] Hb0. unfold P in *. simpl in Hb0.
    unfold step.
    destruct (Py.dict_get (resource_assignments b0) rid) as [inner0 |];
      [| intros [= <- <-]; exact Hb0].
    destruct (Py.dict_get inner0 tid) as [av |];
      [| intros [= <- <-]; exact Hb0].
    destruct (Py.dict_get (task_intervals b0) tid) as [iv |];
      [| intros [= <- <-]; exact Hb0].
    unfold index.
    destruct (Py.dict_get (task_starts b0) tid); simpl; [| discriminate].
    destruct (Py.dict_get (task_durations b0) tid); simpl; [| discriminate].
    destruct (Py.dict_get (task_ends b0) tid); simpl; [| discriminate].
    intros [= <- <-]. simpl.
    eapply adds_constraints_trans; [exact Hb0 |].
    split; [split; [repeat split |] | reflexivity]. simpl.
    repeat split; try reflexivity. eexists. reflexivity. }
  split.
  - intros _ Hne. destruct ivs as [| i0 ivs0]; [congruence |].
    injection H as <-. simpl. apply elem_of_app. right. left.
  - intros t a s d e Ht Ha Hi Hs Hd He.
    apply (foldE_reaches step P
             (fun acc => optional_interval rid t s d e a ∈ fst acc)
             tasks t ([], b) (ivs, b1) Ht);
      [apply adds_constraints_refl | exact E | | |].
    + intros acc x acc' Hacc Hstep. eapply HP; eassumption.
    + intros [ivs0 b0] [ivs' b0'] Hb0. unfold P in Hb0. simpl in Hb0.
      destruct Hb0 as [[(Hti & Hts & Htd & Hte) _] Hra].
      unfold step. rewrite Hra, Hinner, Ha, Hti.
      destruct Hi as [iv Hi]. rewrite Hi.
      unfold index. rewrite Hts, Htd, Hte, Hs, Hd, He. simpl.
      intros [= <- <-]. simpl. apply elem_of_app. right. left.
    + intros [ivs0 b0] x [ivs' b0'] _ Hq. simpl in Hq. unfold step.
      destruct (Py.dict_get (resource_assignments b0) rid) as [inner0 |];
        [| intros [= <- <-]; exact Hq].
      destruct (Py.dict_get inner0 x) as [av |];
        [| intros [= <- <-]; exact Hq].
      destruct (Py.dict_get (task_intervals b0) x) as [iv |];
        [| intros [= <- <-]; exact Hq].
      unfold index.
      destruct (Py.dict_get (task_starts b0) x); simpl; [| discriminate].
      destruct (Py.dict_get (task_durations b0) x); simpl; [| discriminate].
      destruct (Py.dict_get (task_ends b0) x); simpl; [| discriminate].
      intros [= <- <-]. simpl. apply elem_of_app. left. exact Hq.
Qed.

Lemma assign_task_keys rid acc tid t :
  assignment_var (snd (assign_task rid acc tid)) rid t <> None ->
  t = tid \/ assignment_var (snd acc) rid t <> None.
Proof.
  destruct acc as [ts b]. unfold assign_task, assignment_var. simpl.
  rewrite dict_get_set_eq. simpl. rewrite dict_get_set_cases.
  destruct (decide (tid = t)) as [-> | Hne]; [left; reflexivity |].
  intros H. right.
  destruct (Py.dict_get (resource_assignments b) rid) as [inner |]; simpl in *;
    [exact H | congruence].
Qed.

Lemma assign_task_tasks rid acc tid :
  fst (assign_task rid acc tid) = fst acc ++ [tid].
Proof. destruct acc as [ts b]. reflexivity. Qed.

Lemma two_elements {A : Type} (l : list A) x y :
  x ∈ l -> y ∈ l -> x <> y -> (1 < length l)%nat.
Proof.
  destruct l as [| a [| c l]]; simpl; intros Hx Hy Hne;
    [inversion Hx | | lia].
  apply list_elem_of_singleton in Hx, Hy. congruence.
Qed.

Lemma one_resource_exclusive jobs preps b resource b' :
  single_use resource ->
  build_one_resource jobs preps b resource = inr b' ->
  forall t1 t2 a1 a2 s1 d1 e1 s2 d2 e2,
    t1 <> t2 ->
    assignment_var b' (resource_id (resource_base resource)) t1 = Some a1 ->
    assignment_var b' (resource_id (resource_base resource)) t2 = Some a2 ->
    is_Some (Py.dict_get (task_intervals b) t1) ->
    is_Some (Py.dict_get (task_intervals b) t2) ->
    Py.dict_get (task_starts b) t1 = Some s1 ->
    Py.dict_get (task_durations b) t1 = Some d1 ->
    Py.dict_get (task_ends b) t1 = Some e1 ->
    Py.dict_get (task_starts b) t2 = Some s2 ->
    Py.dict_get (task_durations b) t2 = Some d2 ->
    Py.dict_get (task_ends b) t2 = Some e2 ->
    exists ivs,
      CNoOverlap ivs ∈ CpModel.constraints (model b')
      /\ optional_interval (resource_id (resource_base resource)) t1 s1 d1 e1 a1
           ∈ ivs
      /\ optional_interval (resource_id (resource_base resource)) t2 s2 d2 e2 a2
           ∈ ivs.
Proof.
  intros Hsingle. unfold build_one_resource.
  set (rid := resource_id (resource_base resource)).
  set (b0 := set_resource_assignments _ b).
  set (I := fun acc : list string * ConstraintBuilder.t =>
              grows b (snd acc)
              /\ forall t, assignment_var (snd acc) rid t <> None -> t ∈ fst acc).
  assert (H0 : I ([], b0)).
  { split; [split; [repeat split | apply model_extends_refl] |].
    intros t. unfold assignment_var, b0. simpl. rewrite dict_get_set_eq.
    simpl. congruence. }
  assert (Hstep : forall acc tid, I acc -> I (assign_task rid acc tid)).
  { intros acc tid [Hg Hk]. split; [apply assign_task_grows; exact Hg |].
    intros t Ht. rewrite assign_task_tasks. apply elem_of_app.
    apply assign_task_keys in Ht as [-> | Ht]; [right; left | left; auto]. }
  set (acc1 := if is_human resource then _ else _).
  assert (H1 : I acc1).
  { unfold acc1. destruct (is_human resource).
    - apply (fold_left_inv I); [exact H0 |]. intros acc j. apply Hstep.
    - apply (fold_left_inv I); [exact H0 |]. intros acc j Hacc.
      destruct (has_resource_requirement j rid); [apply Hstep |]; exact Hacc. }
  match goal with
  | |- context [fold_left ?f preps acc1] => set (acc2 := fold_left f preps acc1)
  end.
  assert (H2 : I acc2).
  { unfold acc2. apply (fold_left_inv I); [exact H1 |].
    intros acc p Hacc. apply (fold_left_inv I); [exact Hacc |].
    intros acc' a Hacc'. destruct (bool_decide _); [apply Hstep |]; exact Hacc'. }
  destruct acc2 as [tasks b2]. destruct H2 as [Hg Hkeys]. simpl in Hg, Hkeys.
  intros Htail.
  assert (Hex : _build_exclusive_resource_constraint rid tasks b2 = inr b').
  { destruct (is_exclusive_physical resource) eqn:Ee; [exact Htail |].
    unfold _build_cumulative_resource_constraint in Htail.
    destruct Hsingle as [Hs | Hq]; [congruence |].
    rewrite bool_decide_eq_true_2 in Htail by exact Hq. exact Htail. }
  clear Htail.
  intros t1 t2 a1 a2 s1 d1 e1 s2 d2 e2 Hne Ha1 Ha2 Hi1 Hi2 Hs1 Hd1 He1 Hs2 Hd2
         He2.
  pose proof (exclusive_grows rid tasks b2 b' Hex) as Hadds.
  rewrite (adds_constraints_assignment b2 b' rid t1 Hadds) in Ha1.
  rewrite (adds_constraints_assignment b2 b' rid t2 Hadds) in Ha2.
  assert (Ht1 : t1 ∈ tasks) by (apply Hkeys; congruence).
  assert (Ht2 : t2 ∈ tasks) by (apply Hkeys; congruence).
  pose proof (two_elements tasks t1 t2 Ht1 Ht2 Hne) as Hlen.
  unfold assignment_var in Ha1, Ha2.
  destruct (Py.dict_get (resource_assignments b2) rid) as [inner |] eqn:Einner;
    simpl in Ha1, Ha2; [| discriminate].
  destruct Hg as [(Hti & Hts & Htd & Hte) _].
  destruct (exclusive_intervals rid tasks b2 b' inner Hex Hlen Einner)
    as (ivs & Hc & Hin).
  assert (Hin1 : optional_interval rid t1 s1 d1 e1 a1 ∈ ivs).
  { apply Hin; try assumption; congruence. }
  assert (Hin2 : optional_interval rid t2 s2 d2 e2 a2 ∈ ivs).
  { apply Hin; try assumption; congruence. }
  exists ivs. split; [| split; assumption].
  apply Hc.
  - intros ->. inversion Ht1.
  - intros ->. inversion Hin1.
Qed.

Lemma resources_exclusive jobs preps resource :
  single_use resource ->
  forall resources b b',
    NoDup (map (fun r => resource_id (resource_base r)) resources) ->
    resource ∈ resources ->
    _build_resource_constraints jobs preps resources b = inr b' ->
    forall t1 t2 a1 a2 s1 d1 e1 s2 d2 e2,
      t1 <> t2 ->
      assignment_var b' (resource_id (resource_base resource)) t1 = Some a1 ->
      assignment_var b' (resource_id (resource_base resource)) t2 = Some a2 ->
      is_Some (Py.dict_get (task_intervals b) t1) ->
      is_Some (Py.dict_get (task_intervals b) t2) ->
      Py.dict_get (task_starts b) t1 = Some s1 ->
      Py.dict_get (task_durations b) t1 = Some d1 ->
      Py.dict_get (task_ends b) t1 = Some e1 ->
      Py.dict_get (task_starts b) t2 = Some s2 ->
      Py.dict_get (task_durations b) t2 = Some d2 ->
      Py.dict_get (task_ends b) t2 = Some e2 ->
      exists ivs,
        CNoOverlap ivs ∈ CpModel.constraints (model b')
        /\ optional_interval (resource_id (resource_base resource)) t1 s1 d1 e1
             a1 ∈ ivs
        /\ optional_interval (resource_id (resource_base resource)) t2 s2 d2 e2
             a2 ∈ ivs.
Proof.
  intros Hsingle resources. unfold _build_resource_constraints.
  induction resources as [| r rs IH]; intros b b' Hnd Hin Hr;
    [inversion Hin |].
  simpl in Hr.
  destruct (build_one_resource jobs preps b r) as [err | b1] eqn:E1;
    [discriminate |].
  simpl in Hr. simpl in Hnd. apply NoDup_cons in Hnd as [Hnotin Hnd].
  intros t1 t2 a1 a2 s1 d1 e1 s2 d2 e2 Hne Ha1 Ha2 Hi1 Hi2 Hs1 Hd1 He1 Hs2 Hd2
         He2.
  apply elem_of_cons in Hin as [-> | Hin].
  - assert (Hkeep : forall t,
              assignment_var b' (resource_id (resource_base r)) t
              = assignment_var b1 (resource_id (resource_base r)) t).
    { intros t. revert Hr.
      apply (foldE_inv
               (fun b2 => assignment_var b2 (resource_id (resource_base r)) t
                          = assignment_var b1 (resource_id (resource_base r)) t));
        [reflexivity |].
      intros b2 a b3 Ha Hb2 Hstep.
      assert (Hne' : resource_id (resource_base r)
                     <> resource_id (resource_base a)).
      { intros Heq. apply Hnotin. rewrite Heq.
        apply list_elem_of_fmap. exists a. split; [reflexivity | exact Ha]. }
      rewrite (other_turn jobs preps b2 a b3 _ t Hne' Hstep). exact Hb2. }
    rewrite Hkeep in Ha1, Ha2.
    destruct (one_resource_exclusive jobs preps b r b1 Hsingle E1 t1 t2 a1 a2
                s1 d1 e1 s2 d2 e2 Hne Ha1 Ha2 Hi1 Hi2 Hs1 Hd1 He1 Hs2 Hd2 He2)
      as (ivs & Hc & H1 & H2).
    exists ivs. split; [| split; assumption].
    eapply constraint_kept; [| exact Hc].
    eapply (resource_constraints_grow jobs preps rs). exact Hr.
  - pose proof (build_one_resource_grows jobs preps b r b1 E1)
      as [(Hti & Hts & Htd & Hte) _].
    eapply (IH b1 b' Hnd Hin Hr); try eassumption; congruence.
Qed.

Lemma started_tasks_have_intervals jobs preps config (m : CpModel.t) k :
  let b1 := _create_task_variables jobs preps config (init m) in
  is_Some (Py.dict_get (task_starts b1) k) ->
  is_Some (Py.dict_get (task_intervals b1) k).
Proof.
  unfold _create_task_variables.
  set (H := default 168%Z (time_horizon_hours config)).
  set (Q := fun b : ConstraintBuilder.t =>
              is_Some (Py.dict_get (task_starts b) k) ->
              is_Some (Py.dict_get (task_intervals b) k)).
  assert (Hstep : forall id dv m1 b, Q b -> Q (create_task H id dv m1 b)).
  { intros id dv m1 b Hq. unfold Q, create_task. simpl.
    rewrite !dict_get_set_cases. destruct (decide (id = k)); [eauto | exact Hq]. }
  cbv zeta. apply (fold_left_inv Q); [apply (fold_left_inv Q) |].
  - intros [x Hx]. discriminate.
  - intros b job Hq. unfold create_job_variables.
    destruct (job_duration_var job (model b)) as [dv m1]. apply Hstep. exact Hq.
  - intros b task Hq. unfold create_prep_variables.
    destruct (NewConstant _ (model b)) as [dv m1]. apply Hstep. exact Hq.
Qed.

Lemma single_use_holds (now : Z) (jobs : list Job)
  (resources : list Resource) (preparation_tasks : list PreparationTask)
  (config : ConstraintConfig) (m : CpModel.t) (b' : ConstraintBuilder.t)
  (resource : Resource) (t1 t2 : string) (a1 a2 s1 e1 s2 e2 : IntVar)
  (value : nat -> Z) :
  build_constraints now jobs resources preparation_tasks config (init m)
  = inr b' ->
  NoDup (map (fun r => resource_id (resource_base r)) resources) ->
  resource ∈ resources -> single_use resource ->
  t1 <> t2 ->
  assignment_var b' (resource_id (resource_base resource)) t1 = Some a1 ->
  assignment_var b' (resource_id (resource_base resource)) t2 = Some a2 ->
  Py.dict_get (task_starts b') t1 = Some s1 ->
  Py.dict_get (task_ends b') t1 = Some e1 ->
  Py.dict_get (task_starts b') t2 = Some s2 ->
  Py.dict_get (task_ends b') t2 = Some e2 ->
  solves value (model b') = true ->
  value (var_index a1) <> 0%Z -> value (var_index a2) <> 0%Z ->
  (value (var_index e1) <= value (var_index s2))%Z
  \/ (value (var_index e2) <= value (var_index s1))%Z.
Proof.
  intros Hbuild Hnd Hres Hsingle Hne Ha1 Ha2 Hs1 He1 Hs2 He2 Hsol Hv1 Hv2.
  destruct (build_constraints_stages _ _ _ _ _ _ _ Hbuild)
    as (b3 & b5 & E3 & _ & _ & H12 & H23 & H34 & H45 & H5).
  cbv zeta in *.
  set (b1 := _create_task_variables jobs preparation_tasks config (init m))
    in *.
  set (b2 := _build_precedence_constraints jobs preparation_tasks b1) in *.
  assert (Hlate : adds_constraints b3 b').
  { eapply adds_constraints_trans; [exact H34 |].
    eapply adds_constraints_trans; [exact H45 | exact H5]. }
  assert (Hsame : same_tasks b1 b').
  { eapply same_tasks_trans; [apply H12 |].
    eapply same_tasks_trans; [apply H23 | apply Hlate]. }
  destruct Hsame as (_ & Hts & Htd & Hte).
  rewrite Hts in Hs1, Hs2. rewrite Hte in He1, He2.
  assert (Hstart : forall t s, Py.dict_get (task_starts b1) t = Some s ->
             is_Some (Py.dict_get (task_intervals b1) t)
             /\ exists d, Py.dict_get (task_durations b1) t = Some d).
  { intros t s Hs. split.
    - apply started_tasks_have_intervals. exists s. exact Hs.
    - pose proof (started_tasks_have_times jobs preparation_tasks config m t)
        as Hv. cbv zeta in Hv. fold b1 in Hv.
      destruct Hv as [[[s0 e0] d] Hv]; [exists s; exact Hs |].
      unfold SolutionParser.task_vars in Hv.
      destruct (Py.dict_get (task_starts b1) t); [| discriminate].
      destruct (Py.dict_get (task_ends b1) t); [| discriminate].
      destruct (Py.dict_get (task_durations b1) t) as [d0 |]; [| discriminate].
      eauto. }
  destruct (Hstart t1 s1 Hs1) as [Hi1 [d1 Hd1]].
  destruct (Hstart t2 s2 Hs2) as [Hi2 [d2 Hd2]].
  destruct H12 as [[(Hi12 & Hs12 & Hd12 & He12) _] _].
  rewrite (adds_constraints_assignment b3 b' _ t1 Hlate) in Ha1.
  rewrite (adds_constraints_assignment b3 b' _ t2 Hlate) in Ha2.
  destruct (resources_exclusive jobs preparation_tasks resource Hsingle
              resources b2 b3 Hnd Hres E3 t1 t2 a1 a2 s1 d1 e1 s2 d2 e2 Hne
              Ha1 Ha2)
    as (ivs & Hc & Hin1 & Hin2); try congruence.
  pose proof (solves_constraint value _ _
                (constraint_kept b3 b' _ (proj1 Hlate) Hc) Hsol) as Hno.
  simpl in Hno.
  assert (Hdiff : optional_interval (resource_id (resource_base resource)) t1
                    s1 d1 e1 a1
                  <> optional_interval (resource_id (resource_base resource)) t2
                       s2 d2 e2 a2).
  { intros Heq. apply Hne. unfold optional_interval in Heq.
    injection Heq as _ _ _ _ Hname.
    simpl in Hname.
    apply (inj (String.app (resource_id (resource_base resource)))) in Hname.
    apply (inj (String.app "_")) in Hname. exact Hname. }
  pose proof (no_overlap_pair value ivs _ _ Hno Hin1 Hin2 Hdiff) as Hdis.
  unfold present, disjoint, optional_interval in Hdis. simpl in Hdis.
  rewrite !negb_true_iff, !Z.eqb_neq in Hdis.
  specialize (Hdis Hv1 Hv2). apply orb_true_iff in Hdis.
  destruct Hdis as [H | H]; apply Z.leb_le in H; [left | right]; exact H.
Qed.

(** X27: for a model built on a fresh builder with distinct resource
    ids, a resource that is exclusive or has a total quantity of at
    most one is never used by two tasks at once: when the solver sets
    the assignment variables of two different tasks for it, one of the
    tasks ends no later than the other starts. *)
Theorem single_use_resource_never_overlaps (now : Z) (jobs : list Job)
  (resources : list Resource) (preparation_tasks : list PreparationTask)
  (config : ConstraintConfig) (m : CpModel.t) (b' : ConstraintBuilder.t)
  (resource : Resource) (t1 t2 : string) (a1 a2 s1 e1 s2 e2 : IntVar)
  (value : nat -> Z) :
  build_constraints now jobs resources preparation_tasks config (init m)
  = inr b' ->
  NoDup (map (fun r => resource_id (resource_base r)) resources) ->
  resource ∈ resources -> single_use resource ->
  t1 <> t2 ->
  assignment_var b' (resource_id (resource_base resource)) t1 = Some a1 ->
  assignment_var b' (resource_id (resource_base resource)) t2 = Some a2 ->
  Py.dict_get (task_starts b') t1 = Some s1 ->
  Py.dict_get (task_ends b') t1 = Some e1 ->
  Py.dict_get (task_starts b') t2 = Some s2 ->
  Py.dict_get (task_ends b') t2 = Some e2 ->
  solves value (model b') = true ->
  value (var_index a1) <> 0%Z -> value (var_index a2) <> 0%Z ->
  (value (var_index e1) <= value (var_index s2))%Z
  \/ (value (var_index e2) <= value (var_index s1))%Z.
Proof.
  apply single_use_holds.
Qed.

End ExclusiveUse.

Lemma single_use_resource_never_overlaps_witness :
  assignment_var (Samples.built Samples.plan_jobs Samples.plan_resources)
                 "H1" "J1"
  = Some (Samples.flag 6 "assign_H1_J1")
  /\ assignment_var (Samples.built Samples.plan_jobs Samples.plan_resources)
                    "H1" "J2"
     = Some (Samples.flag 7 "assign_H1_J2")
  /\ Samples.plan_values 6 <> 0%Z /\ Samples.plan_values 7 <> 0%Z
  /\ ((Samples.plan_values 2 <= Samples.plan_values 4)%Z
      \/ (Samples.plan_values 5 <= Samples.plan_values 1)%Z).
Proof.
  assert (Hb : ConstraintBuilder.build_constraints 0 Samples.plan_jobs
                 Samples.plan_resources [] Samples.config
                 (ConstraintBuilder.init CpModel.empty)
               = inr (Samples.built Samples.plan_jobs Samples.plan_resources))
    by (vm_compute; reflexivity).
  assert (Hsol : CpModel.solves Samples.plan_values
                   (ConstraintBuilder.model
                      (Samples.built Samples.plan_jobs Samples.plan_resources))
                 = true) by (vm_compute; reflexivity).
  assert (Hnd : NoDup (map (fun r => resource_id (resource_base r))
                           Samples.plan_resources))
    by (apply NoDup_singleton).
  assert (Ha1 : assignment_var
                  (Samples.built Samples.plan_jobs Samples.plan_resources)
                  "H1" "J1"
                = Some (Samples.flag 6 "assign_H1_J1"))
    by (vm_compute; reflexivity).
  assert (Ha2 : assignment_var
                  (Samples.built Samples.plan_jobs Samples.plan_resources)
                  "H1" "J2"
                = Some (Samples.flag 7 "assign_H1_J2"))
    by (vm_compute; reflexivity).
  assert (Hv1 : Samples.plan_values 6 <> 0%Z) by (vm_compute; discriminate).
  assert (Hv2 : Samples.plan_values 7 <> 0%Z) by (vm_compute; discriminate).
  repeat (split; [assumption |]).
  apply (single_use_resource_never_overlaps 0 Samples.plan_jobs
           Samples.plan_resources [] Samples.config CpModel.empty
           (Samples.built Samples.plan_jobs Samples.plan_resources)
           (Samples.human "H1" ["welder"]) "J1" "J2"
           (Samples.flag 6 "assign_H1_J1") (Samples.flag 7 "assign_H1_J2")
           (Samples.var 1 "start_J1") (Samples.var 2 "end_J1")
           (Samples.var 4 "start_J2") (Samples.var 5 "end_J2")
           Samples.plan_values Hb Hnd);
    try assumption; try (vm_compute; reflexivity).
  - left.
  - right. simpl. lia.
  - discriminate.
Defined.

(** ** Allocations of single-use resources *)

Section DoubleBooking.
Import CpModel ConstraintBuilder SolutionMetrics.

Lemma dict_set_elem {V : Type} (d : list (string * V)) k v k' v' :
  (k', v') ∈ Py.dict_set d k v -> (k' = k /\ v' = v) \/ (k', v') ∈ d.
Proof.
  induction d as [| [k1 v1] d IH]; simpl; intros Hin.
  - apply list_elem_of_singleton in Hin. left. split; congruence.
  - destruct (decide (k1 = k)) as [-> | Hne].
    + apply elem_of_cons in Hin as [Heq | Hin].
      * left. split; congruence.
      * right. right. exact Hin.
    + apply elem_of_cons in Hin as [Heq | Hin].
      * right. rewrite Heq. left.
      * destruct (IH Hin) as [H | H]; [left; exact H | right; right; exact H].
Qed.

Lemma dict_set_keys {V : Type} (d : list (string * V)) k v :
  NoDup (map fst d) -> NoDup (map fst (Py.dict_set d k v)).
Proof.
  induction d as [| [k' v'] d IH]; simpl; intros Hnd.
  - apply NoDup_singleton.
  - apply NoDup_cons in Hnd as [Hk Hnd].
    destruct (decide (k' = k)) as [-> | Hne]; simpl.
    + apply NoDup_cons. split; assumption.
    + apply NoDup_cons. split; [| apply IH; exact Hnd].
      intros Hin. apply list_elem_of_fmap in Hin as ([k0 v0] & Heq & Hin).
      simpl in Heq. subst k0.
      apply dict_set_elem in Hin as [[Heq _] | Hin]; [congruence |].
      apply Hk. apply list_elem_of_fmap. exists (k', v0).
      split; [reflexivity | exact Hin].
Qed.

Lemma dict_get_of_elem {V : Type} (d : list (string * V)) k v :
  NoDup (map fst d) -> (k, v) ∈ d -> Py.dict_get d k = Some v.
Proof.
  induction d as [| [k1 v1] d IH]; simpl; intros Hnd Hin; [inversion Hin |].
  apply NoDup_cons in Hnd as [Hk Hnd].
  destruct (decide (k1 = k)) as [-> | Hne].
  - apply elem_of_cons in Hin as [Heq | Hin]; [congruence |].
    exfalso. apply Hk. apply list_elem_of_fmap. exists (k, v).
    split; [reflexivity | exact Hin].
  - apply elem_of_cons in Hin as [Heq | Hin]; [congruence |].
    apply IH; assumption.
Qed.

Lemma assignments_keyed_set rid inner b :
  assignments_keyed b -> NoDup (map fst inner) ->
  assignments_keyed
    (set_resource_assignments
       (Py.dict_set (resource_assignments b) rid inner) b).
Proof.
  intros [Hk Hin] Hnd. split; simpl.
  - apply dict_set_keys. exact Hk.
  - intros r i Hri. apply dict_set_elem in Hri as [[_ ->] | Hri];
      [exact Hnd | eapply Hin; exact Hri].
Qed.

Lemma assign_task_keyed rid acc tid :
  assignments_keyed (snd acc) -> assignments_keyed (snd (assign_task rid acc tid)).
Proof.
  destruct acc as [ts b]. unfold assign_task. simpl. intros [Hk Hin].
  split; simpl.
  - apply dict_set_keys. exact Hk.
  - intros r i Hri. apply dict_set_elem in Hri as [[_ ->] | Hri];
      [| eapply Hin; exact Hri].
    apply dict_set_keys.
    destruct (Py.dict_get (resource_assignments b) rid) as [inner |] eqn:E;
      simpl; [| constructor].
    eapply Hin. apply dict_get_elem. exact E.
Qed.

Lemma adds_constraints_keyed b b' :
  adds_constraints b b' -> assignments_keyed b -> assignments_keyed b'.
Proof. intros [_ H]. unfold assignments_keyed. rewrite H. trivial. Qed.

Lemma build_one_resource_keyed jobs preps b resource b' :
  build_one_resource jobs preps b resource = inr b' ->
  assignments_keyed b -> assignments_keyed b'.
Proof.
  unfold build_one_resource. intros H Hb.
  set (rid := resource_id (resource_base resource)) in *.
  set (b0 := set_resource_assignments _ b) in *.
  set (I := fun acc : list string * ConstraintBuilder.t =>
              assignments_keyed (snd acc)).
  assert (H0 : I ([], b0)).
  { apply assignments_keyed_set; [exact Hb | constructor]. }
  set (acc1 := if is_human resource then _ else _) in *.
  assert (H1 : I acc1).
  { unfold acc1. destruct (is_human resource).
    - apply (fold_left_inv I); [exact H0 |].
      intros acc j. apply assign_task_keyed.
    - apply (fold_left_inv I); [exact H0 |]. intros acc j Hacc.
      destruct (has_resource_requirement j rid);
        [apply assign_task_keyed |]; exact Hacc. }
  match type of H with
  | context [fold_left ?f preps acc1] =>
      set (acc2 := fold_left f preps acc1) in *
  end.
  assert (H2 : I acc2).
  { unfold acc2. apply (fold_left_inv I); [exact H1 |].
    intros acc p Hacc. apply (fold_left_inv I); [exact Hacc |].
    intros acc' a Hacc'. destruct (bool_decide _);
      [apply assign_task_keyed |]; exact Hacc'. }
  destruct acc2 as [tasks b2]. unfold I in H2. simpl in H2.
  assert (Hadds : adds_constraints b2 b').
  { destruct (is_exclusive_physical resource);
      [eapply exclusive_grows; exact H |].
    unfold _build_cumulative_resource_constraint in H.
    destruct (bool_decide _); [eapply exclusive_grows; exact H |].
    injection H as <-. apply adds_constraints_refl. }
  eapply adds_constraints_keyed; eassumption.
Qed.

Lemma create_task_variables_assignments jobs preps config b :
  resource_assignments (_create_task_variables jobs preps config b)
  = resource_assignments b.
Proof.
  unfold _create_task_variables.
  set (H := default 168%Z (time_horizon_hours config)).
  apply (fold_left_inv
           (fun b' => resource_assignments b' = resource_assignments b));
    [apply (fold_left_inv
              (fun b' => resource_assignments b' = resource_assignments b)) |].
  - reflexivity.
  - intros b0 job Hb0. unfold create_job_variables.
    destruct (job_duration_var job (model b0)) as [dv m1]. exact Hb0.
  - intros b0 task Hb0. unfold create_prep_variables.
    destruct (NewConstant _ (model b0)) as [dv m1]. exact Hb0.
Qed.

Lemma built_assignments_keyed now jobs resources preps config (m : CpModel.t) b' :
  build_constraints now jobs resources preps config (init m) = inr b' ->
  assignments_keyed b'.
Proof.
  intros Hbuild.
  destruct (build_constraints_stages _ _ _ _ _ _ _ Hbuild)
    as (b3 & b5 & E3 & _ & _ & H12 & _ & H34 & H45 & H5).
  cbv zeta in *.
  assert (H1 : assignments_keyed
                 (_create_task_variables jobs preps config (init m))).
  { unfold assignments_keyed. rewrite create_task_variables_assignments.
    simpl. split; [constructor | intros r i Hri; inversion Hri]. }
  assert (H3 : assignments_keyed b3).
  { revert E3. unfold _build_resource_constraints.
    apply (foldE_inv assignments_keyed);
      [eapply adds_constraints_keyed; eassumption |].
    intros b0 r b1 _ Hb0 Hr. eapply build_one_resource_keyed; eassumption. }
  eapply adds_constraints_keyed; [exact H5 |].
  eapply adds_constraints_keyed; [exact H45 |].
  eapply adds_constraints_keyed; [exact H34 | exact H3].
Qed.

Lemma parsed_allocations_allocated value resources (b : ConstraintBuilder.t) p
  allocations :
  _parse_resource_allocations value resources (resource_assignments b)
                              (task_starts b) (task_ends b) p
  = inr allocations ->
  Forall (allocated_by value p resources b) allocations.
Proof.
  unfold _parse_resource_allocations.
  apply (foldE_inv (Forall (allocated_by value p resources b)));
    [constructor |].
  intros acc [rid assignments] acc' Hentry Hacc.
  destruct (Py.dict_get (resource_by_id resources) rid) as [resource |] eqn:Er;
    [| intros [= <-]; exact Hacc].
  destruct (resource_by_id_elem resources rid resource Er) as [Hres Hrid].
  apply (foldE_inv (Forall (allocated_by value p resources b)));
    [exact Hacc |].
  intros acc0 [tid v] acc1 Hitem Hacc0. unfold parse_assignment.
  destruct (Z.eqb_spec (value (var_index v)) 0) as [Hz | Hnz];
    [intros [= <-]; exact Hacc0 |].
  destruct (Py.dict_get (task_starts b) tid) as [s |] eqn:Es;
    [| intros [= <-]; exact Hacc0].
  destruct (Py.dict_get (task_ends b) tid) as [e |] eqn:Ee;
    [| intros [= <-]; exact Hacc0].
  match goal with
  | |- context [ResourceAllocation_new ?a] =>
      destruct (ResourceAllocation_new a) as [err | a'] eqn:Ea;
      [discriminate |];
      assert (Ha' : a' = a)
  end.
  { unfold ResourceAllocation_new in Ea.
    destruct (_ <=? _)%Z; [discriminate |].
    cbn [alloc_cost] in Ea.
    destruct (if Py.truthy_float _ then _ else _) as [c |];
      [destruct (Qle_bool 0 c); [| discriminate] |];
      injection Ea as <-; reflexivity. }
  simpl. intros [= <-]. apply Forall_app. split; [exact Hacc0 |].
  repeat constructor. subst a'.
  exists assignments, v, s, e. simpl. repeat split; try assumption.
  apply list_elem_of_fmap. exists resource. split; [symmetry |]; assumption.
Qed.

(** X28: the allocations that [_parse_resource_allocations] returns
    for a solution of a model built on a fresh builder never book a
    single-use resource twice at once: two allocations of the resource
    to different tasks do not overlap in time. *)
Theorem allocations_never_double_book (now : Z) (jobs : list Job)
  (resources : list Resource) (preparation_tasks : list PreparationTask)
  (config : ConstraintConfig) (m : CpModel.t) (b' : ConstraintBuilder.t)
  (value : nat -> Z) (plan_start_time : Z)
  (allocations : list ResourceAllocation) (resource : Resource)
  (first second : ResourceAllocation) :
  build_constraints now jobs resources preparation_tasks config (init m)
  = inr b' ->
  NoDup (map (fun r => resource_id (resource_base r)) resources) ->
  solves value (model b') = true ->
  _parse_resource_allocations value resources (resource_assignments b')
                              (task_starts b') (task_ends b') plan_start_time
  = inr allocations ->
  resource ∈ resources -> single_use resource ->
  first ∈ allocations -> second ∈ allocations ->
  alloc_resource_id first = resource_id (resource_base resource) ->
  alloc_resource_id second = resource_id (resource_base resource) ->
  allocated_to first <> allocated_to second ->
  (alloc_end_time first <= alloc_start_time second)%Z
  \/ (alloc_end_time second <= alloc_start_time first)%Z.
Proof.
  intros Hbuild Hnd Hsol Hparse Hres Hsingle H1 H2 Hr1 Hr2 Hne.
  pose proof (parsed_allocations_allocated _ _ _ _ _ Hparse) as Hall.
  rewrite Forall_forall in Hall.
  destruct (Hall first H1)
    as (as1 & v1 & s1 & e1 & Hra1 & Hv1 & Hnz1 & _ & Hs1 & He1 & Hst1 & Hen1).
  destruct (Hall second H2)
    as (as2 & v2 & s2 & e2 & Hra2 & Hv2 & Hnz2 & _ & Hs2 & He2 & Hst2 & Hen2).
  destruct (built_assignments_keyed _ _ _ _ _ _ _ Hbuild) as [Hk Hinner].
  assert (Ha1 : assignment_var b' (resource_id (resource_base resource))
                               (allocated_to first) = Some v1).
  { unfold assignment_var. rewrite <- Hr1.
    rewrite (dict_get_of_elem _ _ _ Hk Hra1). simpl.
    apply dict_get_of_elem; [eapply Hinner; exact Hra1 | exact Hv1]. }
  assert (Ha2 : assignment_var b' (resource_id (resource_base resource))
                               (allocated_to second) = Some v2).
  { unfold assignment_var. rewrite <- Hr2.
    rewrite (dict_get_of_elem _ _ _ Hk Hra2). simpl.
    apply dict_get_of_elem; [eapply Hinner; exact Hra2 | exact Hv2]. }
  destruct (single_use_holds now jobs resources preparation_tasks config m b'
              resource (allocated_to first) (allocated_to second) v1 v2 s1 e1
              s2 e2 value Hbuild Hnd Hres Hsingle Hne Ha1 Ha2 Hs1 He1 Hs2 He2
              Hsol Hnz1 Hnz2) as [Hle | Hle];
    [left; rewrite Hen1, Hst2 | right; rewrite Hen2, Hst1];
    unfold Py.timedelta_minutes, Py.us_per_minute, Py.us_per_second; lia.
Qed.

End DoubleBooking.

Lemma allocations_never_double_book_witness :
  exists first second allocations,
    SolutionMetrics._parse_resource_allocations Samples.plan_values
      Samples.plan_resources
      (ConstraintBuilder.resource_assignments
         (Samples.built Samples.plan_jobs Samples.plan_resources))
      (ConstraintBuilder.task_starts
         (Samples.built Samples.plan_jobs Samples.plan_resources))
      (ConstraintBuilder.task_ends
         (Samples.built Samples.plan_jobs Samples.plan_resources))
      0
    = inr allocations
    /\ first ∈ allocations /\ second ∈ allocations
    /\ SolutionMetrics.allocated_to first = "J1"
    /\ SolutionMetrics.allocated_to second = "J2"
    /\ ((SolutionMetrics.alloc_end_time first
         <= SolutionMetrics.alloc_start_time second)%Z
        \/ (SolutionMetrics.alloc_end_time second
            <= SolutionMetrics.alloc_start_time first)%Z).
Proof.
  assert (Hb : ConstraintBuilder.build_constraints 0 Samples.plan_jobs
                 Samples.plan_resources [] Samples.config
                 (ConstraintBuilder.init CpModel.empty)
               = inr (Samples.built Samples.plan_jobs Samples.plan_resources))
    by (vm_compute; reflexivity).
  assert (Hsol : CpModel.solves Samples.plan_values
                   (ConstraintBuilder.model
                      (Samples.built Samples.plan_jobs Samples.plan_resources))
                 = true) by (vm_compute; reflexivity).
  assert (Hnd : NoDup (map (fun r => resource_id (resource_base r))
                           Samples.plan_resources))
    by (apply NoDup_singleton).
  assert (Hp : exists first second,
             SolutionMetrics._parse_resource_allocations Samples.plan_values
               Samples.plan_resources
               (ConstraintBuilder.resource_assignments
                  (Samples.built Samples.plan_jobs Samples.plan_resources))
               (ConstraintBuilder.task_starts
                  (Samples.built Samples.plan_jobs Samples.plan_resources))
               (ConstraintBuilder.task_ends
                  (Samples.built Samples.plan_jobs Samples.plan_resources))
               0
             = inr [first; second]
             /\ SolutionMetrics.allocated_to first = "J1"
             /\ SolutionMetrics.allocated_to second = "J2"
             /\ SolutionMetrics.alloc_resource_id first = "H1"
             /\ SolutionMetrics.alloc_resource_id second = "H1").
  { vm_compute. eexists _, _. repeat split. }
  destruct Hp as (first & second & Hp & Hid1 & Hid2 & Hr1 & Hr2).
  exists first, second, [first; second].
  assert (H1 : first ∈ [first; second]) by left.
  assert (H2 : second ∈ [first; second]) by (right; left).
  repeat (split; [assumption |]).
  apply (allocations_never_double_book 0 Samples.plan_jobs
           Samples.plan_resources [] Samples.config CpModel.empty _
           Samples.plan_values 0 [first; second]
           (Samples.human "H1" ["welder"]) first second Hb Hnd Hsol Hp);
    try assumption.
  - left.
  - right. simpl. lia.
  - rewrite Hid1, Hid2. discriminate.
Defined.
